(** * Cursors of schema-ui: a shallow embedding

    The development follows the TypeScript sources
    - [cursors/endpoint-cursor.ts] (the agent-backed cursor and the generic
      pagination extractor), and
    - [cursors/value-cursor.ts] (the in-memory cursor and the filter/sort
      helpers).

    JavaScript values are modelled by the inductive type [JValue]; code that
    can raise returns a [Result]; mutable fields become record fields of an
    explicit state that every operation takes and returns; the descriptor
    arrays that are shared between the caller and a cursor live in a store
    and are named by their location. *)

From Stdlib Require Import ZArith List String Ascii Bool Lia DecimalString.
Import ListNotations.

Open Scope string_scope.
Open Scope Z_scope.

(** ** Outcomes of code that may raise *)

(** What a [throw] carries, and what a promise is rejected with. *)
Inductive Cause : Type :=
| TypeErr (msg : string)          (* a TypeError raised by the runtime *)
| Err (msg : string)              (* [new Error(msg)] *)
| Reason (msg : string).          (* a bare string, as in [Promise.reject('...')] *)

Inductive Result (A : Type) : Type :=
| Ok (a : A)
| Throw (e : Cause).

Arguments Ok {A} a.
Arguments Throw {A} e.

Definition bind {A B : Type} (r : Result A) (k : A -> Result B) : Result B :=
  match r with
  | Ok a => k a
  | Throw e => Throw e
  end.

Notation "x <- r ;; k" := (bind r (fun x => k))
  (at level 61, r at next level, right associativity).

(** ** JavaScript values

    Numbers are the integers together with the three non-finite values; the
    functions below never produce a fraction from integers.  Objects keep
    their fields in enumeration order. *)

Inductive Num : Type :=
| Fin (z : Z)
| NaN
| Inf (positive : bool).

#[local] Set Warnings "-register-all".

Inductive JValue : Type :=
| JUndefined
| JNull
| JBool (b : bool)
| JNum (n : Num)
| JStr (s : string)
| JArr (elems : list JValue)
| JObj (fields : list (string * JValue)).

(** An integer as a JavaScript number. *)
Definition JInt (z : Z) : JValue := JNum (Fin z).

Module JS.

Fixpoint assoc {A : Type} (k : string) (l : list (string * A)) : option A :=
  match l with
  | [] => None
  | (k', v) :: rest => if String.eqb k k' then Some v else assoc k rest
  end.

Definition hasKey {A : Type} (k : string) (l : list (string * A)) : bool :=
  match assoc k l with Some _ => true | None => false end.

(** Property assignment [obj[k] = v] on an object literal: an existing key
    keeps its place, a new key goes last. *)
Fixpoint setKey {A : Type} (k : string) (v : A) (l : list (string * A))
  : list (string * A) :=
  match l with
  | [] => [(k, v)]
  | (k', v') :: rest =>
      if String.eqb k k' then (k, v) :: rest else (k', v') :: setKey k v rest
  end.

Definition natToString (n : nat) : string :=
  NilZero.string_of_uint (Nat.to_uint n).

Definition intToString (z : Z) : string :=
  NilZero.string_of_int (Z.to_int z).

Fixpoint chars (s : string) : list string :=
  match s with
  | EmptyString => []
  | String c rest => String c EmptyString :: chars rest
  end.

(** The element named by an index key ["0"], ["1"], ... of an array-like. *)
Fixpoint atIndexKey {A : Type} (key : string) (i : nat) (l : list A) : option A :=
  match l with
  | [] => None
  | x :: rest =>
      if String.eqb key (natToString i) then Some x else atIndexKey key (S i) rest
  end.

Definition orUndefined (o : option JValue) : JValue :=
  match o with Some v => v | None => JUndefined end.

(** [data[key]] for a string key.  Reading a property of [null] or
    [undefined] raises; arrays and strings have [length] and their indices;
    other primitives have no own property.  Inherited members of the
    built-in prototypes are functions, which lie outside [JValue]; none of
    the keys the cursors read names one. *)
Definition getProp (data : JValue) (key : string) : Result JValue :=
  match data with
  | JUndefined => Throw (TypeErr "Cannot read properties of undefined")
  | JNull => Throw (TypeErr "Cannot read properties of null")
  | JObj fields => Ok (orUndefined (assoc key fields))
  | JArr elems =>
      if String.eqb key "length" then Ok (JInt (Z.of_nat (List.length elems)))
      else Ok (orUndefined (atIndexKey key 0 elems))
  | JStr s =>
      if String.eqb key "length" then Ok (JInt (Z.of_nat (String.length s)))
      else Ok (orUndefined (option_map JStr (atIndexKey key 0 (chars s))))
  | _ => Ok JUndefined
  end.

(** [v != null] *)
Definition notNullish (v : JValue) : bool :=
  match v with
  | JUndefined | JNull => false
  | _ => true
  end.

Definition lowerAscii (c : ascii) : ascii :=
  let n := nat_of_ascii c in
  if (andb (Nat.leb 65 n) (Nat.leb n 90)) then ascii_of_nat (n + 32) else c.

Definition upperAscii (c : ascii) : ascii :=
  let n := nat_of_ascii c in
  if (andb (Nat.leb 97 n) (Nat.leb n 122)) then ascii_of_nat (n - 32) else c.

(** [s.toLowerCase()], on ASCII letters. *)
Fixpoint toLowerCase (s : string) : string :=
  match s with
  | EmptyString => EmptyString
  | String c rest => String (lowerAscii c) (toLowerCase rest)
  end.

(** [s.indexOf(t) >= 0] *)
Fixpoint contains (s t : string) : bool :=
  if String.prefix t s then true
  else match s with
       | EmptyString => false
       | String _ rest => contains rest t
       end.

Fixpoint join (sep : string) (l : list string) : string :=
  match l with
  | [] => ""
  | [x] => x
  | x :: rest => x ++ sep ++ join sep rest
  end.

End JS.

(** ** The lodash helpers the cursors call *)

Module Lodash.

(** [_.isFinite]: a number that is neither NaN nor infinite. *)
Definition isFinite (v : JValue) : bool :=
  match v with JNum (Fin _) => true | _ => false end.

Definition isArray (v : JValue) : bool :=
  match v with JArr _ => true | _ => false end.

Definition isNumber (v : JValue) : bool :=
  match v with JNum _ => true | _ => false end.

Definition isString (v : JValue) : bool :=
  match v with JStr _ => true | _ => false end.

(** [_.isEmpty]: no elements for arrays and strings, no own key for
    objects, and [true] for every other value. *)
Definition isEmpty (v : JValue) : bool :=
  match v with
  | JArr [] => true
  | JArr _ => false
  | JStr EmptyString => true
  | JStr _ => false
  | JObj [] => true
  | JObj _ => false
  | _ => true
  end.

Definition includesStr (l : list string) (s : string) : bool :=
  existsb (String.eqb s) l.

(** [_.findKey(v, (_, k) => p k)]: the first own key of an object that
    satisfies [p].  The keys of arrays and strings are their indices. *)
Definition findKey (v : JValue) (p : string -> bool) : option string :=
  match v with
  | JObj fields => find p (map fst fields)
  | JArr elems => find p (map JS.natToString (seq 0 (List.length elems)))
  | JStr s => find p (map JS.natToString (seq 0 (String.length s)))
  | _ => None
  end.

Definition isUpper (c : ascii) : bool :=
  let n := nat_of_ascii c in andb (Nat.leb 65 n) (Nat.leb n 90).
Definition isLower (c : ascii) : bool :=
  let n := nat_of_ascii c in andb (Nat.leb 97 n) (Nat.leb n 122).
Definition isDigit (c : ascii) : bool :=
  let n := nat_of_ascii c in andb (Nat.leb 48 n) (Nat.leb n 57).
Definition isAlnum (c : ascii) : bool :=
  isUpper c || isLower c || isDigit c.

(** Whether a new word starts at [c], which follows [p] and precedes [n]. *)
Definition wordBreak (p c : ascii) (n : option ascii) : bool :=
  (isLower p && isUpper c)
  || ((isUpper p || isLower p) && isDigit c)
  || (isDigit p && (isUpper c || isLower c))
  || (isUpper p && isUpper c
      && match n with Some n' => isLower n' | None => false end).

Definition peek (s : string) : option ascii :=
  match s with String c _ => Some c | EmptyString => None end.

Definition flush (cur : string) (acc : list string) : list string :=
  match cur with EmptyString => acc | _ => acc ++ [cur] end.

(** [_.words] on ASCII identifiers: maximal runs of letters and digits, cut
    at camelCase humps, at the end of an acronym and between letters and
    digits.  [cur] is the word being read, [prev] its last character. *)
Fixpoint wordsFrom (s : string) (prev : option ascii) (cur : string)
         (acc : list string) : list string :=
  match s with
  | EmptyString => flush cur acc
  | String c rest =>
      if isAlnum c then
        match prev with
        | Some p =>
            if wordBreak p c (peek rest)
            then wordsFrom rest (Some c) (String c EmptyString) (flush cur acc)
            else wordsFrom rest (Some c) (cur ++ String c EmptyString) acc
        | None => wordsFrom rest (Some c) (String c EmptyString) (flush cur acc)
        end
      else wordsFrom rest None EmptyString (flush cur acc)
  end.

Definition words (s : string) : list string := wordsFrom s None "" [].

Definition snakeCase (s : string) : string :=
  JS.join "_" (map JS.toLowerCase (words s)).

Definition kebabCase (s : string) : string :=
  JS.join "-" (map JS.toLowerCase (words s)).

Definition upperFirst (s : string) : string :=
  match s with
  | EmptyString => EmptyString
  | String c rest => String (JS.upperAscii c) rest
  end.

(** [_.trimStart(s, '/')] *)
Fixpoint trimStartSlash (s : string) : string :=
  match s with
  | String "/"%char rest => trimStartSlash rest
  | _ => s
  end.

(** [_.slice(array, start, end)] for integer bounds, after lodash's
    [baseSlice]: a negative bound counts from the end of the array. *)
Definition slice {A : Type} (array : list A) (start stop : Z) : list A :=
  let length := Z.of_nat (List.length array) in
  let start := if start <? 0
               then (if - start >? length then 0 else length + start)
               else start in
  let stop := if stop >? length then length else stop in
  let stop := if stop <? 0 then stop + length else stop in
  let size := if start >? stop then 0 else stop - start in
  firstn (Z.to_nat size) (skipn (Z.to_nat start) array).

(** [_.flatten]: one level; a value that is not an array stays an element. *)
Definition flatten (l : list JValue) : list JValue :=
  flat_map (fun v => match v with JArr elems => elems | _ => [v] end) l.

End Lodash.

(** ** The generic pagination extractor (endpoint-cursor.ts) *)

Module Normalizer.

Definition paginationPageLimitProperties : list string := ["limit"; "perPage"].
Definition paginationPageProperties : list string := ["index"; "page"; "pageNumber"].
Definition paginationPageCountProperties : list string :=
  ["pages"; "numPages"; "length"; "size"].
Definition paginationCollectionCountProperties : list string :=
  ["totalCount"; "itemCount"].
Definition paginationPageItemsProperties : list string :=
  ["items"; "data"; "collection"].
Definition paginationMetaKeys : list string := ["pagination"; "meta"].

(** [Partial<PaginationInfo<T>>]: a field that was never assigned reads
    [undefined]. *)
Record PaginationInfo : Type := mkInfo {
  items : JValue;
  totalPages : JValue;
  count : JValue
}.

Definition emptyInfo : PaginationInfo := mkInfo JUndefined JUndefined JUndefined.

Definition setItems (p : PaginationInfo) (v : JValue) : PaginationInfo :=
  mkInfo v (totalPages p) (count p).
Definition setTotalPages (p : PaginationInfo) (v : JValue) : PaginationInfo :=
  mkInfo (items p) v (count p).
Definition setCount (p : PaginationInfo) (v : JValue) : PaginationInfo :=
  mkInfo (items p) (totalPages p) v.

Record Response : Type := mkResponse {
  body : JValue;
  headers : JValue
}.

(** The loop of [checkDataKey] over the three spellings.  Its body tests
    and returns [data[key]]; the loop variable [testable] does not occur
    in it. *)
Fixpoint checkDataKeyLoop (validator : JValue -> bool) (data : JValue)
         (key : string) (testables : list string) : Result JValue :=
  match testables with
  | [] => Ok JNull
  | _testable :: rest =>
      v <- JS.getProp data key ;;
      if JS.notNullish v && validator v then Ok v
      else checkDataKeyLoop validator data key rest
  end.

Definition checkDataKey (validator : JValue -> bool) (data : JValue)
           (key : string) : Result JValue :=
  checkDataKeyLoop validator data key
    [key; Lodash.snakeCase key; Lodash.kebabCase key].

(** One [for (let key of keys)] loop of [genericPaginationInfoKeyExtractor]:
    [break] as soon as [stop] holds of the field, else assign the field
    from [checkDataKey]. *)
Fixpoint fillField (get : PaginationInfo -> JValue)
         (set : PaginationInfo -> JValue -> PaginationInfo)
         (stop validator : JValue -> bool) (data : JValue)
         (keys : list string) (partial : PaginationInfo) : Result PaginationInfo :=
  match keys with
  | [] => Ok partial
  | key :: rest =>
      if stop (get partial) then Ok partial
      else
        v <- checkDataKey validator data key ;;
        fillField get set stop validator data rest (set partial v)
  end.

Definition genericPaginationInfoKeyExtractor (partial : PaginationInfo)
           (data : JValue) : Result PaginationInfo :=
  (* Try to set the item count. *)
  partial <- fillField count setCount Lodash.isFinite Lodash.isFinite data
               paginationCollectionCountProperties partial ;;
  (* Try to set the page count. *)
  partial <- fillField totalPages setTotalPages Lodash.isFinite Lodash.isFinite data
               paginationPageCountProperties partial ;;
  (* Try to set the items array: the loop is left on [_.isFinite(partial.items)]. *)
  fillField items setItems Lodash.isFinite Lodash.isArray data
    paginationPageItemsProperties partial.

Definition isMetaKey (k : string) : bool :=
  Lodash.includesStr paginationMetaKeys (JS.toLowerCase k).

Definition genericPaginationInfoExtractor (response : Response)
  : Result PaginationInfo :=
  (* Check the body *)
  result <- genericPaginationInfoKeyExtractor emptyInfo (body response) ;;
  (* Check the headers. *)
  result <- (if Lodash.isEmpty (headers response) then Ok result
             else genericPaginationInfoKeyExtractor result (headers response)) ;;
  (* Check the body sub-keys *)
  match Lodash.findKey (body response) isMetaKey with
  | Some usable =>
      sub <- JS.getProp (body response) usable ;;
      genericPaginationInfoKeyExtractor result sub
  | None => Ok result
  end.

(** The key lookup as the specification words it: the value under the key
    verbatim, else under its snake_case form, else under its kebab-case
    form.  Used only for comparison with [checkDataKey]. *)
Fixpoint checkDataKeySpecLoop (validator : JValue -> bool) (data : JValue)
         (testables : list string) : Result JValue :=
  match testables with
  | [] => Ok JNull
  | testable :: rest =>
      v <- JS.getProp data testable ;;
      if JS.notNullish v && validator v then Ok v
      else checkDataKeySpecLoop validator data rest
  end.

Definition checkDataKeySpec (validator : JValue -> bool) (data : JValue)
           (key : string) : Result JValue :=
  checkDataKeySpecLoop validator data
    [key; Lodash.snakeCase key; Lodash.kebabCase key].

(** The extractor as the specification words it: each source fills the
    fields that are still unset, a field that is set is left alone, and
    every candidate key is tried in its three spellings.  Used only for
    comparison with [genericPaginationInfoExtractor]. *)
Fixpoint fillFieldSpec (get : PaginationInfo -> JValue)
         (set : PaginationInfo -> JValue -> PaginationInfo)
         (validator : JValue -> bool) (data : JValue)
         (keys : list string) (partial : PaginationInfo) : Result PaginationInfo :=
  match keys with
  | [] => Ok partial
  | key :: rest =>
      if validator (get partial) then Ok partial
      else
        v <- checkDataKeySpec validator data key ;;
        fillFieldSpec get set validator data rest (set partial v)
  end.

Definition keyExtractorSpec (partial : PaginationInfo) (data : JValue)
  : Result PaginationInfo :=
  partial <- fillFieldSpec count setCount Lodash.isFinite data
               paginationCollectionCountProperties partial ;;
  partial <- fillFieldSpec totalPages setTotalPages Lodash.isFinite data
               paginationPageCountProperties partial ;;
  fillFieldSpec items setItems Lodash.isArray data
    paginationPageItemsProperties partial.

Definition extractorSpec (response : Response) : Result PaginationInfo :=
  result <- keyExtractorSpec emptyInfo (body response) ;;
  result <- (if Lodash.isEmpty (headers response) then Ok result
             else keyExtractorSpec result (headers response)) ;;
  match Lodash.findKey (body response) isMetaKey with
  | Some usable =>
      sub <- JS.getProp (body response) usable ;;
      keyExtractorSpec result sub
  | None => Ok result
  end.

End Normalizer.

(** ** Library functions taken as given

    Three functions the cursors call are not part of the sources and are not
    modelled in full: the conversion of a string to a number, json-pointer's
    [get] and lodash's [_.orderBy].  The definitions below take them from a
    record; [Reference] gives instances for running examples.  Both
    [pointer.get] and [_.orderBy] can raise: the first on a path that does
    not resolve, the second when it compares a value that has no primitive
    form. *)

Record Externals : Type := mkExternals {
  stringToNumber : string -> Num;
  pointerGet : JValue -> string -> Result JValue;
  orderBy : list JValue -> list string -> list string -> Result (list JValue)
}.

(** ** Conversions *)

Module Coerce.

Definition boolToString (b : bool) : string := if b then "true" else "false".

Definition numToString (n : Num) : string :=
  match n with
  | Fin z => JS.intToString z
  | NaN => "NaN"
  | Inf true => "Infinity"
  | Inf false => "-Infinity"
  end.

(** [String(v)].  An array joins its elements with a comma, [null] and
    [undefined] elements giving the empty string.  An object is
    ["[object Object]"], unless it has an own property [toString]: in a
    JSON value that property is not a function, and the conversion raises. *)
Fixpoint toString (v : JValue) : Result string :=
  match v with
  | JUndefined => Ok "undefined"
  | JNull => Ok "null"
  | JBool b => Ok (boolToString b)
  | JNum n => Ok (numToString n)
  | JStr s => Ok s
  | JArr elems =>
      parts <- (fix each (l : list JValue) : Result (list string) :=
                  match l with
                  | [] => Ok []
                  | x :: rest =>
                      s <- match x with
                           | JUndefined | JNull => Ok ""
                           | _ => toString x
                           end ;;
                      ss <- each rest ;;
                      Ok (s :: ss)
                  end) elems ;;
      Ok (JS.join "," parts)
  | JObj fields =>
      if JS.hasKey "toString" fields
      then Throw (TypeErr "Cannot convert object to primitive value")
      else Ok "[object Object]"
  end.

(** The number a value stands for on the right of [<], [<=], [>] and [>=]
    when the left operand is a number. *)
Definition toNumber (ext : Externals) (v : JValue) : Result Num :=
  match v with
  | JUndefined => Ok NaN
  | JNull => Ok (Fin 0)
  | JBool b => Ok (Fin (if b then 1 else 0))
  | JNum n => Ok n
  | JStr s => Ok (stringToNumber ext s)
  | JArr _ | JObj _ => s <- toString v ;; Ok (stringToNumber ext s)
  end.

Definition numLt (a b : Num) : bool :=
  match a, b with
  | Fin x, Fin y => x <? y
  | Fin _, Inf p => p
  | Inf p, Fin _ => negb p
  | Inf p, Inf q => negb p && q
  | _, _ => false
  end.

Definition numLe (a b : Num) : bool :=
  match a, b with
  | NaN, _ | _, NaN => false
  | _, _ => negb (numLt b a)
  end.

Definition numGt (a b : Num) : bool := numLt b a.
Definition numGe (a b : Num) : bool := numLe b a.

Definition numEq (a b : Num) : bool :=
  match a, b with
  | Fin x, Fin y => x =? y
  | NaN, NaN => true
  | Inf p, Inf q => Bool.eqb p q
  | _, _ => false
  end.

(** The equality of [_.includes]: NaN equals itself; an array or an object
    equals only itself, and a value read from an element of the collection
    is taken to be a different object from every member of the array it is
    looked up in. *)
Definition sameValueZero (a b : JValue) : bool :=
  match a, b with
  | JUndefined, JUndefined => true
  | JNull, JNull => true
  | JBool x, JBool y => Bool.eqb x y
  | JNum x, JNum y => numEq x y
  | JStr x, JStr y => String.eqb x y
  | _, _ => false
  end.

End Coerce.

(** ** Descriptors and loading states *)

(** Modelled from the spec: the enum [CollectionFilterOperator] of
    filterable-cursor.ts, which is not among the sources; the specification
    lists its ten members.  [OtherOperator] stands for any value outside the
    enum, which [applyFilter] handles in its [default] branch. *)
Inductive CollectionFilterOperator : Type :=
| Contains | NotContains | Equals | NotEquals
| LessThan | LessThanOrEquals | GreaterThan | GreaterThanOrEquals
| In | NotIn
| OtherOperator.

(** Modelled from the spec: the enum [SortingDirection] of sortable-cursor.ts,
    which is not among the sources; [Ascending] indexes ['asc'] and
    [Descending] indexes ['desc'] in [sortCollectionBy]. *)
Inductive SortingDirection : Type := Ascending | Descending.

(** Modelled from the spec: the enum [CursorLoadingState] of cursor.ts, which
    is not among the sources: "Uninitialized < Loading < Ready, plus a
    terminal Empty and an Error state". *)
Inductive CursorLoadingState : Type :=
| Uninitialized | Loading | Ready | Empty | Error.

(** A descriptor is an object: [oid] is its identity, which is what
    [_.includes] compares. *)
Record CollectionFilterDescriptor : Type := mkFilter {
  filter_oid : nat;
  filter_path : string;
  filter_operator : CollectionFilterOperator;
  filter_value : JValue
}.

Record CollectionSortDescriptor : Type := mkSort {
  sort_oid : nat;
  sort_path : string;
  sort_direction : SortingDirection
}.

(** Modelled from the spec: the interface [CursorColumnDefinition] of
    columnized-cursor.ts, which is not among the sources:
    "{name, path?, filterable, sortable}". *)
Record CursorColumnDefinition : Type := mkColumn {
  column_name : string;
  column_path : option string;
  column_filterable : bool;
  column_sortable : bool
}.

(** ** The filter and sort helpers (value-cursor.ts) *)

Module Engine.

Definition lengthOf (val : JValue) : option Z :=
  match val with
  | JStr s => Some (Z.of_nat (String.length s))
  | JArr elems => Some (Z.of_nat (List.length elems))
  | _ => None
  end.

(** The four ordering cases of [applyFilter] share their shape:
    [val rel filter.value] for a number, [val.length rel filter.value] for
    a string or an array, [false] otherwise. *)
Definition compareWith (ext : Externals) (rel : Num -> Num -> bool)
           (filter : CollectionFilterDescriptor) (val : JValue) : Result bool :=
  match val with
  | JNum n =>
      m <- Coerce.toNumber ext (filter_value filter) ;; Ok (rel n m)
  | JStr _ | JArr _ =>
      match lengthOf val with
      | Some len =>
          m <- Coerce.toNumber ext (filter_value filter) ;; Ok (rel (Fin len) m)
      | None => Ok false
      end
  | _ => Ok false
  end.

Definition stringEquals (a b : JValue) : Result bool :=
  x <- Coerce.toString a ;; y <- Coerce.toString b ;; Ok (String.eqb x y).

Definition stringContains (a b : JValue) : Result bool :=
  x <- Coerce.toString a ;; y <- Coerce.toString b ;; Ok (JS.contains x y).

(** [applyFilter].  The [default] branch logs and returns [undefined],
    which [_.every] reads as [false]. *)
Definition applyFilter (ext : Externals) (filter : CollectionFilterDescriptor)
           (val : JValue) : Result bool :=
  match filter_operator filter with
  | Contains => stringContains val (filter_value filter)
  | NotContains => b <- stringContains val (filter_value filter) ;; Ok (negb b)
  | Equals => stringEquals val (filter_value filter)
  | NotEquals => b <- stringEquals val (filter_value filter) ;; Ok (negb b)
  | LessThan => compareWith ext Coerce.numLt filter val
  | LessThanOrEquals => compareWith ext Coerce.numLe filter val
  | GreaterThan => compareWith ext Coerce.numGt filter val
  | GreaterThanOrEquals => compareWith ext Coerce.numGe filter val
  | In =>
      match filter_value filter with
      | JArr members => Ok (existsb (fun m => Coerce.sameValueZero m val) members)
      | _ => stringEquals val (filter_value filter)
      end
  | NotIn =>
      match filter_value filter with
      | JArr members => Ok (negb (existsb (fun m => Coerce.sameValueZero m val) members))
      | _ => stringEquals val (filter_value filter)
      end
  | OtherOperator => Ok false
  end.

(** [_.every(filters, f => applyFilter(f, pointer.get(x, f.path)))] *)
Fixpoint everyFilter (ext : Externals) (x : JValue)
         (filters : list CollectionFilterDescriptor) : Result bool :=
  match filters with
  | [] => Ok true
  | f :: rest =>
      val <- pointerGet ext x (filter_path f) ;;
      b <- applyFilter ext f val ;;
      if b then everyFilter ext x rest else Ok false
  end.

(** [_.filter] with a predicate that may raise. *)
Fixpoint filterR {A : Type} (p : A -> Result bool) (l : list A) : Result (list A) :=
  match l with
  | [] => Ok []
  | x :: rest =>
      b <- p x ;;
      kept <- filterR p rest ;;
      Ok (if b then x :: kept else kept)
  end.

Definition filterCollectionBy (ext : Externals) (collection : list JValue)
           (filters : list CollectionFilterDescriptor) : Result (list JValue) :=
  filterR (fun x => everyFilter ext x filters) collection.

Definition directionName (d : SortingDirection) : string :=
  match d with Ascending => "asc" | Descending => "desc" end.

Definition sortCollectionBy (ext : Externals) (collection : list JValue)
           (sorters : list CollectionSortDescriptor) : Result (list JValue) :=
  orderBy ext collection
    (map (fun x => Lodash.trimStartSlash (sort_path x)) sorters)
    (map (fun x => directionName (sort_direction x)) sorters).

(** The keys a [for (var key in x)] loop visits. *)
Definition enumerableKeys (x : JValue) : list string :=
  match x with
  | JObj fields => map fst fields
  | JArr elems => map JS.natToString (seq 0 (List.length elems))
  | JStr s => map JS.natToString (seq 0 (String.length s))
  | _ => []
  end.

(** [x.hasOwnProperty(key)] for a key the loop visits.  An object with an
    own property [hasOwnProperty] shadows the method by a value that is not
    a function. *)
Definition hasOwnProperty (x : JValue) (key : string) : Result bool :=
  match x with
  | JObj fields =>
      if JS.hasKey "hasOwnProperty" fields
      then Throw (TypeErr "x.hasOwnProperty is not a function")
      else Ok (JS.hasKey key fields)
  | _ => Ok true
  end.

(** The body of the search predicate:
    [for (var key in x) if (x.hasOwnProperty(key) &&
       String(x[key]).toLowerCase().indexOf(qry) >= 0) return true;
     return false]. *)
Fixpoint searchKeys (qry : string) (x : JValue) (keys : list string) : Result bool :=
  match keys with
  | [] => Ok false
  | key :: rest =>
      own <- hasOwnProperty x key ;;
      if own then
        v <- JS.getProp x key ;;
        s <- Coerce.toString v ;;
        if JS.contains (JS.toLowerCase s) qry then Ok true
        else searchKeys qry x rest
      else searchKeys qry x rest
  end.

Definition searchMatches (qry : string) (x : JValue) : Result bool :=
  searchKeys qry x (enumerableKeys x).

End Engine.

(** ** Arrays shared with the caller

    The descriptor lists of a value cursor are JavaScript arrays, and an
    array handed to the cursor may be kept by it.  Arrays are therefore held
    in a store and named by their location; one store per element type. *)

Module Heap.

Record t : Type := mk {
  filterArrays : list (list CollectionFilterDescriptor);
  sortArrays : list (list CollectionSortDescriptor);
  columnArrays : list (list CursorColumnDefinition);
  nextOid : nat        (* the identity of the next descriptor object created *)
}.

Definition empty : t := mk [] [] [] 0.

Definition read {A : Type} (arrays : list (list A)) (loc : nat) : list A :=
  nth loc arrays [].

Fixpoint write {A : Type} (arrays : list (list A)) (loc : nat) (v : list A)
  : list (list A) :=
  match arrays, loc with
  | [], _ => []
  | _ :: rest, O => v :: rest
  | a :: rest, S n => a :: write rest n v
  end.

(** A new array: its location has never been used. *)
Definition alloc {A : Type} (arrays : list (list A)) (v : list A)
  : nat * list (list A) :=
  (List.length arrays, (arrays ++ [v])%list).

Definition withFilters (h : t) (arrays : list (list CollectionFilterDescriptor)) : t :=
  mk arrays (sortArrays h) (columnArrays h) (nextOid h).
Definition withSorters (h : t) (arrays : list (list CollectionSortDescriptor)) : t :=
  mk (filterArrays h) arrays (columnArrays h) (nextOid h).
Definition withColumns (h : t) (arrays : list (list CursorColumnDefinition)) : t :=
  mk (filterArrays h) (sortArrays h) arrays (nextOid h).
Definition withNextOid (h : t) (n : nat) : t :=
  mk (filterArrays h) (sortArrays h) (columnArrays h) n.

End Heap.

(** An argument of type [D | D[]]: one descriptor, or an array of them. *)
Inductive OneOrMany (D : Type) : Type :=
| One (d : D)
| Many (loc : nat).

Arguments One {D} d.
Arguments Many {D} loc.

(** How a call ends: a promise that is resolved or rejected, or an exception
    raised before any promise is returned. *)
Inductive Outcome (A : Type) : Type :=
| Resolved (a : A)
| Rejected (e : Cause)
| Raised (e : Cause).

Arguments Resolved {A} a.
Arguments Rejected {A} e.
Arguments Raised {A} e.

(** ** The value cursor (value-cursor.ts)

    The backing array is shared with the caller as well: the constructor
    keeps the array it is given.  The cursor reads it and never writes to
    it, so the record holds its contents at the time of a call, and the
    caller's writes between two calls are a transition of their own
    ([ValueCursorSteps.step_caller]). *)

Module ValueCursor.

Record t : Type := mk {
  _limit : Z;
  _current : Z;
  _count : Z;
  _totalPages : Z;
  _items : list JValue;
  _terms : option string;               (* [undefined] until [search] is called *)
  _columns : nat;                       (* locations of the three lists *)
  _filters : nat;
  _sorters : nat;
  loadingState : CursorLoadingState;
  isSearchApplied : bool;
  areFiltersApplied : bool;
  areSortersApplied : bool;
  autoReload : bool;
  _wrapped : list JValue                (* the contents of the backing array *)
}.

Definition set_limit (c : t) (v : Z) : t :=
  mk v (_current c) (_count c) (_totalPages c) (_items c) (_terms c) (_columns c)
     (_filters c) (_sorters c) (loadingState c) (isSearchApplied c)
     (areFiltersApplied c) (areSortersApplied c) (autoReload c) (_wrapped c).
Definition set_current (c : t) (v : Z) : t :=
  mk (_limit c) v (_count c) (_totalPages c) (_items c) (_terms c) (_columns c)
     (_filters c) (_sorters c) (loadingState c) (isSearchApplied c)
     (areFiltersApplied c) (areSortersApplied c) (autoReload c) (_wrapped c).
Definition set_items (c : t) (v : list JValue) : t :=
  mk (_limit c) (_current c) (_count c) (_totalPages c) v (_terms c) (_columns c)
     (_filters c) (_sorters c) (loadingState c) (isSearchApplied c)
     (areFiltersApplied c) (areSortersApplied c) (autoReload c) (_wrapped c).
Definition set_terms (c : t) (v : option string) : t :=
  mk (_limit c) (_current c) (_count c) (_totalPages c) (_items c) v (_columns c)
     (_filters c) (_sorters c) (loadingState c) (isSearchApplied c)
     (areFiltersApplied c) (areSortersApplied c) (autoReload c) (_wrapped c).
Definition set_columns (c : t) (v : nat) : t :=
  mk (_limit c) (_current c) (_count c) (_totalPages c) (_items c) (_terms c) v
     (_filters c) (_sorters c) (loadingState c) (isSearchApplied c)
     (areFiltersApplied c) (areSortersApplied c) (autoReload c) (_wrapped c).
Definition set_filters (c : t) (v : nat) : t :=
  mk (_limit c) (_current c) (_count c) (_totalPages c) (_items c) (_terms c)
     (_columns c) v (_sorters c) (loadingState c) (isSearchApplied c)
     (areFiltersApplied c) (areSortersApplied c) (autoReload c) (_wrapped c).
Definition set_sorters (c : t) (v : nat) : t :=
  mk (_limit c) (_current c) (_count c) (_totalPages c) (_items c) (_terms c)
     (_columns c) (_filters c) v (loadingState c) (isSearchApplied c)
     (areFiltersApplied c) (areSortersApplied c) (autoReload c) (_wrapped c).
Definition set_isSearchApplied (c : t) (v : bool) : t :=
  mk (_limit c) (_current c) (_count c) (_totalPages c) (_items c) (_terms c)
     (_columns c) (_filters c) (_sorters c) (loadingState c) v
     (areFiltersApplied c) (areSortersApplied c) (autoReload c) (_wrapped c).
Definition set_areFiltersApplied (c : t) (v : bool) : t :=
  mk (_limit c) (_current c) (_count c) (_totalPages c) (_items c) (_terms c)
     (_columns c) (_filters c) (_sorters c) (loadingState c) (isSearchApplied c)
     v (areSortersApplied c) (autoReload c) (_wrapped c).
Definition set_areSortersApplied (c : t) (v : bool) : t :=
  mk (_limit c) (_current c) (_count c) (_totalPages c) (_items c) (_terms c)
     (_columns c) (_filters c) (_sorters c) (loadingState c) (isSearchApplied c)
     (areFiltersApplied c) v (autoReload c) (_wrapped c).
Definition set_autoReload (c : t) (v : bool) : t :=
  mk (_limit c) (_current c) (_count c) (_totalPages c) (_items c) (_terms c)
     (_columns c) (_filters c) (_sorters c) (loadingState c) (isSearchApplied c)
     (areFiltersApplied c) (areSortersApplied c) v (_wrapped c).
(** A write of the caller to the backing array. *)
Definition set_wrapped (c : t) (v : list JValue) : t :=
  mk (_limit c) (_current c) (_count c) (_totalPages c) (_items c) (_terms c)
     (_columns c) (_filters c) (_sorters c) (loadingState c) (isSearchApplied c)
     (areFiltersApplied c) (areSortersApplied c) (autoReload c) v.

(** The getters. *)
Definition limit (c : t) : Z := _limit c.
Definition current (c : t) : Z := _current c.
Definition count (c : t) : Z := _count c.
Definition totalPages (c : t) : Z := _totalPages c.
Definition items (c : t) : list JValue := _items c.
Definition terms (c : t) : option string := _terms c.
Definition columns (h : Heap.t) (c : t) : list CursorColumnDefinition :=
  Heap.read (Heap.columnArrays h) (_columns c).
Definition filters (h : Heap.t) (c : t) : list CollectionFilterDescriptor :=
  Heap.read (Heap.filterArrays h) (_filters c).
Definition sorters (h : Heap.t) (c : t) : list CollectionSortDescriptor :=
  Heap.read (Heap.sortArrays h) (_sorters c).

(** [_.isEmpty(this.terms)] *)
Definition termsEmpty (terms : option string) : bool :=
  match terms with
  | None => true
  | Some s => Lodash.isEmpty (JStr s)
  end.

(** [String(this.terms).toLowerCase()] *)
Definition query (terms : option string) : string :=
  JS.toLowerCase (match terms with None => "undefined" | Some s => s end).

(** The "Search" block of [select]: the elements are filtered when
    [_.isEmpty(this.terms)] holds, and left alone otherwise. *)
Definition searchStage (terms : option string) (items : list JValue)
  : Result (list JValue) :=
  if termsEmpty terms then
    let qry := query terms in
    Engine.filterR (Engine.searchMatches qry) items
  else Ok items.

(** The search step as the specification words it: the elements are
    filtered when search terms are set, and left alone otherwise.  Used
    only for comparison with [searchStage]. *)
Definition searchStageSpec (terms : option string) (items : list JValue)
  : Result (list JValue) :=
  if termsEmpty terms then Ok items
  else Engine.filterR (Engine.searchMatches (query terms)) items.

(** The value [this._items] holds just before the "Limit" block of
    [select]: the backing sequence filtered, searched and sorted. *)
Definition intermediate (ext : Externals) (h : Heap.t) (c : t)
  : Result (list JValue) :=
  filtered <- Engine.filterCollectionBy ext (_wrapped c) (filters h c) ;;
  searched <- searchStage (terms c) filtered ;;
  Engine.sortCollectionBy ext searched (sorters h c).

(** [select(pageNumber, forceReload)].  Each assignment to [this._items]
    is kept, so that the state left behind by an exception is the one the
    code leaves. *)
Definition select (ext : Externals) (h : Heap.t) (c : t) (pageNumber : Z)
  : t * Outcome (list JValue) :=
  let c := set_items c (_wrapped c) in
  (* Filters *)
  match Engine.filterCollectionBy ext (_items c) (filters h c) with
  | Throw e => (c, Raised e)
  | Ok filtered =>
      let c := set_items c filtered in
      (* Search *)
      match searchStage (terms c) (_items c) with
      | Throw e => (c, Raised e)
      | Ok searched =>
          let c := set_items c searched in
          (* Sort *)
          match Engine.sortCollectionBy ext (_items c) (sorters h c) with
          | Throw e => (c, Raised e)
          | Ok sorted =>
              let c := set_items c sorted in
              (* Limit *)
              let startIndex := (pageNumber - 1) * limit c in
              let endIndex := pageNumber * limit c in
              let c := set_items c (Lodash.slice (_wrapped c) startIndex endIndex) in
              (* Set cursor state *)
              let c := set_current c pageNumber in
              (c, Resolved (items c))
          end
      end
  end.

Definition hasPrevious (c : t) : bool := current c >? 1.

Definition hasNext (c : t) : bool := current c <? totalPages c.

Definition next (ext : Externals) (h : Heap.t) (c : t) : t * Outcome (list JValue) :=
  if negb (hasNext c) then (c, Rejected (Reason "This the last page!"))
  else select ext h c (current c + 1).

Definition previous (ext : Externals) (h : Heap.t) (c : t)
  : t * Outcome (list JValue) :=
  if negb (hasPrevious c) then (c, Rejected (Reason "This the first page!"))
  else select ext h c (current c - 1).

Definition refresh (ext : Externals) (h : Heap.t) (c : t)
  : t * Outcome (list JValue) :=
  select ext h c (current c).

(** The pages [for (var i = 2; i <= totalPages; i++)] runs through. *)
Definition pagesAfterFirst (totalPages : Z) : list Z :=
  map (fun k => Z.of_nat k + 2) (seq 0 (Z.to_nat (totalPages - 1))).

(** One [select] for each page, in order; an exception ends the loop. *)
Fixpoint selectEach (ext : Externals) (h : Heap.t) (c : t) (pages : list Z)
  : t * Result (list (list JValue)) :=
  match pages with
  | [] => (c, Ok [])
  | i :: rest =>
      match select ext h c i with
      | (c, Resolved page) =>
          let '(c, more) := selectEach ext h c rest in
          (c, (pages' <- more ;; Ok (page :: pages')))
      | (c, Rejected e) | (c, Raised e) => (c, Throw e)
      end
  end.

(** Modelled from the spec: the function [getAllCursorPages] of cursor.ts,
    which is not among the sources: "if loadingState is already past
    Uninitialized, reuse the current items as page 1 (waiting on the next
    afterPageChange event if a load is in flight) instead of re-issuing
    page 1; pages 2..totalPages are then fetched and concatenated in page
    order".  It is given here for a value cursor, whose [select] settles
    inside the call and which emits no event: [None] is the promise of a
    wait that never ends. *)
Definition getAllCursorPages (ext : Externals) (h : Heap.t) (c : t)
  : t * option (Outcome (list JValue)) :=
  let further (c : t) :=
    let first := items c in
    match selectEach ext h c (pagesAfterFirst (totalPages c)) with
    | (c, Ok pages) => (c, Some (Resolved (first ++ List.concat pages)%list))
    | (c, Throw e) => (c, Some (Rejected e))
    end in
  match loadingState c with
  | Uninitialized =>
      match select ext h c 1 with
      | (c, Resolved _) => further c
      | (c, Rejected e) | (c, Raised e) => (c, Some (Rejected e))
      end
  | Loading => (c, None)
  | _ => further c
  end.

(** [all(limit?)]: the argument is not used. *)
Definition all (ext : Externals) (h : Heap.t) (c : t)
  : t * option (Outcome (list JValue)) :=
  getAllCursorPages ext h c.

(** The setter of [limit]; the argument is an integer, so only [value < 1]
    is left of the validity test.  The promise of the reload is dropped, an
    exception of the reload is not. *)
Definition assign_limit (ext : Externals) (h : Heap.t) (c : t) (value : Z)
  : t * Outcome unit :=
  if value <? 1 then (c, Resolved tt)
  else
    let c := set_limit c value in
    if autoReload c then
      match select ext h c (current c) with
      | (c', Raised e) => (c', Raised e)
      | (c', _) => (c', Resolved tt)
      end
    else (c, Resolved tt).

Definition assign_current (ext : Externals) (h : Heap.t) (c : t) (value : Z)
  : t * Outcome unit :=
  if value <? 1 then (c, Resolved tt)
  else if autoReload c then
    match select ext h c value with
    | (c', Raised e) => (c', Raised e)
    | (c', _) => (c', Resolved tt)
    end
  else (c, Resolved tt).

(** The setter of [columns]: [value.slice()] is a new array.  [None] is an
    argument that is not an array. *)
Definition assign_columns (h : Heap.t) (c : t) (value : option nat)
  : Heap.t * t * Outcome unit :=
  match value with
  | None => (h, c, Raised (Err "Expected array"))
  | Some loc =>
      let '(fresh, arrays) :=
        Heap.alloc (Heap.columnArrays h) (Heap.read (Heap.columnArrays h) loc) in
      (Heap.withColumns h arrays, set_columns c fresh, Resolved tt)
  end.

Definition search (c : t) (terms : string) : t :=
  set_isSearchApplied (set_terms c (Some terms)) false.

(** [filterBy(filter, replace)].  With [replace], [this._filters] becomes
    the argument itself when that is an array, and a new one-element array
    otherwise; the push that follows is not in an [else] branch.  The
    elements to push are read before the push. *)
Definition filterBy (h : Heap.t) (c : t)
           (filter : OneOrMany CollectionFilterDescriptor) (replace : bool)
  : Heap.t * t :=
  let '(h, c) :=
    if replace then
      match filter with
      | Many loc => (h, set_filters c loc)
      | One d =>
          let '(fresh, arrays) := Heap.alloc (Heap.filterArrays h) [d] in
          (Heap.withFilters h arrays, set_filters c fresh)
      end
    else (h, c) in
  let pushed :=
    match filter with
    | Many loc => Heap.read (Heap.filterArrays h) loc
    | One d => [d]
    end in
  (Heap.withFilters h
     (Heap.write (Heap.filterArrays h) (_filters c) (filters h c ++ pushed)%list), c).

Definition argumentList {D : Type} (arrays : list (list D)) (arg : OneOrMany D)
  : list D :=
  match arg with
  | Many loc => Heap.read arrays loc
  | One d => [d]
  end.

Definition clearFilter (h : Heap.t) (c : t)
           (filter : OneOrMany CollectionFilterDescriptor) : Heap.t * t :=
  let given := argumentList (Heap.filterArrays h) filter in
  let kept :=
    List.filter
      (fun x => negb (existsb (fun y => Nat.eqb (filter_oid y) (filter_oid x)) given))
      (filters h c) in
  let '(fresh, arrays) := Heap.alloc (Heap.filterArrays h) kept in
  (Heap.withFilters h arrays, set_filters c fresh).

Definition clearFilters (h : Heap.t) (c : t) : Heap.t * t :=
  let '(fresh, arrays) := Heap.alloc (Heap.filterArrays h) [] in
  (Heap.withFilters h arrays, set_filters c fresh).

Definition sortBy (h : Heap.t) (c : t)
           (sort : OneOrMany CollectionSortDescriptor) (replace : bool)
  : Heap.t * t :=
  let '(h, c) :=
    if replace then
      match sort with
      | Many loc => (h, set_sorters c loc)
      | One d =>
          let '(fresh, arrays) := Heap.alloc (Heap.sortArrays h) [d] in
          (Heap.withSorters h arrays, set_sorters c fresh)
      end
    else (h, c) in
  let pushed :=
    match sort with
    | Many loc => Heap.read (Heap.sortArrays h) loc
    | One d => [d]
    end in
  (Heap.withSorters h
     (Heap.write (Heap.sortArrays h) (_sorters c) (sorters h c ++ pushed)%list), c).

Definition clearSort (h : Heap.t) (c : t)
           (sort : OneOrMany CollectionSortDescriptor) : Heap.t * t :=
  let given := argumentList (Heap.sortArrays h) sort in
  let kept :=
    List.filter
      (fun x => negb (existsb (fun y => Nat.eqb (sort_oid y) (sort_oid x)) given))
      (sorters h c) in
  let '(fresh, arrays) := Heap.alloc (Heap.sortArrays h) kept in
  (Heap.withSorters h arrays, set_sorters c fresh).

(** [clearSorters()]: the body assigns [this._filters = []]. *)
Definition clearSorters (h : Heap.t) (c : t) : Heap.t * t :=
  let '(fresh, arrays) := Heap.alloc (Heap.filterArrays h) [] in
  (Heap.withFilters h arrays, set_filters c fresh).

Definition findColumn (h : Heap.t) (c : t) (columnName : string)
  : option CursorColumnDefinition :=
  find (fun x => String.eqb (column_name x) columnName) (columns h c).

(** [!!col.path ? col.path : `/${_.upperFirst(col.name)}`] *)
Definition columnPath (col : CursorColumnDefinition) : string :=
  match column_path col with
  | Some (String a rest) => String a rest
  | _ => "/" ++ Lodash.upperFirst (column_name col)
  end.

Definition sortByColumn (h : Heap.t) (c : t) (columnName : string)
           (direction : SortingDirection) : Heap.t * t * Outcome unit :=
  match findColumn h c columnName with
  | None => (h, c, Raised (TypeErr "Cannot read properties of undefined"))
  | Some col =>
      if negb (column_sortable col) then
        (h, c, Raised (Err ("Unable to sort for column " ++ columnName
                            ++ ", it says it cant be sorted on.")))
      else
        let d := mkSort (Heap.nextOid h) (columnPath col) direction in
        let h := Heap.withNextOid h (S (Heap.nextOid h)) in
        (Heap.withSorters h
           (Heap.write (Heap.sortArrays h) (_sorters c) (sorters h c ++ [d])%list),
         c, Resolved tt)
  end.

Definition filterByColumn (h : Heap.t) (c : t) (columnName : string)
           (operator : CollectionFilterOperator) (value : JValue)
  : Heap.t * t * Outcome unit :=
  match findColumn h c columnName with
  | None => (h, c, Raised (TypeErr "Cannot read properties of undefined"))
  | Some col =>
      if negb (column_filterable col) then
        (h, c, Raised (Err ("Unable to filter for column " ++ columnName
                            ++ ", it says it cant be filtered on.")))
      else
        let d := mkFilter (Heap.nextOid h) (columnPath col) operator value in
        let h := Heap.withNextOid h (S (Heap.nextOid h)) in
        (Heap.withFilters h
           (Heap.write (Heap.filterArrays h) (_filters c) (filters h c ++ [d])%list),
         c, Resolved tt)
  end.

(** [new ValueCursor(_wrapped, columns)]: the field initialisers, in the
    order of their declaration, then the body of the constructor. *)
Definition construct (ext : Externals) (h : Heap.t) (wrapped : list JValue)
           (columns : option nat) : Heap.t * Result t :=
  let '(columnsLoc, arrays) := Heap.alloc (Heap.columnArrays h) [] in
  let h := Heap.withColumns h arrays in
  let '(filtersLoc, arrays) := Heap.alloc (Heap.filterArrays h) [] in
  let h := Heap.withFilters h arrays in
  let '(sortersLoc, arrays) := Heap.alloc (Heap.sortArrays h) [] in
  let h := Heap.withSorters h arrays in
  let c := mk 40 1 (Z.of_nat (List.length wrapped)) 1 [] None
              columnsLoc filtersLoc sortersLoc
              (match wrapped with [] => Empty | _ => Ready end)
              true true true false wrapped in
  match assign_columns h c columns with
  | (h, c, Raised e) | (h, c, Rejected e) => (h, Throw e)
  | (h, c, Resolved _) =>
      match select ext h c 1 with
      | (c, Raised e) | (c, Rejected e) => (h, Throw e)
      | (c, Resolved _) => (h, Ok c)
      end
  end.

End ValueCursor.

(** ** Reference instances of the library functions

    Executable stand-ins for [Externals], for running the cursors on concrete
    data.  The theorems below that mention [Externals] hold for every
    instance. *)

Module Reference.

Definition digitValue (c : ascii) : option Z :=
  if Lodash.isDigit c then Some (Z.of_nat (nat_of_ascii c) - 48) else None.

Fixpoint digits (s : string) (acc : Z) : option Z :=
  match s with
  | EmptyString => Some acc
  | String c rest =>
      match digitValue c with
      | Some d => digits rest (10 * acc + d)
      | None => None
      end
  end.

(** The number written by a string, for decimal integers with an optional
    sign; the empty string is 0 and every other string is NaN. *)
Definition stringToNumber (s : string) : Num :=
  match s with
  | EmptyString => Fin 0
  | String "-"%char (String c rest) =>
      match digits (String c rest) 0 with Some z => Fin (- z) | None => NaN end
  | String "+"%char (String c rest) =>
      match digits (String c rest) 0 with Some z => Fin z | None => NaN end
  | _ => match digits s 0 with Some z => Fin z | None => NaN end
  end.

(** [str.replace(/~d/g, r)] *)
Fixpoint replaceEscape (d r : ascii) (s : string) : string :=
  match s with
  | EmptyString => EmptyString
  | String a rest =>
      match rest with
      | String b rest' =>
          if Ascii.eqb a "~" && Ascii.eqb b d
          then String r (replaceEscape d r rest')
          else String a (replaceEscape d r rest)
      | EmptyString => s
      end
  end.

Definition unescape (tok : string) : string :=
  replaceEscape "0" "~" (replaceEscape "1" "/" tok).

Fixpoint splitSlash (s cur : string) : list string :=
  match s with
  | EmptyString => [cur]
  | String c rest =>
      if Ascii.eqb c "/" then cur :: splitSlash rest ""
      else splitSlash rest (cur ++ String c EmptyString)
  end.

(** json-pointer's [parse] *)
Definition parse (pointer : string) : Result (list string) :=
  match pointer with
  | EmptyString => Ok []
  | String c rest =>
      if Ascii.eqb c "/" then Ok (map unescape (splitSlash rest ""))
      else Throw (Err ("Invalid JSON pointer: " ++ pointer))
  end.

(** json-pointer's [get]: every token has to name a property of the object
    reached so far. *)
Fixpoint walk (obj : JValue) (refTokens : list string) : Result JValue :=
  match refTokens with
  | [] => Ok obj
  | tok :: rest =>
      match obj with
      | JNull => Throw (TypeErr "Cannot use 'in' operator to search in null")
      | JObj fields =>
          match JS.assoc tok fields with
          | Some v => walk v rest
          | None => Throw (Err ("Invalid reference token: " ++ tok))
          end
      | JArr elems =>
          if String.eqb tok "length" then walk (JInt (Z.of_nat (List.length elems))) rest
          else match JS.atIndexKey tok 0 elems with
               | Some v => walk v rest
               | None => Throw (Err ("Invalid reference token: " ++ tok))
               end
      | _ => Throw (Err ("Invalid reference token: " ++ tok))
      end
  end.

Definition pointerGet (obj : JValue) (pointer : string) : Result JValue :=
  refTokens <- parse pointer ;; walk obj refTokens.

(** The sort key a property name selects: [undefined] for a property that
    is missing, and for an element that is [null] or [undefined]. *)
Definition criterion (x : JValue) (key : string) : JValue :=
  match JS.getProp x key with Ok v => v | Throw _ => JUndefined end.

(** The conversion to a primitive that [<] and [>] apply to an operand: an
    array or an object is replaced by its string form, and that conversion
    raises for an object whose own [toString] is not a function. *)
Definition toPrimitive (v : JValue) : Result JValue :=
  match v with
  | JArr _ | JObj _ => s <- Coerce.toString v ;; Ok (JStr s)
  | _ => Ok v
  end.

Definition primitiveToNumber (v : JValue) : Num :=
  match v with
  | JNull => Fin 0
  | JBool b => Fin (if b then 1 else 0)
  | JNum n => n
  | JStr s => stringToNumber s
  | _ => NaN
  end.

(** [a < b]: both operands are converted, the left one first; two strings
    are compared as strings, any other pair as numbers. *)
Definition lessThan (a b : JValue) : Result bool :=
  pa <- toPrimitive a ;;
  pb <- toPrimitive b ;;
  match pa, pb with
  | JStr x, JStr y => Ok (match String.compare x y with Lt => true | _ => false end)
  | _, _ => Ok (Coerce.numLt (primitiveToNumber pa) (primitiveToNumber pb))
  end.

(** [a > b] *)
Definition greaterThan (a b : JValue) : Result bool :=
  pa <- toPrimitive a ;;
  pb <- toPrimitive b ;;
  match pa, pb with
  | JStr x, JStr y => Ok (match String.compare x y with Gt => true | _ => false end)
  | _, _ => Ok (Coerce.numLt (primitiveToNumber pb) (primitiveToNumber pa))
  end.

(** [a === b]; two arrays or objects read from different elements are
    different objects. *)
Definition strictEquals (a b : JValue) : bool :=
  match a, b with
  | JUndefined, JUndefined => true
  | JNull, JNull => true
  | JBool x, JBool y => Bool.eqb x y
  | JNum (Fin x), JNum (Fin y) => x =? y
  | JNum (Inf p), JNum (Inf q) => Bool.eqb p q
  | JStr x, JStr y => String.eqb x y
  | _, _ => false
  end.

Definition isDefined (v : JValue) : bool :=
  match v with JUndefined => false | _ => true end.

Definition isNull (v : JValue) : bool :=
  match v with JNull => true | _ => false end.

(** [v === v] *)
Definition isReflexive (v : JValue) : bool :=
  match v with JNum NaN => false | _ => true end.

(** lodash's [compareAscending], for values that are not symbols: [null],
    [undefined] and [NaN] go last, in that order. *)
Definition compareAscending (value other : JValue) : Result comparison :=
  if strictEquals value other then Ok Eq
  else
    gt <- (if isNull other then Ok false else greaterThan value other) ;;
    if gt
       || (isNull value && isDefined other && isReflexive other)
       || (negb (isDefined value) && isReflexive other)
       || negb (isReflexive value)
    then Ok Gt
    else
      lt <- (if isNull value then Ok false else lessThan value other) ;;
      if lt
         || (isNull other && isDefined value && isReflexive value)
         || (negb (isDefined other) && isReflexive value)
         || negb (isReflexive other)
      then Ok Lt
      else Ok Eq.

Definition directed (order : string) (c : comparison) : comparison :=
  if String.eqb order "desc" then CompOpp c else c.

(** lodash's [compareMultiple] on the criteria of two elements; a tie is
    left to the positions of the elements. *)
Fixpoint compareMultiple (xs ys : list JValue) (orders : list string)
  : Result comparison :=
  match xs, ys with
  | x :: xs', y :: ys' =>
      c <- compareAscending x y ;;
      match c with
      | Eq => compareMultiple xs' ys' (tl orders)
      | _ => Ok (match orders with
                 | [] => c
                 | order :: _ => directed order c
                 end)
      end
  | _, _ => Ok Eq
  end.

(** The criteria of an element: one per key, and the element itself when no
    key is given. *)
Definition criteria (keys : list string) (x : JValue) : list JValue :=
  match keys with
  | [] => [x]
  | _ => map (criterion x) keys
  end.

Definition compareElements (keys orders : list string) (x y : JValue)
  : Result comparison :=
  compareMultiple (criteria keys x) (criteria keys y) orders.

Fixpoint insertSorted (cmp : JValue -> JValue -> Result comparison) (x : JValue)
         (sorted : list JValue) : Result (list JValue) :=
  match sorted with
  | [] => Ok [x]
  | y :: rest =>
      c <- cmp x y ;;
      match c with
      | Lt => Ok (x :: y :: rest)
      | _ => rest' <- insertSorted cmp x rest ;; Ok (y :: rest')
      end
  end.

(** A stable sort by the given keys, by the elements themselves when no
    key is given; it raises as soon as a comparison raises.  The pairs
    compared are those of an insertion sort: every element of a collection
    of two or more is compared with another one at least once. *)
Definition orderBy (collection : list JValue) (keys orders : list string)
  : Result (list JValue) :=
  fold_left (fun acc x =>
               sorted <- acc ;;
               insertSorted (compareElements keys orders) x sorted)
            collection (Ok []).

Definition externals : Externals := mkExternals stringToNumber pointerGet orderBy.

End Reference.

(** ** The endpoint cursor (endpoint-cursor.ts)

    [select] returns a promise that settles when the agent answers.  The
    model splits it at that point: [select_start] is what runs inside the
    call, [settle] is what runs when the answer arrives.  Requests that were
    issued and not yet answered are kept in the world, with every event
    emitted and every request sent so far. *)

Module EndpointCursor.

Import Normalizer.

(** A link of the schema; only its presence matters to the cursor. *)
Definition Link : Type := string.

Definition IdentityValues : Type := list (string * JValue).

Record Request : Type := mkRequest {
  req_id : nat;
  req_page : Z;
  req_link : Link;
  req_urlData : IdentityValues
}.

(** How the promise of [agent.execute] settles. *)
Inductive AgentOutcome : Type :=
| Fulfilled (response : Response)
| Failed (cause : Cause).

(** What the cursor is given at construction: the agent with its schema,
    the extractor and the request generator. *)
Record Env : Type := mkEnv {
  getLink : string -> option Link;
  getFirstLink : list string -> option Link;
  execute : Link -> IdentityValues -> AgentOutcome;
  paginationInfoExtractor : Response -> Result PaginationInfo;
  paginationRequestGenerator : Z -> Z -> IdentityValues
}.

Inductive Event : Type :=
| BeforePageChange (page : Z)
| AfterPageChange (page : Z) (items : list JValue)
| ErrorEvent (cause : Cause).

Record t : Type := mk {
  searchTermProperty : string;
  _limit : Z;
  _current : Z;
  _count : JValue;
  _totalPages : JValue;
  _items : list JValue;
  loadingState : CursorLoadingState;
  autoReload : bool;
  linkName : option string;
  _terms : option string
}.

Definition set_limit (c : t) (v : Z) : t :=
  mk (searchTermProperty c) v (_current c) (_count c) (_totalPages c) (_items c)
     (loadingState c) (autoReload c) (linkName c) (_terms c).
Definition set_current (c : t) (v : Z) : t :=
  mk (searchTermProperty c) (_limit c) v (_count c) (_totalPages c) (_items c)
     (loadingState c) (autoReload c) (linkName c) (_terms c).
Definition set_count (c : t) (v : JValue) : t :=
  mk (searchTermProperty c) (_limit c) (_current c) v (_totalPages c) (_items c)
     (loadingState c) (autoReload c) (linkName c) (_terms c).
Definition set_totalPages (c : t) (v : JValue) : t :=
  mk (searchTermProperty c) (_limit c) (_current c) (_count c) v (_items c)
     (loadingState c) (autoReload c) (linkName c) (_terms c).
Definition set_items (c : t) (v : list JValue) : t :=
  mk (searchTermProperty c) (_limit c) (_current c) (_count c) (_totalPages c) v
     (loadingState c) (autoReload c) (linkName c) (_terms c).
Definition set_terms (c : t) (v : option string) : t :=
  mk (searchTermProperty c) (_limit c) (_current c) (_count c) (_totalPages c)
     (_items c) (loadingState c) (autoReload c) (linkName c) v.
Definition set_autoReload (c : t) (v : bool) : t :=
  mk (searchTermProperty c) (_limit c) (_current c) (_count c) (_totalPages c)
     (_items c) (loadingState c) v (linkName c) (_terms c).

Definition limit (c : t) : Z := _limit c.
Definition current (c : t) : Z := _current c.
Definition count (c : t) : JValue := _count c.
Definition totalPages (c : t) : JValue := _totalPages c.
Definition items (c : t) : list JValue := _items c.
Definition terms (c : t) : option string := _terms c.

Record World : Type := mkWorld {
  cursor : t;
  inflight : list Request;                       (* oldest first *)
  events : list Event;
  sent : list Request;
  settled : list (nat * Outcome JValue)          (* by request id *)
}.

Definition with_cursor (w : World) (c : t) : World :=
  mkWorld c (inflight w) (events w) (sent w) (settled w).

Definition emit (w : World) (e : Event) : World :=
  mkWorld (cursor w) (inflight w) (events w ++ [e]) (sent w) (settled w).

(** The three spellings of each key are assigned in turn. *)
Fixpoint assignSpellings (keys : list string) (v : JValue) (urlData : IdentityValues)
  : IdentityValues :=
  match keys with
  | [] => urlData
  | key :: rest =>
      let urlData := JS.setKey key v urlData in
      let urlData := JS.setKey (Lodash.snakeCase key) v urlData in
      let urlData := JS.setKey (Lodash.kebabCase key) v urlData in
      assignSpellings rest v urlData
  end.

Definition genericPaginationRequestGenerator (page limit : Z) : IdentityValues :=
  let urlData := [] in
  (* Set the possible variations of the page keyword. *)
  let urlData := assignSpellings paginationPageProperties (JInt page) urlData in
  (* Set the possible variations of the limit keyword. *)
  assignSpellings paginationPageLimitProperties (JInt limit) urlData.

(** [info.items || []], for the values a field of type [T[]] can hold
    next to [null] and [undefined]. *)
Definition itemsOrEmpty (v : JValue) : list JValue :=
  match v with
  | JArr elems => elems
  | _ => []
  end.

(** The number a field of type [number] stands for in a comparison, [null]
    counting as 0 and [undefined] as NaN. *)
Definition numberOf (v : JValue) : Num :=
  match v with
  | JNum n => n
  | JNull => Fin 0
  | _ => NaN
  end.

Definition hasPrevious (c : t) : bool := current c >? 1.

Definition hasNext (c : t) : bool :=
  Coerce.numLt (Fin (current c)) (numberOf (totalPages c)).

(** What a call to [select] has done when it returns: its promise is
    already settled, or a request is on its way. *)
Inductive Started : Type :=
| Settled (o : Outcome JValue)
| Pending (id : nat).

Definition findLink (env : Env) (c : t) : option Link :=
  match linkName c with
  | Some name => getLink env name
  | None => getFirstLink env ["list"; "collection"; "index"]
  end.

(** The part of [select] that runs inside the call.  The page is an
    integer, which leaves [page < 1] of the validity test. *)
Definition select_start (env : Env) (w : World) (page : Z) (forceReload : bool)
  : World * Started :=
  let c := cursor w in
  (* Check pagenumber validity *)
  if page <? 1 then
    (w, Settled (Rejected (Err "Pagenumber has to be an integer of 1 or higher.")))
  else if (page =? current c) && negb forceReload then
    (w, Settled (Resolved (JArr (items c))))
  else
    (* Get the correct link *)
    match findLink env c with
    | None =>
        (w, Settled (Rejected
               (Err "Unable to find a link for this cursor to fetch any pages.")))
    | Some link =>
        let urlData := paginationRequestGenerator env page (limit c) in
        let urlData :=
          if negb (ValueCursor.termsEmpty (terms c)) then
            JS.setKey (searchTermProperty c)
                      (match terms c with Some s => JStr s | None => JUndefined end)
                      urlData
          else urlData in
        (* Emit event before the fetch *)
        let w := emit w (BeforePageChange page) in
        (* Execute the request. *)
        let id := List.length (sent w) in
        let request := mkRequest id page link urlData in
        (mkWorld (cursor w) (inflight w ++ [request]) (events w)
                 (sent w ++ [request]) (settled w),
         Pending id)
    end.

(** The handlers attached to the promise of the agent: the [then] handler
    on an answer, the [catch] handler on a failure of the agent or of the
    [then] handler. *)
Definition settle (env : Env) (c : t) (page : Z) (answer : AgentOutcome)
  : t * list Event * Outcome JValue :=
  match answer with
  | Fulfilled response =>
      let c := set_current c page in
      (* Extract the request data *)
      match paginationInfoExtractor env response with
      | Ok info =>
          let c := set_items c (itemsOrEmpty (Normalizer.items info)) in
          let c := set_totalPages c (Normalizer.totalPages info) in
          let c := set_count c (Normalizer.count info) in
          (* Emit event after the succesfull fetch *)
          (c, [AfterPageChange (current c) (items c)],
           Resolved (Normalizer.items info))
      | Throw err => (c, [ErrorEvent err], Rejected err)
      end
  | Failed err => (c, [ErrorEvent err], Rejected err)
  end.

(** The answer to one request arrives. *)
Definition deliverOne (env : Env) (w : World) (r : Request) : World :=
  let '(c, evs, o) :=
    settle env (cursor w) (req_page r) (execute env (req_link r) (req_urlData r)) in
  mkWorld c (inflight w) (events w ++ evs) (sent w)
          (settled w ++ [(req_id r, o)]).

Fixpoint deliverEach (env : Env) (w : World) (rs : list Request) : World :=
  match rs with
  | [] => w
  | r :: rest => deliverEach env (deliverOne env w r) rest
  end.

(** Every request on its way is answered, oldest first. *)
Definition deliverAll (env : Env) (w : World) : World :=
  deliverEach env (mkWorld (cursor w) [] (events w) (sent w) (settled w))
              (inflight w).

Definition outcomeOf (w : World) (s : Started) : option (Outcome JValue) :=
  match s with
  | Settled o => Some o
  | Pending id =>
      option_map snd (find (fun p => Nat.eqb (fst p) id) (settled w))
  end.

(** [select] awaited: the call, then the answers to all requests on their
    way, then what the promise of the call settled to. *)
Definition select (env : Env) (w : World) (page : Z) (forceReload : bool)
  : World * option (Outcome JValue) :=
  let '(w, s) := select_start env w page forceReload in
  let w := deliverAll env w in
  (w, outcomeOf w s).

Definition next_start (env : Env) (w : World) : World * Started :=
  if negb (hasNext (cursor w)) then (w, Settled (Rejected (Reason "This the last page!")))
  else select_start env w (current (cursor w) + 1) false.

Definition previous_start (env : Env) (w : World) : World * Started :=
  if negb (hasPrevious (cursor w))
  then (w, Settled (Rejected (Reason "This the first page!")))
  else select_start env w (current (cursor w) - 1) false.

Definition refresh_start (env : Env) (w : World) : World * Started :=
  select_start env w (current (cursor w)) true.

Definition search_start (env : Env) (w : World) (terms : string) (initialPage : Z)
  : World * Started :=
  select_start env (with_cursor w (set_terms (cursor w) (Some terms))) initialPage false.

Definition assign_limit (env : Env) (w : World) (value : Z) : World :=
  if value <? 1 then w
  else
    let w := with_cursor w (set_limit (cursor w) value) in
    if autoReload (cursor w) then fst (select_start env w (current (cursor w)) false)
    else w.

Definition assign_current (env : Env) (w : World) (value : Z) : World :=
  if value <? 1 then w
  else if autoReload (cursor w) then fst (select_start env w value false)
  else w.

(** [loadingState > CursorLoadingState.Uninitialized] *)
Definition pastUninitialized (s : CursorLoadingState) : bool :=
  match s with
  | Uninitialized => false
  | _ => true
  end.

Definition isReady (s : CursorLoadingState) : bool :=
  match s with
  | Ready => true
  | _ => false
  end.

(** Where the first page of [all] comes from. *)
Inductive FirstPage : Type :=
| FirstNow (o : Outcome JValue)          (* a promise that is already settled *)
| FirstFromSelect (id : nat)             (* the promise of [select(1)] *)
| FirstOnEvent.                          (* the next [afterPageChange] event *)

Definition all_first (env : Env) (w : World) : World * FirstPage :=
  if pastUninitialized (loadingState (cursor w)) then
    if isReady (loadingState (cursor w))
    then (w, FirstNow (Resolved (JArr (items (cursor w)))))
    else (w, FirstOnEvent)
  else
    match select_start env w 1 false with
    | (w, Settled o) => (w, FirstNow o)
    | (w, Pending id) => (w, FirstFromSelect id)
    end.

Fixpoint selectEach (env : Env) (w : World) (pages : list Z) : World * list Started :=
  match pages with
  | [] => (w, [])
  | i :: rest =>
      let '(w, s) := select_start env w i false in
      let '(w, ss) := selectEach env w rest in
      (w, s :: ss)
  end.

(** The pages [for (var i = 2; i <= this.totalPages; i++)] runs through;
    [None] when the bound is +Infinity and the loop does not end. *)
Definition pagesAfterFirst (totalPages : JValue) : option (list Z) :=
  match numberOf totalPages with
  | Fin n => Some (map (fun k => Z.of_nat k + 2) (seq 0 (Z.to_nat (n - 1))))
  | Inf true => None
  | _ => Some []
  end.

(** The handler of the first page: the items held at that moment, then one
    [select] for each further page, all started before any answer. *)
Definition all_rest (env : Env) (w : World) : option (World * list Started) :=
  match pagesAfterFirst (totalPages (cursor w)) with
  | None => None
  | Some pages =>
      let first := Settled (Resolved (JArr (items (cursor w)))) in
      let '(w, rest) := selectEach env w pages in
      Some (w, first :: rest)
  end.

(** How [all] ends. *)
Inductive AllOutcome : Type :=
| Done (o : Outcome (list JValue))
| Unsettled                               (* the promise is never settled *)
| Diverges.                               (* the loop over the pages does not end *)

(** [Promise.all(promises).then(result => resolve(_.flatten(result)))]
    once every promise is settled. *)
Fixpoint gather (w : World) (promises : list Started) : option (Outcome (list JValue)) :=
  match promises with
  | [] => Some (Resolved [])
  | s :: rest =>
      match outcomeOf w s, gather w rest with
      | Some (Resolved v), Some (Resolved vs) => Some (Resolved (v :: vs))
      | Some (Resolved _), Some o => Some o
      | Some (Rejected e), Some _ => Some (Rejected e)
      | Some (Raised e), Some _ => Some (Rejected e)
      | _, _ => None
      end
  end.

Definition flattenOutcome (o : option (Outcome (list JValue))) : AllOutcome :=
  match o with
  | Some (Resolved vs) => Done (Resolved (Lodash.flatten vs))
  | Some (Rejected e) | Some (Raised e) => Done (Rejected e)
  | None => Unsettled
  end.

(** From the handler of the first page on: the further pages are asked
    for, then every request on its way is answered. *)
Definition all_pages (env : Env) (w : World) : World * AllOutcome :=
  match all_rest env w with
  | None => (w, Diverges)
  | Some (w, promises) =>
      let w := deliverAll env w in
      (w, flattenOutcome (gather w promises))
  end.

(** Requests on their way are answered, oldest first, until one answer is
    processed with success; the handler of the first page runs then. *)
Fixpoint awaitEvent (env : Env) (w : World) (rs : list Request)
  : World * AllOutcome :=
  match rs with
  | [] => (w, Unsettled)
  | r :: rest =>
      let w := deliverOne env w r in
      match find (fun p => Nat.eqb (fst p) (req_id r)) (settled w) with
      | Some (_, Resolved _) =>
          all_pages env (mkWorld (cursor w) (rest ++ inflight w) (events w)
                                 (sent w) (settled w))
      | _ => awaitEvent env w rest
      end
  end.

(** [all()], run to its end: its own calls, and the answers to the
    requests on their way in the order they were sent. *)
Definition all (env : Env) (w : World) : World * AllOutcome :=
  match all_first env w with
  | (w, FirstNow (Resolved _)) => all_pages env w
  | (w, FirstNow (Rejected e)) | (w, FirstNow (Raised e)) => (w, Done (Rejected e))
  | (w, FirstFromSelect id) =>
      let w := deliverAll env w in
      match outcomeOf w (Pending id) with
      | Some (Resolved _) => all_pages env w
      | Some (Rejected e) | Some (Raised e) => (w, Done (Rejected e))
      | None => (w, Unsettled)
      end
  | (w, FirstOnEvent) =>
      awaitEvent env (mkWorld (cursor w) [] (events w) (sent w) (settled w))
                 (inflight w)
  end.

(** [new EndpointCursor(agent, linkName, initialPage, limit)] with the
    generic extractor and generator as defaults of [env]. *)
Definition construct (env : Env) (linkName : option string)
           (initialPage : option Z) (limit : option Z) : World :=
  let c := mk "search" 40 1 (JInt 0) (JInt 1) [] Uninitialized false linkName None in
  let c := match limit with
           | Some l => if l >=? 1 then set_limit c l else c
           | None => c
           end in
  let w := mkWorld c [] [] [] [] in
  match initialPage with
  | Some p => if p >=? 1 then fst (select_start env w p false) else w
  | None => w
  end.

Definition genericEnv (getLink : string -> option Link)
           (getFirstLink : list string -> option Link)
           (execute : Link -> IdentityValues -> AgentOutcome) : Env :=
  mkEnv getLink getFirstLink execute
        genericPaginationInfoExtractor genericPaginationRequestGenerator.

End EndpointCursor.

(** ** The operations of a value cursor as transitions

    One step is one call of a public method or setter, or an assignment to
    one of the public flags [autoReload], [isSearchApplied],
    [areFiltersApplied] and [areSortersApplied], with any arguments; a call
    that raises leaves the state it had reached.  The arrays are shared
    with the caller, who may create and change arrays between two calls:
    the descriptor arrays in the store, and the backing array the cursor
    was built on.  The fields [_count], [_totalPages], [_items] and
    [_columns] that back the accessors are declared public too; the
    specification has callers "never mutate these directly", and an
    assignment to them from outside the class is not a step. *)

Module ValueCursorSteps.

Import ValueCursor.

Definition State : Type := (Heap.t * ValueCursor.t)%type.

Inductive step (ext : Externals) : State -> State -> Prop :=
| step_select h c pageNumber :
    step ext (h, c) (h, fst (select ext h c pageNumber))
| step_next h c :
    step ext (h, c) (h, fst (next ext h c))
| step_previous h c :
    step ext (h, c) (h, fst (previous ext h c))
| step_refresh h c :
    step ext (h, c) (h, fst (refresh ext h c))
| step_assign_limit h c value :
    step ext (h, c) (h, fst (assign_limit ext h c value))
| step_assign_current h c value :
    step ext (h, c) (h, fst (assign_current ext h c value))
| step_assign_columns h c value :
    step ext (h, c) (fst (assign_columns h c value))
| step_assign_autoReload h c value :
    step ext (h, c) (h, set_autoReload c value)
| step_assign_isSearchApplied h c value :
    step ext (h, c) (h, set_isSearchApplied c value)
| step_assign_areFiltersApplied h c value :
    step ext (h, c) (h, set_areFiltersApplied c value)
| step_assign_areSortersApplied h c value :
    step ext (h, c) (h, set_areSortersApplied c value)
| step_all h c :
    step ext (h, c) (h, fst (all ext h c))
| step_search h c terms :
    step ext (h, c) (h, search c terms)
| step_filterBy h c filter replace :
    step ext (h, c) (filterBy h c filter replace)
| step_clearFilter h c filter :
    step ext (h, c) (clearFilter h c filter)
| step_clearFilters h c :
    step ext (h, c) (clearFilters h c)
| step_sortBy h c sort replace :
    step ext (h, c) (sortBy h c sort replace)
| step_clearSort h c sort :
    step ext (h, c) (clearSort h c sort)
| step_clearSorters h c :
    step ext (h, c) (clearSorters h c)
| step_sortByColumn h c columnName direction :
    step ext (h, c) (fst (sortByColumn h c columnName direction))
| step_filterByColumn h c columnName operator value :
    step ext (h, c) (fst (filterByColumn h c columnName operator value))
| step_caller h h' c wrapped :
    step ext (h, c) (h', set_wrapped c wrapped).

(** The states a cursor can be in: the one its constructor leaves, and
    every state one step further. *)
Inductive reachable (ext : Externals) : State -> Prop :=
| reach_construct h wrapped columns h' c :
    construct ext h wrapped columns = (h', Ok c) ->
    reachable ext (h', c)
| reach_step s s' :
    reachable ext s -> step ext s s' -> reachable ext s'.

(** Any number of steps. *)
Inductive steps (ext : Externals) : State -> State -> Prop :=
| steps_none s :
    steps ext s s
| steps_more s s' s'' :
    steps ext s s' -> step ext s' s'' -> steps ext s s''.

End ValueCursorSteps.

(** ** Sample data *)

Module Samples.

Definition ann : JValue := JObj [("Name", JStr "Ann"); ("Age", JInt 31)].
Definition bob : JValue := JObj [("Name", JStr "Bob"); ("Age", JInt 25)].
Definition cyd : JValue := JObj [("Name", JStr "Cyd"); ("Age", JInt 40)].

Definition people : list JValue := [ann; bob; cyd].

Definition older : CollectionFilterDescriptor :=
  mkFilter 0 "/Age" GreaterThan (JInt 30).

Definition byName : CollectionSortDescriptor :=
  mkSort 1 "/Name" Descending.

(** The caller's arrays: [[older]] and [[byName]], and no column. *)
Definition callerHeap : Heap.t := Heap.mk [[older]] [[byName]] [[]] 2.

(** [new ValueCursor(people, [])] *)
Definition built : Heap.t * Result ValueCursor.t :=
  ValueCursor.construct Reference.externals callerHeap people (Some 0%nat).

Definition builtHeap : Heap.t := fst built.

Definition builtCursor : ValueCursor.t :=
  match snd built with
  | Ok c => c
  | Throw _ => ValueCursor.mk 40 1 0 1 [] None 0 0 0 Uninitialized
                              true true true false []
  end.

(** The same cursor after [limit = 2], [filterBy(older)] and
    [sortBy(byName)]. *)
Definition tuned : Heap.t * ValueCursor.t :=
  let c := fst (ValueCursor.assign_limit Reference.externals builtHeap builtCursor 2) in
  let '(h, c) := ValueCursor.filterBy builtHeap c (One older) false in
  ValueCursor.sortBy h c (One byName) false.

(** An element without [Age]: the pointer [/Age] does not resolve in it. *)
Definition dee : JValue := JObj [("Name", JStr "Dee")].

(** [new ValueCursor(people.concat([dee]), [])], then [limit = 2] and
    [filterBy(older)]. *)
Definition crowd : Heap.t * ValueCursor.t :=
  match ValueCursor.construct Reference.externals callerHeap (people ++ [dee])
                              (Some 0%nat) with
  | (h, Ok c) =>
      ValueCursor.filterBy h (fst (ValueCursor.assign_limit Reference.externals h c 2))
                           (One older) false
  | (h, Throw _) => (h, builtCursor)
  end.

(** An element whose own [toString] is a number: it has no primitive form,
    and cannot be compared with another element. *)
Definition odd : JValue := JObj [("toString", JInt 1)].

End Samples.

(** ** The operations of an endpoint cursor as transitions

    One step is one call of a public method or setter, or the arrival of the
    answer to one of the requests on their way, in any order. *)

Module EndpointCursorSteps.

Import EndpointCursor.

Inductive step (env : Env) : World -> World -> Prop :=
| step_select w page forceReload :
    step env w (fst (select_start env w page forceReload))
| step_next w :
    step env w (fst (next_start env w))
| step_previous w :
    step env w (fst (previous_start env w))
| step_refresh w :
    step env w (fst (refresh_start env w))
| step_search w terms initialPage :
    step env w (fst (search_start env w terms initialPage))
| step_assign_limit w value :
    step env w (assign_limit env w value)
| step_assign_current w value :
    step env w (assign_current env w value)
| step_assign_autoReload w value :
    step env w (with_cursor w (set_autoReload (cursor w) value))
| step_all w :
    step env w (fst (all env w))
| step_answer w before r after :
    inflight w = (before ++ r :: after)%list ->
    step env w (deliverOne env (mkWorld (cursor w) (before ++ after) (events w)
                                        (sent w) (settled w)) r).

Inductive reachable (env : Env) : World -> Prop :=
| reach_construct linkName initialPage limit :
    reachable env (construct env linkName initialPage limit)
| reach_step w w' :
    reachable env w -> step env w w' -> reachable env w'.

End EndpointCursorSteps.

(** ** Sample agents *)

Module SampleAgents.

Import Normalizer EndpointCursor.

Definition page (elems : list JValue) : AgentOutcome :=
  Fulfilled (mkResponse
               (JObj [("collection", JArr elems); ("pages", JInt 3);
                      ("totalCount", JInt 5)])
               (JObj [])).

(** A collection of five strings in three pages, served by page number. *)
Definition threePages (_ : Link) (urlData : IdentityValues) : AgentOutcome :=
  match JS.assoc "page" urlData with
  | Some (JNum (Fin 1)) => page [JStr "a"; JStr "b"]
  | Some (JNum (Fin 2)) => page [JStr "c"; JStr "d"]
  | Some (JNum (Fin 3)) => page [JStr "e"]
  | _ => Failed (Err "no such page")
  end.

(** An agent whose answers carry [{"collection": ["a"], "meta": null}]. *)
Definition nullMeta (_ : Link) (_ : IdentityValues) : AgentOutcome :=
  Fulfilled (mkResponse (JObj [("collection", JArr [JStr "a"]); ("meta", JNull)])
                        (JObj [])).

Definition anyLink (_ : string) : option Link := Some "/things".
Definition firstLink (_ : list string) : option Link := Some "/things".

Definition threePagesEnv : Env := genericEnv anyLink firstLink threePages.
Definition nullMetaEnv : Env := genericEnv anyLink firstLink nullMeta.

(** [new EndpointCursor(agent, 'list', null)] *)
Definition fresh (env : Env) : World := construct env (Some "list") None None.

(** ... after [refresh()], the answer still on its way, *)
Definition refreshing (env : Env) : World := fst (refresh_start env (fresh env)).

(** ... and after the answer has arrived. *)
Definition refreshed (env : Env) : World := deliverAll env (refreshing env).

End SampleAgents.

(** ** The requests of [all] *)

Module FirstPage.

Import Normalizer EndpointCursor SampleAgents.





(** [loadingState] is a public field that no method of the class assigns.
    The worlds below are those of [refreshed] and [refreshing] with the
    field holding [Ready] and [Loading], as an assignment from outside the
    class leaves it. *)
Definition withLoadingState (w : World) (s : CursorLoadingState) : World :=
  let c := cursor w in
  with_cursor w (mk (searchTermProperty c) (_limit c) (_current c) (_count c)
                    (_totalPages c) (_items c) s (autoReload c) (linkName c)
                    (_terms c)).


(** The request for page 1 of three is on its way. *)
Definition loading : World := withLoadingState (refreshing threePagesEnv) Loading.


End FirstPage.

(** ** Predicates and sample inputs for the further properties *)

Module NormalizerInputs.

Import Normalizer.

(** Whether a key begins with a decimal digit, as every index key does. *)
Definition startsWithDigit (key : string) : bool :=
  match key with
  | String c _ => Lodash.isDigit c
  | EmptyString => false
  end.

(** Whether every header value is a string. *)
Definition allStrings (fields : list (string * JValue)) : bool :=
  forallb (fun kv => Lodash.isString (snd kv)) fields.

(** [null], or a value the validator accepts. *)
Definition nullOr (validator : JValue -> bool) (v : JValue) : bool :=
  match v with
  | JNull => true
  | _ => validator v
  end.

Definition foundCount : PaginationInfo := mkInfo JNull (JInt 7) (JInt 12).

Definition laterSource : JValue :=
  JObj [("totalCount", JInt 99); ("pages", JInt 98); ("collection", JArr [JStr "z"])].

End NormalizerInputs.

Module EndpointInvariant.

Import EndpointCursor.

(** The page held and the page size are positive, and so is the page of
    every request on its way. *)
Definition wellPaged (w : World) : Prop :=
  1 <= current (cursor w)
  /\ 1 <= limit (cursor w)
  /\ Forall (fun r => 1 <= req_page r) (inflight w).

(** The spellings under which the request generator sends a keyword. *)
Definition spellings (key : string) : list string :=
  [key; Lodash.snakeCase key; Lodash.kebabCase key].

(** An agent that fails every request. *)
Definition offline (_ : Link) (_ : IdentityValues) : AgentOutcome :=
  Failed (Err "offline").

Definition offlineEnv : Env :=
  genericEnv SampleAgents.anyLink SampleAgents.firstLink offline.

End EndpointInvariant.

Module ValueCursorInvariant.

Import ValueCursor.

(** What the constructor fixes for good, for the elements [wrapped] the
    backing array held when the cursor was built: the count is their number
    and the loading state says whether there was any; there is one page;
    and the limit is positive. *)
Definition settledShape (wrapped : list JValue) (c : ValueCursor.t) : Prop :=
  count c = Z.of_nat (List.length wrapped)
  /\ loadingState c = match wrapped with [] => Empty | _ => Ready end
  /\ totalPages c = 1
  /\ 1 <= limit c.

(** The fields no method assigns after construction. *)
Definition fixedFields (c : ValueCursor.t) : Z * Z * CursorLoadingState :=
  (_count c, _totalPages c, loadingState c).

(** The sample cursor after the caller has pushed Dee onto the backing
    array. *)
Definition grown : Heap.t * ValueCursor.t :=
  (fst Samples.tuned,
   ValueCursor.set_wrapped (snd Samples.tuned) (Samples.people ++ [Samples.dee])).

(** Every filter holds of [x]: its pointer resolves and [applyFilter]
    answers [true]. *)
Definition satisfiesAll (ext : Externals) (x : JValue)
           (filters : list CollectionFilterDescriptor) : Prop :=
  Forall (fun f => exists val, pointerGet ext x (filter_path f) = Ok val
                               /\ Engine.applyFilter ext f val = Ok true)
         filters.

(** The pages 1, ..., [k]. *)
Definition firstPages (k : nat) : list Z := map Z.of_nat (seq 1 k).

(** A cursor over the sample people and Dee, who has no [Age], with the
    filter [older] set and a limit of 2. *)
Definition withDee : Heap.t * ValueCursor.t :=
  (fst Samples.tuned,
   ValueCursor.mk 2 1 4 1 [] None 2 1 1 Ready true true true false
                  (Samples.people ++ [Samples.dee])).

End ValueCursorInvariant.

(* ------------------------------------------------------------------ *)
(** * Theorems *)

(** [step_bind H x E]: [H : (x <- r ;; k) = Ok _] becomes [E : r = Ok x] and
    [H : k x = Ok _]. *)
Ltac step_bind H x E :=
  match type of H with
  | bind ?r _ = _ =>
      let e := fresh "e" in
      destruct r as [x|e] eqn:E; cbn [bind] in H; [|discriminate H]
  end.

Module NormalizerFacts.
Import Normalizer.

Example snakeCase_totalCount : Lodash.snakeCase "totalCount" = "total_count".
Proof. reflexivity. Qed.

Example kebabCase_numPages : Lodash.kebabCase "numPages" = "num-pages".
Proof. reflexivity. Qed.

Example snakeCase_acronym : Lodash.snakeCase "XMLHttp2request" = "xml_http_2_request".
Proof. reflexivity. Qed.

(** *** What [checkDataKey] computes *)

Lemma checkDataKeyLoop_verbatim validator data key testables :
  testables <> [] ->
  checkDataKeyLoop validator data key testables =
  (v <- JS.getProp data key ;;
   if JS.notNullish v && validator v then Ok v else Ok JNull).
Proof.
  induction testables as [|t rest IH]; [congruence|]; intros _.
  cbn [checkDataKeyLoop].
  destruct (JS.getProp data key) as [v|e] eqn:E; cbn [bind]; [|reflexivity].
  destruct (JS.notNullish v && validator v) eqn:T; [reflexivity|].
  destruct rest as [|t' rest']; [reflexivity|].
  rewrite IH by congruence. cbn [bind]. now rewrite T.
Qed.

(** Only the verbatim spelling of the key is ever read. *)
Lemma checkDataKey_verbatim validator data key :
  checkDataKey validator data key =
  (v <- JS.getProp data key ;;
   if JS.notNullish v && validator v then Ok v else Ok JNull).
Proof. unfold checkDataKey. apply checkDataKeyLoop_verbatim. congruence. Qed.

Lemma checkDataKey_absent validator fields key :
  JS.assoc key fields = None ->
  checkDataKey validator (JObj fields) key = Ok JNull.
Proof.
  intros H. rewrite checkDataKey_verbatim. cbn [JS.getProp bind].
  now rewrite H.
Qed.

(** The verbatim spelling is accepted, as the specification says. *)
Lemma checkDataKey_present validator fields key v :
  JS.assoc key fields = Some v ->
  JS.notNullish v = true -> validator v = true ->
  checkDataKey validator (JObj fields) key = Ok v.
Proof.
  intros H N V. rewrite checkDataKey_verbatim. cbn [JS.getProp bind].
  rewrite H. cbn [JS.orUndefined]. now rewrite N, V.
Qed.

(** What [checkDataKey] yields is [null] or a value the validator accepts. *)
Lemma checkDataKey_result validator data key v :
  checkDataKey validator data key = Ok v ->
  v = JNull \/ validator v = true.
Proof.
  rewrite checkDataKey_verbatim.
  destruct (JS.getProp data key) as [w|e]; simpl; [|discriminate].
  destruct (JS.notNullish w && validator w) eqn:T; intros [= <-]; [|now left].
  right. now apply andb_true_iff in T.
Qed.

(** *** First match wins for [count] and [totalPages] *)

Lemma fillField_stop get set stop validator data keys partial :
  stop (get partial) = true ->
  fillField get set stop validator data keys partial = Ok partial.
Proof. intros H. destruct keys; simpl; [reflexivity|now rewrite H]. Qed.

Lemma fillField_frame (other get : PaginationInfo -> JValue) set
      stop validator data :
  (forall p v, other (set p v) = other p) ->
  forall keys partial partial',
    fillField get set stop validator data keys partial = Ok partial' ->
    other partial' = other partial.
Proof.
  intros F. induction keys as [|k rest IH]; simpl; intros partial partial' H.
  - now injection H as <-.
  - destruct (stop (get partial)); [now injection H as <-|].
    destruct (checkDataKey validator data k) as [v|e]; simpl in H; [|discriminate].
    rewrite (IH _ _ H). apply F.
Qed.

(** A finite [count] already in the accumulator survives every later
    candidate key and every later source. *)
Lemma count_first_wins partial data partial' :
  Lodash.isFinite (count partial) = true ->
  genericPaginationInfoKeyExtractor partial data = Ok partial' ->
  count partial' = count partial.
Proof.
  intros F H. unfold genericPaginationInfoKeyExtractor in H.
  rewrite fillField_stop in H by exact F. cbn [bind] in H.
  step_bind H p1 E1.
  apply (fillField_frame count) in E1; [|reflexivity].
  apply (fillField_frame count) in H; [|reflexivity].
  congruence.
Qed.

Lemma totalPages_first_wins partial data partial' :
  Lodash.isFinite (totalPages partial) = true ->
  genericPaginationInfoKeyExtractor partial data = Ok partial' ->
  totalPages partial' = totalPages partial.
Proof.
  intros F H. unfold genericPaginationInfoKeyExtractor in H.
  step_bind H p1 E1.
  assert (T1 : totalPages p1 = totalPages partial)
    by (apply (fillField_frame totalPages) in E1; [exact E1|reflexivity]).
  rewrite fillField_stop in H by (now rewrite T1). cbn [bind] in H.
  apply (fillField_frame totalPages) in H; [|reflexivity].
  congruence.
Qed.

(** *** The [items] loop never stops early *)

Lemma fillField_items_last data keys last partial partial' :
  Lodash.isFinite (items partial) = false ->
  fillField items setItems Lodash.isFinite Lodash.isArray data
    (keys ++ [last]) partial = Ok partial' ->
  checkDataKey Lodash.isArray data last = Ok (items partial').
Proof.
  revert partial. induction keys as [|k rest IH]; simpl; intros partial NF H.
  - rewrite NF in H.
    destruct (checkDataKey Lodash.isArray data last) as [v|e]; simpl in H;
      [|discriminate].
    now injection H as <-.
  - rewrite NF in H.
    destruct (checkDataKey Lodash.isArray data k) as [v|e] eqn:E; simpl in H;
      [|discriminate].
    apply (IH (setItems partial v)); [|exact H].
    simpl. destruct (checkDataKey_result _ _ _ _ E) as [->|A]; [reflexivity|].
    destruct v as [| | |[]| | |]; simpl in A; try discriminate; reflexivity.
Qed.

(** Whatever the earlier candidate keys found, the [items] field ends up
    holding what the last candidate key, [collection], gives. *)
Lemma items_last_candidate_wins partial data partial' :
  Lodash.isFinite (items partial) = false ->
  genericPaginationInfoKeyExtractor partial data = Ok partial' ->
  checkDataKey Lodash.isArray data "collection" = Ok (items partial').
Proof.
  intros NF H. unfold genericPaginationInfoKeyExtractor in H.
  step_bind H p1 E1. step_bind H p2 E2.
  apply (fillField_items_last data ["items"; "data"] "collection" p2); [|exact H].
  apply (fillField_frame items) in E1; [|reflexivity].
  apply (fillField_frame items) in E2; [|reflexivity].
  congruence.
Qed.

(** C1.  On the response with body
    [{data: [1,2,3], meta: {total_count: 10, num_pages: 4}}] and empty
    headers the extractor does not produce
    [{items: [1,2,3], count: 10, totalPages: 4}]: all three fields come
    out [null].  The array found under [data] is overwritten when the next
    candidate key [collection] is tried, and [total_count] and [num_pages]
    are never read because only the verbatim spelling is looked up.  The
    extractor worded as in the specification produces the claimed result. *)
Theorem extractor_on_spec_example :
  genericPaginationInfoExtractor
    (mkResponse
       (JObj [("data", JArr [JInt 1; JInt 2; JInt 3]);
              ("meta", JObj [("total_count", JInt 10); ("num_pages", JInt 4)])])
       (JObj []))
  = Ok (mkInfo JNull JNull JNull)
  /\ extractorSpec
    (mkResponse
       (JObj [("data", JArr [JInt 1; JInt 2; JInt 3]);
              ("meta", JObj [("total_count", JInt 10); ("num_pages", JInt 4)])])
       (JObj []))
  = Ok (mkInfo (JArr [JInt 1; JInt 2; JInt 3]) (JInt 4) (JInt 10)).
Proof. split; reflexivity. Qed.

(** C2.  An [items] array set by the earlier candidate key [items] is
    overridden by the later candidate keys: after the first key the
    accumulator holds the array, after the whole loop it holds [null], and
    so does the extractor's result for the body [{items: [1, 2]}].  A later
    source overrides as well: the array found under [collection] in the body
    is the result with empty headers, and is replaced by [null] as soon as
    the headers are searched. *)
Theorem items_overridden_by_later_key :
  fillField items setItems Lodash.isFinite Lodash.isArray
    (JObj [("items", JArr [JInt 1; JInt 2])]) ["items"] emptyInfo
  = Ok (mkInfo (JArr [JInt 1; JInt 2]) JUndefined JUndefined)
  /\ fillField items setItems Lodash.isFinite Lodash.isArray
    (JObj [("items", JArr [JInt 1; JInt 2])]) paginationPageItemsProperties emptyInfo
  = Ok (mkInfo JNull JUndefined JUndefined)
  /\ genericPaginationInfoExtractor
       (mkResponse (JObj [("items", JArr [JInt 1; JInt 2])]) (JObj []))
  = Ok (mkInfo JNull JNull JNull)
  /\ genericPaginationInfoExtractor
       (mkResponse (JObj [("collection", JArr [JInt 1; JInt 2])]) (JObj []))
  = Ok (mkInfo (JArr [JInt 1; JInt 2]) JNull JNull)
  /\ genericPaginationInfoExtractor
       (mkResponse (JObj [("collection", JArr [JInt 1; JInt 2])])
                   (JObj [("etag", JStr "x")]))
  = Ok (mkInfo JNull JNull JNull).
Proof. repeat split; reflexivity. Qed.

(** C3.  For the data object [{total_count: 10}], which holds a finite
    value under the snake_case spelling of [totalCount] only, the lookup
    returns [null]; the lookup worded as in the specification returns 10. *)
Theorem checkDataKey_misses_snake_case :
  Lodash.snakeCase "totalCount" = "total_count"
  /\ checkDataKey Lodash.isFinite (JObj [("total_count", JInt 10)]) "totalCount"
     = Ok JNull
  /\ checkDataKeySpec Lodash.isFinite (JObj [("total_count", JInt 10)]) "totalCount"
     = Ok (JInt 10).
Proof. repeat split; reflexivity. Qed.

End NormalizerFacts.

Module HeapFacts.

Lemma read_alloc_fresh {A : Type} (arrays : list (list A)) (v : list A) :
  Heap.read (snd (Heap.alloc arrays v)) (fst (Heap.alloc arrays v)) = v.
Proof.
  unfold Heap.read, Heap.alloc; simpl.
  rewrite app_nth2 by lia. now rewrite Nat.sub_diag.
Qed.

Lemma read_alloc_old {A : Type} (arrays : list (list A)) (v : list A) loc :
  (loc < List.length arrays)%nat ->
  Heap.read (snd (Heap.alloc arrays v)) loc = Heap.read arrays loc.
Proof. intros H. unfold Heap.read, Heap.alloc; simpl. now apply app_nth1. Qed.

Lemma alloc_fresh_new {A : Type} (arrays : list (list A)) (v : list A) loc :
  (loc < List.length arrays)%nat -> fst (Heap.alloc arrays v) <> loc.
Proof. unfold Heap.alloc; simpl. lia. Qed.

Lemma read_write_same {A : Type} (arrays : list (list A)) loc (v : list A) :
  (loc < List.length arrays)%nat ->
  Heap.read (Heap.write arrays loc v) loc = v.
Proof.
  revert loc. induction arrays as [|a rest IH]; simpl; intros loc H; [lia|].
  destruct loc as [|n]; [reflexivity|].
  unfold Heap.read in *; simpl. apply IH. lia.
Qed.

End HeapFacts.

Module LodashFacts.

(** Between bounds [0 <= start <= stop], [_.slice] is the window of the
    elements at the indices [start], ..., [stop - 1]. *)
Lemma slice_window {A : Type} (l : list A) (start stop : Z) :
  0 <= start -> start <= stop ->
  Lodash.slice l start stop =
  firstn (Z.to_nat (stop - start)) (skipn (Z.to_nat start) l).
Proof.
  intros H0 H1. unfold Lodash.slice.
  set (len := Z.of_nat (List.length l)).
  assert (Hlen : 0 <= len) by (unfold len; lia).
  destruct (Z.ltb_spec start 0); [lia|].
  destruct (Z.gtb_spec stop len).
  - destruct (Z.ltb_spec len 0); [lia|].
    destruct (Z.gtb_spec start len).
    + rewrite skipn_all2 by (unfold len in *; lia). now rewrite !firstn_nil.
    + rewrite !firstn_all2; [reflexivity| |];
        rewrite length_skipn; unfold len in *; lia.
  - destruct (Z.ltb_spec stop 0); [lia|].
    destruct (Z.gtb_spec start stop); [lia|reflexivity].
Qed.

End LodashFacts.

Module EngineFacts.

Lemma filterR_all {A : Type} (p : A -> Result bool) (l : list A) :
  (forall x, p x = Ok true) -> Engine.filterR p l = Ok l.
Proof.
  intros H. induction l as [|x rest IH]; [reflexivity|].
  cbn [Engine.filterR]. rewrite H, IH. reflexivity.
Qed.

Lemma filterCollectionBy_no_filter ext collection :
  Engine.filterCollectionBy ext collection [] = Ok collection.
Proof. apply filterR_all. reflexivity. Qed.

End EngineFacts.

Module ValueCursorFacts.

Import ValueCursor ValueCursorSteps Samples.

(** *** The search step *)

Lemma searchStage_with_terms terms items :
  termsEmpty terms = false -> searchStage terms items = Ok items.
Proof. intros H. unfold searchStage. now rewrite H. Qed.

Lemma searchStage_without_terms terms items :
  termsEmpty terms = true ->
  searchStage terms items =
  Engine.filterR (Engine.searchMatches (query terms)) items.
Proof. intros H. unfold searchStage. now rewrite H. Qed.

(** C4.  With the search term ["nn"] set, the search step of [select]
    keeps all three people, although only Ann has a field containing the
    term; with no term set it filters by the string ["undefined"] and
    keeps nobody.  The step worded as in the specification keeps Ann in
    the first case and everybody in the second.  The last two lines show
    the list [select] holds before it sorts and slices, for the sample
    cursor after [search('nn')] and with no term set. *)
Theorem searchStage_guard_inverted :
  searchStage (Some "nn") people = Ok people
  /\ searchStageSpec (Some "nn") people = Ok [ann]
  /\ searchStage None people = Ok []
  /\ searchStageSpec None people = Ok people
  /\ intermediate Reference.externals builtHeap (search builtCursor "nn") = Ok people
  /\ intermediate Reference.externals builtHeap builtCursor = Ok [].
Proof. repeat split; reflexivity. Qed.

(** *** [select] *)

Section WithExternals.

Variable ext : Externals.

(** [select] with its successive assignments to [this._items] merged. *)
Lemma select_unfold h c pageNumber :
  select ext h c pageNumber =
  match Engine.filterCollectionBy ext (_wrapped c) (filters h c) with
  | Throw e => (set_items c (_wrapped c), Raised e)
  | Ok filtered =>
      match searchStage (terms c) filtered with
      | Throw e => (set_items c filtered, Raised e)
      | Ok searched =>
          match Engine.sortCollectionBy ext searched (sorters h c) with
          | Throw e => (set_items c searched, Raised e)
          | Ok sorted =>
              let page := Lodash.slice (_wrapped c) ((pageNumber - 1) * limit c)
                                       (pageNumber * limit c) in
              (set_current (set_items c page) pageNumber, Resolved page)
          end
      end
  end.
Proof.
  unfold select.
  change (filters h (set_items c (_wrapped c))) with (filters h c).
  change (_items (set_items c (_wrapped c))) with (_wrapped c).
  destruct (Engine.filterCollectionBy ext (_wrapped c) (filters h c)) as [filtered|e];
    [|reflexivity].
  change (terms (set_items (set_items c (_wrapped c)) filtered)) with (terms c).
  change (_items (set_items (set_items c (_wrapped c)) filtered)) with filtered.
  destruct (searchStage (terms c) filtered) as [searched|e]; [|reflexivity].
  change (sorters h (set_items (set_items (set_items c (_wrapped c)) filtered) searched))
    with (sorters h c).
  change (_items (set_items (set_items (set_items c (_wrapped c)) filtered) searched))
    with searched.
  destruct (Engine.sortCollectionBy ext searched (sorters h c)); reflexivity.
Qed.

Lemma select_raises_in_filter h c pageNumber e :
  Engine.filterCollectionBy ext (_wrapped c) (filters h c) = Throw e ->
  select ext h c pageNumber = (set_items c (_wrapped c), Raised e).
Proof. intros H. rewrite select_unfold. now rewrite H. Qed.

(** When the sort raises, [select] throws with [items] holding the list
    that was to be sorted, and [current] as it was. *)
Lemma select_raises_in_sort h c pageNumber filtered searched e :
  Engine.filterCollectionBy ext (_wrapped c) (filters h c) = Ok filtered ->
  searchStage (terms c) filtered = Ok searched ->
  Engine.sortCollectionBy ext searched (sorters h c) = Throw e ->
  select ext h c pageNumber = (set_items c searched, Raised e).
Proof. intros F S O. rewrite select_unfold. now rewrite F, S, O. Qed.

(** Whatever [select] does, it leaves the fields [f] reads as they were,
    when [f] reads neither [items] nor [current]. *)
Lemma select_frame {A : Type} (f : ValueCursor.t -> A) :
  (forall c v, f (set_items c v) = f c) ->
  (forall c v, f (set_current c v) = f c) ->
  forall h c pageNumber, f (fst (select ext h c pageNumber)) = f c.
Proof.
  intros I C h c pageNumber. rewrite select_unfold.
  destruct (Engine.filterCollectionBy _ _ _); [|apply I].
  destruct (searchStage _ _); [|apply I].
  destruct (Engine.sortCollectionBy _ _ _); [|apply I].
  cbn [fst]. now rewrite C, I.
Qed.

Lemma selectEach_frame {A : Type} (f : ValueCursor.t -> A) :
  (forall h c pageNumber, f (fst (select ext h c pageNumber)) = f c) ->
  forall h pages c, f (fst (selectEach ext h c pages)) = f c.
Proof.
  intros S h pages. induction pages as [|i rest IH]; intros c; [reflexivity|].
  cbn [selectEach]. pose proof (S h c i) as Si.
  destruct (select ext h c i) as [c1 [page|e|e]]; cbn [fst] in *; try exact Si.
  pose proof (IH c1) as R. destruct (selectEach ext h c1 rest) as [c2 more].
  cbn [fst] in *. congruence.
Qed.

(** [all()] changes the cursor through [select] only. *)
Lemma all_frame {A : Type} (f : ValueCursor.t -> A) :
  (forall h c pageNumber, f (fst (select ext h c pageNumber)) = f c) ->
  forall h c, f (fst (all ext h c)) = f c.
Proof.
  intros S h c. unfold all, getAllCursorPages.
  assert (F : forall c0,
             f (fst (let first := items c0 in
                     match selectEach ext h c0 (pagesAfterFirst (totalPages c0)) with
                     | (c1, Ok pages) =>
                         (c1, Some (Resolved (first ++ List.concat pages)%list))
                     | (c1, Throw e) => (c1, Some (Rejected e))
                     end)) = f c0).
  { intros c0. cbn zeta.
    pose proof (selectEach_frame f S h (pagesAfterFirst (totalPages c0)) c0) as R.
    destruct (selectEach ext h c0 _) as [c1 [pages|e]]; exact R. }
  destruct (loadingState c); try apply F; [|reflexivity].
  pose proof (S h c 1) as S1.
  destruct (select ext h c 1) as [c1 [page|e|e]]; cbn [fst] in *; try exact S1.
  now rewrite F.
Qed.

(** C5, as amended.  Whenever the filter, search and sort steps of [select]
    raise no error, [select(page)] resolves, and the items it leaves are
    the slice [(page-1)*limit, page*limit) of the backing sequence: they
    do not depend on the filtered, searched and sorted list [l].  For a
    page number of 1 or more the slice is the window of [limit] elements
    that starts at index [(page-1)*limit]. *)
Theorem select_slices_backing_sequence h c pageNumber l :
  intermediate ext h c = Ok l ->
  exists c',
    select ext h c pageNumber = (c', Resolved (items c'))
    /\ items c' = Lodash.slice (_wrapped c) ((pageNumber - 1) * limit c)
                               (pageNumber * limit c)
    /\ current c' = pageNumber
    /\ (1 <= pageNumber -> 1 <= limit c ->
        items c' = firstn (Z.to_nat (limit c))
                          (skipn (Z.to_nat ((pageNumber - 1) * limit c))
                                 (_wrapped c))).
Proof.
  intros H. unfold intermediate in H.
  step_bind H filtered E1. step_bind H searched E2.
  rewrite select_unfold, E1, E2, H.
  exists (set_current
            (set_items c (Lodash.slice (_wrapped c) ((pageNumber - 1) * limit c)
                                       (pageNumber * limit c)))
            pageNumber).
  split; [reflexivity|]. split; [reflexivity|]. split; [reflexivity|].
  change (items (set_current (set_items c ?x) pageNumber)) with x.
  intros Hp Hl. rewrite LodashFacts.slice_window by nia.
  f_equal. f_equal. nia.
Qed.

Lemma select_totalPages h c pageNumber :
  _totalPages (fst (select ext h c pageNumber)) = _totalPages c.
Proof. now apply (select_frame _totalPages). Qed.

Lemma step_totalPages s s' :
  step ext s s' -> _totalPages (snd s') = _totalPages (snd s).
Proof.
  destruct 1; cbn [snd].
  - apply select_totalPages.
  - unfold next. destruct (negb (hasNext c)); [reflexivity|apply select_totalPages].
  - unfold previous.
    destruct (negb (hasPrevious c)); [reflexivity|apply select_totalPages].
  - apply select_totalPages.
  - unfold assign_limit. destruct (value <? 1); [reflexivity|]. cbn.
    destruct (autoReload c); [|reflexivity].
    pose proof (select_totalPages h (set_limit c value) (current (set_limit c value))) as T.
    destruct (select _ _ _ _) as [c' [r|e|e]]; exact T.
  - unfold assign_current. destruct (value <? 1); [reflexivity|].
    destruct (autoReload c); [|reflexivity].
    pose proof (select_totalPages h c value) as T.
    destruct (select _ _ _ _) as [c' [r|e|e]]; exact T.
  - destruct value; reflexivity.
  - reflexivity.
  - reflexivity.
  - reflexivity.
  - reflexivity.
  - apply (all_frame _totalPages select_totalPages).
  - reflexivity.
  - unfold filterBy. destruct replace, filter; reflexivity.
  - reflexivity.
  - reflexivity.
  - unfold sortBy. destruct replace, sort; reflexivity.
  - reflexivity.
  - reflexivity.
  - unfold sortByColumn. destruct (findColumn _ _ _); [|reflexivity].
    destruct (negb _); reflexivity.
  - unfold filterByColumn. destruct (findColumn _ _ _); [|reflexivity].
    destruct (negb _); reflexivity.
  - reflexivity.
Qed.

Lemma construct_totalPages h wrapped columns h' c :
  construct ext h wrapped columns = (h', Ok c) -> _totalPages c = 1.
Proof.
  unfold construct. cbn. destruct columns as [loc|]; cbn; [|discriminate].
  match goal with
  | |- context [select ext ?hh ?cc 1] =>
      pose proof (select_totalPages hh cc 1) as T;
      destruct (select ext hh cc 1) as [c' [r|e|e]]
  end; intros [= _ <-]. exact T.
Qed.

Lemma reachable_totalPages s : reachable ext s -> _totalPages (snd s) = 1.
Proof.
  induction 1 as [h wrapped columns h' c H|s s' _ IH St].
  - exact (construct_totalPages _ _ _ _ _ H).
  - rewrite (step_totalPages _ _ St). exact IH.
Qed.

(** No operation assigns [totalPages]: in every state a value cursor can
    reach, whatever the backing sequence and the limit, it is 1; so, as
    long as [current] is 1 or more, [hasNext()] is false and [next()]
    rejects and leaves the cursor as it is. *)
Lemma totalPages_stays_one s :
  reachable ext s ->
  totalPages (snd s) = 1
  /\ (1 <= current (snd s) ->
      hasNext (snd s) = false
      /\ next ext (fst s) (snd s) = (snd s, Rejected (Reason "This the last page!"))).
Proof.
  intros R. pose proof (reachable_totalPages s R) as T.
  split; [exact T|]. intros C.
  assert (N : hasNext (snd s) = false)
    by (unfold hasNext, totalPages, current in *; rewrite T; apply Z.ltb_ge; exact C).
  split; [exact N|]. unfold next. now rewrite N.
Qed.

(** *** The descriptor lists *)

(** C9.  [clearSorters()] leaves the list of sorters as it was and makes
    the list of filters empty; the [select] that follows runs no filter
    and sorts by the sorters that were set. *)
Theorem clearSorters_clears_filters h c :
  sorters (fst (clearSorters h c)) (snd (clearSorters h c)) = sorters h c
  /\ filters (fst (clearSorters h c)) (snd (clearSorters h c)) = []
  /\ intermediate ext (fst (clearSorters h c)) (snd (clearSorters h c))
     = (searched <- searchStage (terms c) (_wrapped c) ;;
        Engine.sortCollectionBy ext searched (sorters h c)).
Proof.
  assert (F : filters (fst (clearSorters h c)) (snd (clearSorters h c)) = [])
    by (unfold clearSorters, filters; cbn;
        apply (HeapFacts.read_alloc_fresh (Heap.filterArrays h) [])).
  split; [reflexivity|]. split; [exact F|].
  unfold intermediate. rewrite F.
  rewrite EngineFacts.filterCollectionBy_no_filter. reflexivity.
Qed.

End WithExternals.

Lemma built_ok : built = (builtHeap, Ok builtCursor).
Proof. reflexivity. Qed.

Lemma select_slices_backing_sequence_witness :
  intermediate Reference.externals (fst tuned) (snd tuned) = Ok []
  /\ exists c',
      select Reference.externals (fst tuned) (snd tuned) 2 = (c', Resolved (items c'))
      /\ items c' = Lodash.slice (_wrapped (snd tuned)) ((2 - 1) * limit (snd tuned))
                                 (2 * limit (snd tuned))
      /\ current c' = 2
      /\ (1 <= 2 -> 1 <= limit (snd tuned) ->
          items c' = firstn (Z.to_nat (limit (snd tuned)))
                            (skipn (Z.to_nat ((2 - 1) * limit (snd tuned)))
                                   (_wrapped (snd tuned)))).
Proof.
  split; [reflexivity|].
  apply (select_slices_backing_sequence Reference.externals (fst tuned) (snd tuned) 2 []).
  reflexivity.
Defined.

Lemma tuned_reachable : reachable Reference.externals tuned.
Proof.
  apply reach_step with
    (s := ValueCursor.filterBy builtHeap
            (fst (assign_limit Reference.externals builtHeap builtCursor 2))
            (One older) false).
  2: { unfold tuned. destruct (filterBy _ _ _ _). apply step_sortBy. }
  apply reach_step with
    (s := (builtHeap, fst (assign_limit Reference.externals builtHeap builtCursor 2))).
  2: apply step_filterBy.
  apply reach_step with (s := (builtHeap, builtCursor)); [|apply step_assign_limit].
  apply (reach_construct _ callerHeap people (Some 0%nat)). reflexivity.
Qed.

(** The sample cursor holds three elements with a limit of 2. *)
Lemma totalPages_stays_one_witness :
  reachable Reference.externals tuned
  /\ limit (snd tuned) = 2 /\ count (snd tuned) = 3
  /\ totalPages (snd tuned) = 1
  /\ hasNext (snd tuned) = false
  /\ next Reference.externals (fst tuned) (snd tuned)
     = (snd tuned, Rejected (Reason "This the last page!")).
Proof.
  split; [exact tuned_reachable|]. split; [reflexivity|]. split; [reflexivity|].
  destruct (totalPages_stays_one Reference.externals tuned tuned_reachable) as [T N].
  split; [exact T|]. apply N. vm_compute. discriminate.
Defined.

(** C10.  [select] does not check its page number: [select(0)] is accepted
    and stores 0 in [current]; in the state it leaves, [totalPages] is 1,
    [hasNext()] is true and [next()] resolves with the first page.  The
    setter of [current] ignores the value 0, and [select] of the endpoint
    cursor rejects it. *)
Theorem hasNext_after_select_zero :
  reachable Reference.externals
            (fst tuned, fst (select Reference.externals (fst tuned) (snd tuned) 0))
  /\ current (fst (select Reference.externals (fst tuned) (snd tuned) 0)) = 0
  /\ totalPages (fst (select Reference.externals (fst tuned) (snd tuned) 0)) = 1
  /\ hasNext (fst (select Reference.externals (fst tuned) (snd tuned) 0)) = true
  /\ snd (next Reference.externals (fst tuned)
               (fst (select Reference.externals (fst tuned) (snd tuned) 0)))
     = Resolved [ann; bob]
  /\ assign_current Reference.externals (fst tuned) (set_autoReload (snd tuned) true) 0
     = (set_autoReload (snd tuned) true, Resolved tt)
  /\ snd (EndpointCursor.select_start SampleAgents.threePagesEnv
             (SampleAgents.refreshed SampleAgents.threePagesEnv) 0 false)
     = EndpointCursor.Settled
         (Rejected (Err "Pagenumber has to be an integer of 1 or higher.")).
Proof.
  split; [|repeat split; reflexivity].
  apply reach_step with (s := tuned); [exact tuned_reachable|].
  destruct tuned; apply step_select.
Qed.

Lemma crowd_reachable : reachable Reference.externals crowd.
Proof.
  destruct (construct Reference.externals callerHeap (people ++ [dee]) (Some 0%nat))
    as [h [c|e]] eqn:E; [|discriminate E].
  assert (C : crowd = filterBy h (fst (assign_limit Reference.externals h c 2))
                               (One older) false)
    by (unfold crowd; now rewrite E).
  rewrite C.
  apply reach_step with (s := (h, fst (assign_limit Reference.externals h c 2)));
    [|apply step_filterBy].
  apply reach_step with (s := (h, c)); [|apply step_assign_limit].
  exact (reach_construct _ _ _ _ _ _ E).
Qed.

(** C5, as stated, fails.  The cursor is built on Ann, Bob, Cyd and Dee,
    with a limit of 2 and the filter [older], which reads [/Age]; Dee has
    no [Age].  [select(1)] raises, and the items it leaves are the whole
    backing sequence of four, not the slice of the first two. *)
Lemma select_leaves_no_slice_when_filter_raises :
  reachable Reference.externals crowd
  /\ _wrapped (snd crowd) = [ann; bob; cyd; dee]
  /\ limit (snd crowd) = 2
  /\ filters (fst crowd) (snd crowd) = [older]
  /\ snd (select Reference.externals (fst crowd) (snd crowd) 1)
     = Raised (Err "Invalid reference token: Age")
  /\ items (fst (select Reference.externals (fst crowd) (snd crowd) 1))
     = [ann; bob; cyd; dee]
  /\ Lodash.slice (_wrapped (snd crowd)) ((1 - 1) * limit (snd crowd))
                  (1 * limit (snd crowd))
     = [ann; bob].
Proof. split; [exact crowd_reachable|repeat split; reflexivity]. Qed.

(** A filter whose pointer does not resolve in an element makes [select]
    raise: the items are then the whole backing sequence, and [current] is
    not changed. *)
Example select_raises_on_unresolved_pointer :
  select Reference.externals (fst tuned)
         (set_current (ValueCursor.mk 2 1 4 1 [] None 2 1 1 Ready true true true false
                                      (people ++ [dee])) 1) 2
  = (ValueCursor.mk 2 1 4 1 (people ++ [dee]) None 2 1 1 Ready true true true false
                    (people ++ [dee]),
     Raised (Err "Invalid reference token: Age")).
Proof. reflexivity. Qed.

(** An element that cannot be compared makes the sort step raise.  The
    cursor is built on [[odd; ann]], its limit is set to 1 and a search
    term is set, so that the search step keeps both elements: [select(1)]
    raises and leaves [items] holding the two elements it was to sort. *)
Example select_raises_on_unsortable_element :
  exists h c0,
    construct Reference.externals callerHeap [odd; ann] (Some 0%nat) = (h, Ok c0)
    /\ let c := search (fst (assign_limit Reference.externals h c0 1)) "a" in
       limit c = 1
       /\ select Reference.externals h c 1
          = (set_items c [odd; ann],
             Raised (TypeErr "Cannot convert object to primitive value")).
Proof. eexists. eexists. split; [reflexivity|]. cbn zeta. split; reflexivity. Qed.

(** C8.  After [filterBy(fs, true)] with the caller's array [fs = [older]],
    the cursor's list of filters is that very array, and the array holds
    the descriptor twice; likewise for [sortBy(ss, true)].  Assigning
    [columns] copies. *)
Theorem replace_keeps_callers_array :
  _filters (snd (filterBy builtHeap builtCursor (Many 0%nat) true)) = 0%nat
  /\ filters (fst (filterBy builtHeap builtCursor (Many 0%nat) true))
             (snd (filterBy builtHeap builtCursor (Many 0%nat) true))
     = [older; older]
  /\ _sorters (snd (sortBy builtHeap builtCursor (Many 0%nat) true)) = 0%nat
  /\ sorters (fst (sortBy builtHeap builtCursor (Many 0%nat) true))
             (snd (sortBy builtHeap builtCursor (Many 0%nat) true))
     = [byName; byName].
Proof. repeat split; reflexivity. Qed.

Lemma filterBy_replace_array h c loc :
  (loc < List.length (Heap.filterArrays h))%nat ->
  _filters (snd (filterBy h c (Many loc) true)) = loc
  /\ filters (fst (filterBy h c (Many loc) true)) (snd (filterBy h c (Many loc) true))
     = (Heap.read (Heap.filterArrays h) loc ++ Heap.read (Heap.filterArrays h) loc)%list.
Proof.
  intros H. split; [reflexivity|].
  unfold filterBy, filters. cbn. now apply HeapFacts.read_write_same.
Qed.

Lemma sortBy_replace_array h c loc :
  (loc < List.length (Heap.sortArrays h))%nat ->
  _sorters (snd (sortBy h c (Many loc) true)) = loc
  /\ sorters (fst (sortBy h c (Many loc) true)) (snd (sortBy h c (Many loc) true))
     = (Heap.read (Heap.sortArrays h) loc ++ Heap.read (Heap.sortArrays h) loc)%list.
Proof.
  intros H. split; [reflexivity|].
  unfold sortBy, sorters. cbn. now apply HeapFacts.read_write_same.
Qed.

(** The setter of [columns] does copy: the cursor's list is a new array
    with the elements of the caller's. *)
Lemma assign_columns_copies h c loc :
  (loc < List.length (Heap.columnArrays h))%nat ->
  _columns (snd (fst (assign_columns h c (Some loc)))) <> loc
  /\ columns (fst (fst (assign_columns h c (Some loc))))
             (snd (fst (assign_columns h c (Some loc))))
     = Heap.read (Heap.columnArrays h) loc
  /\ Heap.read (Heap.columnArrays (fst (fst (assign_columns h c (Some loc))))) loc
     = Heap.read (Heap.columnArrays h) loc.
Proof.
  intros H. unfold assign_columns, columns. cbn. repeat split.
  - lia.
  - apply (HeapFacts.read_alloc_fresh (Heap.columnArrays h)).
  - now apply (HeapFacts.read_alloc_old (Heap.columnArrays h)).
Qed.

End ValueCursorFacts.

Module EndpointCursorFacts.

Import Normalizer EndpointCursor EndpointCursorSteps SampleAgents FirstPage.

(** *** Failures *)

(** When the agent fails, the handlers change nothing in the cursor, emit
    [error] and reject with the cause. *)
Lemma settle_agent_failure env c page err :
  settle env c page (Failed err) = (c, [ErrorEvent err], Rejected err).
Proof. reflexivity. Qed.

(** When the extractor raises, [current] has been assigned already. *)
Lemma settle_extraction_failure env c page response err :
  paginationInfoExtractor env response = Throw err ->
  settle env c page (Fulfilled response)
  = (set_current c page, [ErrorEvent err], Rejected err).
Proof. intros H. unfold settle. now rewrite H. Qed.

Lemma select_start_cursor env w page forceReload :
  cursor (fst (select_start env w page forceReload)) = cursor w.
Proof.
  unfold select_start. destruct (page <? 1); [reflexivity|].
  destruct (_ && _); [reflexivity|].
  destruct (findLink env (cursor w)); reflexivity.
Qed.

(** A [select] whose request the agent fails leaves the cursor as it was. *)
Lemma select_agent_failure env w page forceReload err :
  (forall link urlData, execute env link urlData = Failed err) ->
  inflight w = [] ->
  cursor (fst (select env w page forceReload)) = cursor w.
Proof.
  intros F I. unfold select.
  pose proof (select_start_cursor env w page forceReload) as C.
  unfold select_start in *. destruct (page <? 1).
  { cbn. unfold deliverAll. rewrite I. reflexivity. }
  destruct (_ && _).
  { cbn. unfold deliverAll. rewrite I. reflexivity. }
  destruct (findLink env (cursor w)).
  2: { cbn. unfold deliverAll. rewrite I. reflexivity. }
  cbn. unfold deliverAll. cbn. rewrite I. cbn. unfold deliverOne. cbn.
  rewrite F. reflexivity.
Qed.

(** C6.  The cursor is on page 1 and [select(2)] is answered by
    [{"collection": ["a"], "meta": null}], on which the extractor raises a
    TypeError.  The promise is rejected with that error and [error] is
    emitted, [items], [totalPages] and [count] are what they were, but
    [current] is 2. *)
Theorem select_moves_page_when_extraction_fails :
  current (cursor (fresh nullMetaEnv)) = 1
  /\ snd (select nullMetaEnv (fresh nullMetaEnv) 2 false)
     = Some (Rejected (TypeErr "Cannot read properties of null"))
  /\ events (fst (select nullMetaEnv (fresh nullMetaEnv) 2 false))
     = [BeforePageChange 2; ErrorEvent (TypeErr "Cannot read properties of null")]
  /\ items (cursor (fst (select nullMetaEnv (fresh nullMetaEnv) 2 false)))
     = items (cursor (fresh nullMetaEnv))
  /\ totalPages (cursor (fst (select nullMetaEnv (fresh nullMetaEnv) 2 false)))
     = totalPages (cursor (fresh nullMetaEnv))
  /\ count (cursor (fst (select nullMetaEnv (fresh nullMetaEnv) 2 false)))
     = count (cursor (fresh nullMetaEnv))
  /\ current (cursor (fst (select nullMetaEnv (fresh nullMetaEnv) 2 false))) = 2.
Proof. repeat split; reflexivity. Qed.

(** *** [loadingState] *)

Lemma settle_loadingState env c page answer :
  loadingState (fst (fst (settle env c page answer))) = loadingState c.
Proof.
  destruct answer as [response|err]; [|reflexivity].
  unfold settle. destruct (paginationInfoExtractor env response); reflexivity.
Qed.

Lemma deliverOne_loadingState env w r :
  loadingState (cursor (deliverOne env w r)) = loadingState (cursor w).
Proof.
  unfold deliverOne.
  pose proof (settle_loadingState env (cursor w) (req_page r)
                (execute env (req_link r) (req_urlData r))) as S.
  destruct (settle _ _ _ _) as [[c evs] o]. exact S.
Qed.

Lemma deliverEach_loadingState env rs : forall w,
  loadingState (cursor (deliverEach env w rs)) = loadingState (cursor w).
Proof.
  induction rs as [|r rest IH]; intros w; [reflexivity|].
  cbn [deliverEach]. rewrite IH. apply deliverOne_loadingState.
Qed.

Lemma deliverAll_loadingState env w :
  loadingState (cursor (deliverAll env w)) = loadingState (cursor w).
Proof. unfold deliverAll. now rewrite deliverEach_loadingState. Qed.

Lemma selectEach_cursor env pages : forall w,
  cursor (fst (selectEach env w pages)) = cursor w.
Proof.
  induction pages as [|i rest IH]; intros w; [reflexivity|].
  cbn [selectEach].
  pose proof (select_start_cursor env w i false) as C.
  destruct (select_start env w i false) as [w1 s1]. cbn [fst] in C.
  pose proof (IH w1) as C1.
  destruct (selectEach env w1 rest) as [w2 ss]. cbn [fst] in *. congruence.
Qed.

Lemma all_pages_loadingState env w :
  loadingState (cursor (fst (all_pages env w))) = loadingState (cursor w).
Proof.
  unfold all_pages, all_rest.
  destruct (pagesAfterFirst _) as [pages|]; [|reflexivity].
  pose proof (selectEach_cursor env pages w) as C.
  destruct (selectEach env w pages) as [w1 ss]. cbn [fst] in *.
  rewrite deliverAll_loadingState. now rewrite C.
Qed.

Lemma awaitEvent_loadingState env rs : forall w,
  loadingState (cursor (fst (awaitEvent env w rs))) = loadingState (cursor w).
Proof.
  induction rs as [|r rest IH]; intros w; [reflexivity|].
  cbn [awaitEvent].
  destruct (find _ _) as [[id [v|e|e]]|];
    try (rewrite IH; apply deliverOne_loadingState).
  rewrite all_pages_loadingState. apply deliverOne_loadingState.
Qed.

Lemma all_loadingState env w :
  loadingState (cursor (fst (all env w))) = loadingState (cursor w).
Proof.
  unfold all, all_first.
  destruct (pastUninitialized _).
  - destruct (isReady _).
    + apply all_pages_loadingState.
    + now rewrite awaitEvent_loadingState.
  - pose proof (select_start_cursor env w 1 false) as C.
    destruct (select_start env w 1 false) as [w1 [[v|e|e]|id]]; cbn [fst] in C.
    + rewrite all_pages_loadingState. now rewrite C.
    + cbn [fst]. now rewrite C.
    + cbn [fst]. now rewrite C.
    + pose proof (deliverAll_loadingState env w1) as D.
      destruct (outcomeOf _ _) as [[v|e|e]|]; cbn [fst];
        try rewrite all_pages_loadingState; congruence.
Qed.

Lemma step_loadingState env w w' :
  step env w w' -> loadingState (cursor w') = loadingState (cursor w).
Proof.
  destruct 1.
  - now rewrite select_start_cursor.
  - unfold next_start. destruct (negb _); [reflexivity|].
    now rewrite select_start_cursor.
  - unfold previous_start. destruct (negb _); [reflexivity|].
    now rewrite select_start_cursor.
  - unfold refresh_start. now rewrite select_start_cursor.
  - unfold search_start. now rewrite select_start_cursor.
  - unfold assign_limit. destruct (value <? 1); [reflexivity|].
    destruct (autoReload _); [|reflexivity]. now rewrite select_start_cursor.
  - unfold assign_current. destruct (value <? 1); [reflexivity|].
    destruct (autoReload _); [|reflexivity]. now rewrite select_start_cursor.
  - reflexivity.
  - apply all_loadingState.
  - now rewrite deliverOne_loadingState.
Qed.

Lemma construct_loadingState env linkName initialPage limit :
  loadingState (cursor (construct env linkName initialPage limit)) = Uninitialized.
Proof.
  unfold construct.
  assert (L : forall c l, loadingState (set_limit c l) = loadingState c) by reflexivity.
  destruct initialPage as [p|], limit as [l|];
    try destruct (p >=? 1); try destruct (l >=? 1);
      try rewrite select_start_cursor; reflexivity.
Qed.

(** No operation of the endpoint cursor assigns [loadingState]: it is
    [Uninitialized] in every state the cursor can reach. *)
Lemma loadingState_stays_Uninitialized env w :
  reachable env w -> loadingState (cursor w) = Uninitialized.
Proof.
  induction 1 as [linkName initialPage limit|w w' _ IH St].
  - apply construct_loadingState.
  - rewrite (step_loadingState _ _ _ St). exact IH.
Qed.

(** In every state the cursor can reach, [all()] obtains its first page
    from [select(1)]; the branches for a cursor that is loading or ready
    are not taken. *)
Lemma all_first_selects env w :
  reachable env w ->
  all_first env w =
  match select_start env w 1 false with
  | (w', Settled o) => (w', FirstNow o)
  | (w', Pending id) => (w', FirstFromSelect id)
  end.
Proof.
  intros R. unfold all_first.
  now rewrite (loadingState_stays_Uninitialized env w R).
Qed.

(** [refresh()] has asked for page 1 of a collection of three pages and
    the answer is on its way when [all()] is called.  [loadingState] is
    still [Uninitialized]; [all()] resolves with the empty list, and only
    the request of [refresh()] is ever sent. *)
Example all_during_first_load :
  reachable threePagesEnv (refreshing threePagesEnv)
  /\ map req_page (inflight (refreshing threePagesEnv)) = [1]
  /\ loadingState (cursor (refreshing threePagesEnv)) = Uninitialized
  /\ snd (all threePagesEnv (refreshing threePagesEnv)) = Done (Resolved [])
  /\ map req_page (sent (fst (all threePagesEnv (refreshing threePagesEnv)))) = [1]
  /\ totalPages (cursor (fst (all threePagesEnv (refreshing threePagesEnv)))) = JInt 3.
Proof.
  split; [|repeat split; reflexivity].
  apply reach_step with (w := fresh threePagesEnv); [apply reach_construct|].
  apply step_refresh.
Qed.

(** Once the answer has arrived, [all()] asks for pages 2 and 3 only and
    resolves with the five elements in order: [select(1)] resolves from
    the items held, because [current] is 1. *)
Example all_after_first_load :
  snd (all threePagesEnv (refreshed threePagesEnv))
  = Done (Resolved [JStr "a"; JStr "b"; JStr "c"; JStr "d"; JStr "e"])
  /\ map req_page (sent (fst (all threePagesEnv (refreshed threePagesEnv)))) = [1; 2; 3].
Proof. split; reflexivity. Qed.

(** *** What a call of [select] sends *)

Lemma select_start_cases env w page forceReload :
  (exists o, select_start env w page forceReload = (w, Settled o))
  \/ (exists link urlData,
         findLink env (cursor w) = Some link
         /\ 1 <= page
         /\ select_start env w page forceReload
            = (mkWorld (cursor w)
                       (inflight w ++ [mkRequest (List.length (sent w)) page link urlData])
                       (events w ++ [BeforePageChange page])
                       (sent w ++ [mkRequest (List.length (sent w)) page link urlData])
                       (settled w),
               Pending (List.length (sent w)))).
Proof.
  unfold select_start. destruct (Z.ltb_spec page 1); [left; eauto|].
  destruct (_ && _); [left; eauto|].
  destruct (findLink env (cursor w)) as [link|]; [|left; eauto].
  right. exists link. eexists. split; [reflexivity|]. split; [lia|]. reflexivity.
Qed.

Lemma deliverOne_sent env w r : sent (deliverOne env w r) = sent w.
Proof. unfold deliverOne. now destruct (settle _ _ _ _) as [[c evs] o]. Qed.

Lemma deliverEach_sent env rs : forall w, sent (deliverEach env w rs) = sent w.
Proof.
  induction rs as [|r rest IH]; intros w; [reflexivity|].
  cbn [deliverEach]. rewrite IH. apply deliverOne_sent.
Qed.

Lemma deliverAll_sent env w : sent (deliverAll env w) = sent w.
Proof. unfold deliverAll. now rewrite deliverEach_sent. Qed.

Lemma pages_from_two n :
  Forall (fun i => 2 <= i) (map (fun k => Z.of_nat k + 2) (seq 0 n)).
Proof.
  apply Forall_forall. intros i H. apply in_map_iff in H as (k & <- & _). lia.
Qed.

(** *** [all] on a cursor whose first page is held *)














(** *** [all] sends no request for the first page *)









(** With the request for page 1 on its way and [loadingState] holding
    [Loading], [all()] waits for the answer, takes its items as the first
    page and asks for the pages 2 and 3. *)
Example all_while_first_page_loads :
  map req_page (inflight loading) = [1]
  /\ map req_page (sent (fst (all threePagesEnv loading))) = [1; 2; 3]
  /\ snd (all threePagesEnv loading)
     = Done (Resolved [JStr "a"; JStr "b"; JStr "c"; JStr "d"; JStr "e"]).
Proof. repeat split; reflexivity. Qed.

End EndpointCursorFacts.

(* ------------------------------------------------------------------ *)
(** * Further properties of the modelled code *)

Module NormalizerMore.

Import Normalizer NormalizerInputs.

Lemma natToString_digit n :
  exists c rest, JS.natToString n = String c rest /\ Lodash.isDigit c = true.
Proof.
  unfold JS.natToString, NilZero.string_of_uint.
  destruct (Nat.to_uint n); cbn; eexists; eexists; split; reflexivity.
Qed.

Lemma atIndexKey_named {A : Type} key (l : list A) : forall i,
  startsWithDigit key = false -> JS.atIndexKey key i l = None.
Proof.
  induction l as [|x rest IH]; intros i H; [reflexivity|].
  cbn [JS.atIndexKey].
  destruct (natToString_digit i) as (c & r & E & D). rewrite E.
  destruct key as [|k krest]; [cbn; now apply IH|].
  cbn [startsWithDigit] in H.
  assert (N : String.eqb (String k krest) (String c r) = false).
  { cbn. destruct (Ascii.eqb_spec k c) as [->|]; [congruence|reflexivity]. }
  rewrite N. now apply IH.
Qed.

Lemma getProp_array_named elems key :
  startsWithDigit key = false -> String.eqb key "length" = false ->
  JS.getProp (JArr elems) key = Ok JUndefined.
Proof.
  intros D L. unfold JS.getProp. rewrite L. now rewrite atIndexKey_named.
Qed.

Lemma checkDataKey_array_named validator elems key :
  startsWithDigit key = false -> String.eqb key "length" = false ->
  checkDataKey validator (JArr elems) key = Ok JNull.
Proof.
  intros D L. rewrite NormalizerFacts.checkDataKey_verbatim.
  now rewrite getProp_array_named.
Qed.

Lemma checkDataKey_array_length elems :
  checkDataKey Lodash.isFinite (JArr elems) "length"
  = Ok (JInt (Z.of_nat (List.length elems))).
Proof. rewrite NormalizerFacts.checkDataKey_verbatim. reflexivity. Qed.

Lemma isMetaKey_index n : isMetaKey (JS.natToString n) = false.
Proof.
  destruct (natToString_digit n) as (c & r & E & D). rewrite E.
  unfold isMetaKey. cbn.
  destruct c as [[] [] [] [] [] [] [] []]; try discriminate D; reflexivity.
Qed.

Lemma find_isMetaKey_indices l : find isMetaKey (map JS.natToString l) = None.
Proof.
  induction l as [|n rest IH]; [reflexivity|].
  cbn [map find]. now rewrite isMetaKey_index.
Qed.

(** X5.  A body that is a bare array of [n] elements, with no headers, is read
    as [n] pages: [length] is among the candidate keys for the page count.
    The elements themselves are not returned as items. *)
Theorem array_body_counts_as_pages elems :
  genericPaginationInfoExtractor (mkResponse (JArr elems) (JObj []))
  = Ok (mkInfo JNull (JInt (Z.of_nat (List.length elems))) JNull).
Proof.
  unfold genericPaginationInfoExtractor. cbn [body headers Lodash.isEmpty].
  unfold Lodash.findKey. rewrite find_isMetaKey_indices.
  unfold genericPaginationInfoKeyExtractor.
  cbn [fillField paginationCollectionCountProperties paginationPageCountProperties
       paginationPageItemsProperties emptyInfo count totalPages items
       setCount setTotalPages setItems Lodash.isFinite bind].
  rewrite checkDataKey_array_length.
  repeat (rewrite checkDataKey_array_named by reflexivity;
          cbn [fillField count totalPages items setCount setTotalPages setItems
               Lodash.isFinite bind JInt]).
  reflexivity.
Qed.

(** *** The shape of what the extractor returns *)

Lemma nullOr_not_finite v : nullOr Lodash.isArray v = true -> Lodash.isFinite v = false.
Proof. destruct v as [| | |[]| | |]; cbn; congruence. Qed.

Lemma checkDataKey_nullOr validator data key v :
  checkDataKey validator data key = Ok v -> nullOr validator v = true.
Proof.
  intros H. destruct (NormalizerFacts.checkDataKey_result _ _ _ _ H) as [->|V];
    [reflexivity|]. destruct v; cbn; auto.
Qed.

Lemma fillField_nullOr (get : PaginationInfo -> JValue) set stop validator data :
  (forall p v, get (set p v) = v) ->
  forall keys partial partial',
    nullOr validator (get partial) = true \/ (keys <> [] /\ stop (get partial) = false) ->
    fillField get set stop validator data keys partial = Ok partial' ->
    nullOr validator (get partial') = true.
Proof.
  intros GS. induction keys as [|k rest IH]; intros partial partial' H F.
  - cbn in F. injection F as <-. destruct H as [H|[H _]]; [exact H|congruence].
  - cbn [fillField] in F. destruct (stop (get partial)) eqn:S.
    + injection F as <-. destruct H as [H|[_ H]]; [exact H|congruence].
    + step_bind F v E. apply (IH (set partial v) partial'); [|exact F].
      left. rewrite GS. exact (checkDataKey_nullOr _ _ _ _ E).
Qed.

Lemma keyExtractor_shape partial data partial' :
  Lodash.isFinite (items partial) = false ->
  genericPaginationInfoKeyExtractor partial data = Ok partial' ->
  nullOr Lodash.isFinite (count partial') = true
  /\ nullOr Lodash.isFinite (totalPages partial') = true
  /\ nullOr Lodash.isArray (items partial') = true.
Proof.
  intros NF H. unfold genericPaginationInfoKeyExtractor in H.
  step_bind H p1 E1. step_bind H p2 E2.
  assert (C1 : nullOr Lodash.isFinite (count p1) = true).
  { apply (fillField_nullOr count setCount Lodash.isFinite Lodash.isFinite data
             (fun _ _ => eq_refl) _ _ _) with (2 := E1).
    destruct (Lodash.isFinite (count partial)) eqn:F.
    - left. destruct (count partial) as [| | |[]| | |]; cbn in *; congruence.
    - right. split; [discriminate|first [exact F|reflexivity]]. }
  assert (T2 : nullOr Lodash.isFinite (totalPages p2) = true).
  { apply (fillField_nullOr totalPages setTotalPages Lodash.isFinite Lodash.isFinite data
             (fun _ _ => eq_refl) _ _ _) with (2 := E2).
    destruct (Lodash.isFinite (totalPages p1)) eqn:F.
    - left. destruct (totalPages p1) as [| | |[]| | |]; cbn in *; congruence.
    - right. split; [discriminate|first [exact F|reflexivity]]. }
  assert (I3 : nullOr Lodash.isArray (items partial') = true).
  { apply (fillField_nullOr items setItems Lodash.isFinite Lodash.isArray data
             (fun _ _ => eq_refl) _ _ _) with (2 := H).
    right. split; [discriminate|].
    apply (NormalizerFacts.fillField_frame items) in E1; [|reflexivity].
    apply (NormalizerFacts.fillField_frame items) in E2; [|reflexivity].
    congruence. }
  apply (NormalizerFacts.fillField_frame count) in E2; [|reflexivity].
  pose proof (NormalizerFacts.fillField_frame count items setItems Lodash.isFinite
                Lodash.isArray data (fun _ _ => eq_refl) _ _ _ H) as C3.
  pose proof (NormalizerFacts.fillField_frame totalPages items setItems Lodash.isFinite
                Lodash.isArray data (fun _ _ => eq_refl) _ _ _ H) as T3.
  cbn in C3, T3. repeat split; [congruence|congruence|exact I3].
Qed.

(** X1.  Whatever the response, a result of the extractor has in [count] and
    in [totalPages] a finite number or [null], and in [items] an array or
    [null]: no field is left [undefined] and no value of another type gets
    through. *)
Theorem extractor_result_shape response info :
  genericPaginationInfoExtractor response = Ok info ->
  nullOr Lodash.isFinite (count info) = true
  /\ nullOr Lodash.isFinite (totalPages info) = true
  /\ nullOr Lodash.isArray (items info) = true.
Proof.
  intros H. unfold genericPaginationInfoExtractor in H.
  step_bind H r1 E1.
  pose proof (keyExtractor_shape emptyInfo _ _ eq_refl E1) as S1.
  step_bind H r2 E2.
  assert (S2 : nullOr Lodash.isFinite (count r2) = true
               /\ nullOr Lodash.isFinite (totalPages r2) = true
               /\ nullOr Lodash.isArray (items r2) = true).
  { destruct (Lodash.isEmpty (headers response)).
    - injection E2 as <-. exact S1.
    - apply (keyExtractor_shape r1 _ _) with (2 := E2).
      apply nullOr_not_finite, S1. }
  destruct (Lodash.findKey (body response) isMetaKey) as [usable|].
  - step_bind H sub E3. apply (keyExtractor_shape r2 _ _) with (2 := H).
    apply nullOr_not_finite, S2.
  - injection H as <-. exact S2.
Qed.

(** *** Responses the extractor raises on *)

(** X6.  A response without a body makes the extractor raise a TypeError,
    whatever the headers are. *)
Theorem extractor_raises_without_body headers :
  genericPaginationInfoExtractor (mkResponse JNull headers)
  = Throw (TypeErr "Cannot read properties of null")
  /\ genericPaginationInfoExtractor (mkResponse JUndefined headers)
  = Throw (TypeErr "Cannot read properties of undefined").
Proof. split; reflexivity. Qed.

Lemma fillField_null_raises get set stop validator keys partial :
  keys <> [] -> stop (get partial) = false ->
  fillField get set stop validator JNull keys partial
  = Throw (TypeErr "Cannot read properties of null").
Proof.
  intros K S. destruct keys as [|k rest]; [congruence|].
  cbn [fillField]. rewrite S. reflexivity.
Qed.

Lemma fillField_null_same get set stop validator keys partial partial' :
  fillField get set stop validator JNull keys partial = Ok partial' ->
  partial' = partial.
Proof.
  destruct keys as [|k rest]; cbn [fillField]; [now intros [= <-]|].
  destruct (stop (get partial)); [now intros [= <-]|discriminate].
Qed.

Lemma keyExtractor_null_raises partial :
  Lodash.isFinite (items partial) = false ->
  exists e, genericPaginationInfoKeyExtractor partial JNull = Throw e.
Proof.
  intros NF. unfold genericPaginationInfoKeyExtractor.
  destruct (fillField count _ _ _ _ _ _) as [p1|e] eqn:E1; [|now exists e].
  apply fillField_null_same in E1. subst p1. cbn [bind].
  destruct (fillField totalPages _ _ _ _ _ _) as [p2|e] eqn:E2; [|now exists e].
  apply fillField_null_same in E2. subst p2. cbn [bind].
  rewrite fillField_null_raises; [eauto|discriminate|exact NF].
Qed.

(** X7.  A body whose [meta] or [pagination] member is [null] makes the
    extractor raise, whatever else the body and the headers hold. *)
Theorem extractor_raises_on_null_meta response usable :
  Lodash.findKey (body response) isMetaKey = Some usable ->
  JS.getProp (body response) usable = Ok JNull ->
  exists e, genericPaginationInfoExtractor response = Throw e.
Proof.
  intros K G. unfold genericPaginationInfoExtractor.
  destruct (genericPaginationInfoKeyExtractor emptyInfo (body response))
    as [r1|e] eqn:E1; [|now exists e]. cbn [bind].
  pose proof (keyExtractor_shape emptyInfo _ _ eq_refl E1) as S1.
  destruct (if Lodash.isEmpty (headers response) then Ok r1
            else genericPaginationInfoKeyExtractor r1 (headers response))
    as [r2|e] eqn:E2; [|now exists e]. cbn [bind].
  rewrite K, G. cbn [bind]. apply keyExtractor_null_raises.
  destruct (Lodash.isEmpty (headers response)).
  - injection E2 as <-. apply nullOr_not_finite, S1.
  - apply nullOr_not_finite.
    apply (keyExtractor_shape r1 _ _) with (2 := E2).
    apply nullOr_not_finite, S1.
Qed.

Lemma extractor_raises_on_null_meta_witness :
  Lodash.findKey (JObj [("items", JArr []); ("Meta", JNull)]) isMetaKey = Some "Meta"
  /\ JS.getProp (JObj [("items", JArr []); ("Meta", JNull)]) "Meta" = Ok JNull
  /\ exists e, genericPaginationInfoExtractor
                 (mkResponse (JObj [("items", JArr []); ("Meta", JNull)])
                             (JObj [("etag", JStr "x")])) = Throw e.
Proof.
  split; [reflexivity|]. split; [reflexivity|].
  apply (extractor_raises_on_null_meta
           (mkResponse (JObj [("items", JArr []); ("Meta", JNull)])
                       (JObj [("etag", JStr "x")])) "Meta"); reflexivity.
Defined.

Lemma extractor_result_shape_witness :
  genericPaginationInfoExtractor (mkResponse laterSource (JObj []))
  = Ok (mkInfo (JArr [JStr "z"]) (JInt 98) (JInt 99))
  /\ nullOr Lodash.isFinite (JInt 99) = true
  /\ nullOr Lodash.isFinite (JInt 98) = true
  /\ nullOr Lodash.isArray (JArr [JStr "z"]) = true.
Proof.
  split; [reflexivity|].
  apply (extractor_result_shape (mkResponse laterSource (JObj []))
           (mkInfo (JArr [JStr "z"]) (JInt 98) (JInt 99))).
  reflexivity.
Defined.

(** *** Sources that cannot supply a number *)

Lemma assoc_allStrings fields key v :
  allStrings fields = true -> JS.assoc key fields = Some v ->
  exists s, v = JStr s.
Proof.
  induction fields as [|[k w] rest IH]; cbn; [discriminate|].
  intros A. apply andb_true_iff in A as [W R].
  destruct (String.eqb key k).
  - intros [= <-]. destruct w; try discriminate W. eauto.
  - now apply IH.
Qed.

Lemma checkDataKey_allStrings validator fields key :
  (forall s, validator (JStr s) = false) ->
  allStrings fields = true ->
  checkDataKey validator (JObj fields) key = Ok JNull.
Proof.
  intros V A. rewrite NormalizerFacts.checkDataKey_verbatim.
  cbn [JS.getProp bind]. destruct (JS.assoc key fields) as [v|] eqn:E; [|reflexivity].
  destruct (assoc_allStrings _ _ _ A E) as [s ->]. cbn. now rewrite V.
Qed.

Lemma fillField_allStrings get set stop validator fields :
  (forall s, validator (JStr s) = false) ->
  (forall p v, get (set p v) = v) ->
  (forall p v w, set (set p v) w = set p w) ->
  stop JNull = false ->
  allStrings fields = true ->
  forall keys partial, keys <> [] -> stop (get partial) = false ->
    fillField get set stop validator (JObj fields) keys partial
    = Ok (set partial JNull).
Proof.
  intros V GS SS SN A. induction keys as [|k rest IH]; intros partial K S; [congruence|].
  cbn [fillField]. rewrite S, checkDataKey_allStrings by assumption. cbn [bind].
  destruct rest as [|k' rest']; [reflexivity|].
  rewrite IH; [|discriminate|now rewrite GS]. now rewrite SS.
Qed.

(** X4.  A source all of whose values are strings, as the headers of an HTTP
    response are, supplies neither a count nor a page count, since only
    numbers are accepted; a number found earlier is kept, and the items are
    reset to [null]. *)
Theorem string_source_supplies_nothing partial fields :
  allStrings fields = true ->
  Lodash.isFinite (items partial) = false ->
  genericPaginationInfoKeyExtractor partial (JObj fields)
  = Ok (mkInfo JNull
               (if Lodash.isFinite (totalPages partial) then totalPages partial else JNull)
               (if Lodash.isFinite (count partial) then count partial else JNull)).
Proof.
  intros A NF. unfold genericPaginationInfoKeyExtractor.
  assert (E1 : fillField count setCount Lodash.isFinite Lodash.isFinite (JObj fields)
                 paginationCollectionCountProperties partial
               = Ok (setCount partial
                       (if Lodash.isFinite (count partial) then count partial else JNull))).
  { destruct (Lodash.isFinite (count partial)) eqn:F.
    - rewrite NormalizerFacts.fillField_stop by exact F. now destruct partial.
    - now rewrite fillField_allStrings. }
  rewrite E1. cbn [bind].
  set (p1 := setCount partial _).
  assert (E2 : fillField totalPages setTotalPages Lodash.isFinite Lodash.isFinite
                 (JObj fields) paginationPageCountProperties p1
               = Ok (setTotalPages p1
                       (if Lodash.isFinite (totalPages partial)
                        then totalPages partial else JNull))).
  { change (totalPages partial) with (totalPages p1).
    destruct (Lodash.isFinite (totalPages p1)) eqn:F.
    - rewrite NormalizerFacts.fillField_stop by exact F. now destruct p1.
    - now rewrite fillField_allStrings. }
  rewrite E2. cbn [bind].
  rewrite fillField_allStrings; try reflexivity; try assumption; discriminate.
Qed.

Lemma string_source_supplies_nothing_witness :
  allStrings [("x-total-count", JStr "12"); ("pages", JStr "3")] = true
  /\ Lodash.isFinite (items foundCount) = false
  /\ genericPaginationInfoKeyExtractor foundCount
       (JObj [("x-total-count", JStr "12"); ("pages", JStr "3")])
     = Ok (mkInfo JNull
                  (if Lodash.isFinite (totalPages foundCount)
                   then totalPages foundCount else JNull)
                  (if Lodash.isFinite (count foundCount)
                   then count foundCount else JNull)).
Proof.
  split; [reflexivity|]. split; [reflexivity|].
  apply (string_source_supplies_nothing foundCount); reflexivity.
Defined.

(** *** What survives a later source *)

(** X2.  A finite [count] and a finite [totalPages] found earlier are kept by
    every later source. *)
Theorem found_numbers_survive partial data partial' :
  Lodash.isFinite (count partial) = true ->
  Lodash.isFinite (totalPages partial) = true ->
  genericPaginationInfoKeyExtractor partial data = Ok partial' ->
  count partial' = count partial /\ totalPages partial' = totalPages partial.
Proof.
  intros C T H. split.
  - exact (NormalizerFacts.count_first_wins _ _ _ C H).
  - exact (NormalizerFacts.totalPages_first_wins _ _ _ T H).
Qed.

Lemma found_numbers_survive_witness :
  Lodash.isFinite (count foundCount) = true
  /\ Lodash.isFinite (totalPages foundCount) = true
  /\ genericPaginationInfoKeyExtractor foundCount laterSource
     = Ok (mkInfo (JArr [JStr "z"]) (JInt 7) (JInt 12))
  /\ count (mkInfo (JArr [JStr "z"]) (JInt 7) (JInt 12)) = count foundCount
  /\ totalPages (mkInfo (JArr [JStr "z"]) (JInt 7) (JInt 12)) = totalPages foundCount.
Proof.
  split; [reflexivity|]. split; [reflexivity|]. split; [reflexivity|].
  apply (found_numbers_survive foundCount laterSource); reflexivity.
Defined.

(** X3.  Whatever the accumulator held, the [items] a source leaves are what
    its [collection] member gives: an array found under [items] or [data],
    or in an earlier source, is not kept. *)
Theorem items_come_from_collection partial data partial' :
  Lodash.isFinite (items partial) = false ->
  genericPaginationInfoKeyExtractor partial data = Ok partial' ->
  items partial' = match JS.getProp data "collection" with
                   | Ok (JArr elems) => JArr elems
                   | _ => JNull
                   end.
Proof.
  intros NF H.
  pose proof (NormalizerFacts.items_last_candidate_wins _ _ _ NF H) as L.
  rewrite NormalizerFacts.checkDataKey_verbatim in L.
  destruct (JS.getProp data "collection") as [v|e]; [|discriminate L].
  cbn [bind] in L. destruct v; cbn in L; congruence.
Qed.

Lemma items_come_from_collection_witness :
  Lodash.isFinite (items (mkInfo (JArr [JInt 1]) JNull JNull)) = false
  /\ genericPaginationInfoKeyExtractor (mkInfo (JArr [JInt 1]) JNull JNull)
       (JObj [("items", JArr [JInt 2]); ("data", JArr [JInt 3])])
     = Ok (mkInfo JNull JNull JNull)
  /\ items (mkInfo JNull JNull JNull)
     = match JS.getProp (JObj [("items", JArr [JInt 2]); ("data", JArr [JInt 3])])
                        "collection" with
       | Ok (JArr elems) => JArr elems
       | _ => JNull
       end.
Proof.
  split; [reflexivity|]. split; [reflexivity|].
  apply (items_come_from_collection (mkInfo (JArr [JInt 1]) JNull JNull)
           (JObj [("items", JArr [JInt 2]); ("data", JArr [JInt 3])]));
    reflexivity.
Defined.

End NormalizerMore.

Module EndpointCursorMore.

Import Normalizer EndpointCursor EndpointCursorSteps SampleAgents EndpointInvariant.
Import EndpointCursorFacts.

(** X8.  For every page and limit, the generated parameters carry the page
    under every spelling of [index], [page] and [pageNumber] and the limit
    under every spelling of [limit] and [perPage], in nine keys in all. *)
Theorem generator_covers_spellings page limit :
  Forall (fun key =>
            Forall (fun k => JS.assoc k (genericPaginationRequestGenerator page limit)
                             = Some (JInt page))
                   (spellings key))
         paginationPageProperties
  /\ Forall (fun key =>
               Forall (fun k => JS.assoc k (genericPaginationRequestGenerator page limit)
                                = Some (JInt limit))
                      (spellings key))
            paginationPageLimitProperties
  /\ List.length (genericPaginationRequestGenerator page limit) = 9%nat.
Proof. repeat split; repeat constructor. Qed.

(** *** Calls that settle at once *)

(** X9.  A [select] whose promise is settled when the call returns, resolved
    or rejected, has changed nothing: no field of the cursor, no event, no
    request. *)
Theorem select_start_settled_unchanged env w page forceReload w' o :
  select_start env w page forceReload = (w', Settled o) -> w' = w.
Proof.
  unfold select_start. destruct (page <? 1); [now intros [= <- _]|].
  destruct (_ && _); [now intros [= <- _]|].
  destruct (findLink env (cursor w)); [discriminate|now intros [= <- _]].
Qed.

Lemma select_start_settled_unchanged_witness :
  select_start threePagesEnv (refreshed threePagesEnv) 0 true
  = (refreshed threePagesEnv,
     Settled (Rejected (Err "Pagenumber has to be an integer of 1 or higher.")))
  /\ refreshed threePagesEnv = refreshed threePagesEnv.
Proof.
  split; [reflexivity|].
  apply (select_start_settled_unchanged threePagesEnv (refreshed threePagesEnv) 0 true
           (refreshed threePagesEnv)
           (Rejected (Err "Pagenumber has to be an integer of 1 or higher."))).
  reflexivity.
Defined.

Lemma select_start_same_page env w page :
  1 <= page -> page = current (cursor w) ->
  select_start env w page false = (w, Settled (Resolved (JArr (items (cursor w))))).
Proof.
  intros P ->. unfold select_start.
  destruct (Z.ltb_spec (current (cursor w)) 1); [lia|].
  now rewrite Z.eqb_refl.
Qed.

(** X10.  Constructing a cursor with initial page 1 loads nothing: [current]
    is 1 from the start, so the [select(1)] of the constructor resolves with
    the empty items and no request is sent. *)
Theorem construct_first_page_sends_nothing env linkName limit :
  sent (construct env linkName (Some 1) limit) = []
  /\ inflight (construct env linkName (Some 1) limit) = []
  /\ events (construct env linkName (Some 1) limit) = []
  /\ items (cursor (construct env linkName (Some 1) limit)) = [].
Proof.
  unfold construct. change (1 >=? 1) with true. cbv iota.
  destruct limit as [l|]; [destruct (l >=? 1)|];
    (rewrite select_start_same_page; [repeat split|lia|reflexivity]).
Qed.

(** X11.  [search(terms, page)] on the page the cursor is on stores the terms
    and resolves with the items held: no request is sent for the new
    terms. *)
Theorem search_on_current_page_sends_nothing env w terms :
  1 <= current (cursor w) ->
  search_start env w terms (current (cursor w))
  = (with_cursor w (set_terms (cursor w) (Some terms)),
     Settled (Resolved (JArr (items (cursor w))))).
Proof.
  intros C. unfold search_start.
  rewrite select_start_same_page; [reflexivity|exact C|reflexivity].
Qed.

Lemma search_on_current_page_sends_nothing_witness :
  1 <= current (cursor (refreshed threePagesEnv))
  /\ search_start threePagesEnv (refreshed threePagesEnv) "b"
                  (current (cursor (refreshed threePagesEnv)))
     = (with_cursor (refreshed threePagesEnv)
                    (set_terms (cursor (refreshed threePagesEnv)) (Some "b")),
        Settled (Resolved (JArr (items (cursor (refreshed threePagesEnv)))))).
Proof.
  split; [vm_compute; discriminate|].
  apply (search_on_current_page_sends_nothing threePagesEnv (refreshed threePagesEnv) "b").
  vm_compute. discriminate.
Defined.

(** X12.  Assigning [limit] never sends a request, with [autoReload] on or
    off: the reload is [select(this.current)] without [forceReload]. *)
Theorem assign_limit_sends_nothing env w value :
  1 <= current (cursor w) ->
  assign_limit env w value
  = if value <? 1 then w else with_cursor w (set_limit (cursor w) value).
Proof.
  intros C. unfold assign_limit. destruct (value <? 1); [reflexivity|].
  cbn [cursor with_cursor]. destruct (autoReload _); [|reflexivity].
  rewrite select_start_same_page; [reflexivity|exact C|reflexivity].
Qed.

Lemma assign_limit_sends_nothing_witness :
  1 <= current (cursor (with_cursor (refreshed threePagesEnv)
                          (set_autoReload (cursor (refreshed threePagesEnv)) true)))
  /\ assign_limit threePagesEnv
       (with_cursor (refreshed threePagesEnv)
          (set_autoReload (cursor (refreshed threePagesEnv)) true)) 2
     = if 2 <? 1
       then with_cursor (refreshed threePagesEnv)
              (set_autoReload (cursor (refreshed threePagesEnv)) true)
       else with_cursor
              (with_cursor (refreshed threePagesEnv)
                 (set_autoReload (cursor (refreshed threePagesEnv)) true))
              (set_limit
                 (cursor (with_cursor (refreshed threePagesEnv)
                            (set_autoReload (cursor (refreshed threePagesEnv)) true)))
                 2).
Proof.
  split; [vm_compute; discriminate|].
  apply (assign_limit_sends_nothing threePagesEnv).
  vm_compute. discriminate.
Defined.

(** *** Pages and limits stay positive *)

Lemma select_start_inflight env w page forceReload :
  1 <= page \/ page < 1 ->
  Forall (fun r => 1 <= req_page r) (inflight w) ->
  Forall (fun r => 1 <= req_page r) (inflight (fst (select_start env w page forceReload))).
Proof.
  intros _ F. unfold select_start. destruct (Z.ltb_spec page 1); [exact F|].
  destruct (_ && _); [exact F|].
  destruct (findLink env (cursor w)); [|exact F].
  cbn. apply Forall_app. split; [exact F|]. constructor; [exact H|constructor].
Qed.

Lemma select_start_wellPaged env w page forceReload :
  wellPaged w -> wellPaged (fst (select_start env w page forceReload)).
Proof.
  intros (C & L & F). unfold wellPaged.
  rewrite EndpointCursorFacts.select_start_cursor.
  repeat split; [exact C|exact L|]. apply select_start_inflight; [lia|exact F].
Qed.

Lemma settle_positive env c page answer :
  1 <= current c -> 1 <= limit c -> 1 <= page ->
  1 <= current (fst (fst (settle env c page answer)))
  /\ 1 <= limit (fst (fst (settle env c page answer))).
Proof.
  intros C L P. destruct answer as [response|err]; [|now split].
  unfold settle. destruct (paginationInfoExtractor env response); now split.
Qed.

Lemma deliverOne_wellPaged env w r :
  1 <= req_page r -> wellPaged w -> wellPaged (deliverOne env w r).
Proof.
  intros P (C & L & F). unfold deliverOne, wellPaged.
  pose proof (settle_positive env (cursor w) (req_page r)
                (execute env (req_link r) (req_urlData r)) C L P) as S.
  destruct (settle _ _ _ _) as [[c evs] o]. cbn in *. tauto.
Qed.

Lemma deliverEach_wellPaged env rs : forall w,
  Forall (fun r => 1 <= req_page r) rs -> wellPaged w ->
  wellPaged (deliverEach env w rs).
Proof.
  induction rs as [|r rest IH]; intros w F W; [exact W|].
  inversion F; subst. cbn [deliverEach]. apply IH; [assumption|].
  now apply deliverOne_wellPaged.
Qed.

Lemma deliverAll_wellPaged env w : wellPaged w -> wellPaged (deliverAll env w).
Proof.
  intros (C & L & F). unfold deliverAll. apply deliverEach_wellPaged; [exact F|].
  repeat split; [exact C|exact L|constructor].
Qed.

Lemma selectEach_wellPaged env pages : forall w,
  wellPaged w -> wellPaged (fst (selectEach env w pages)).
Proof.
  induction pages as [|i rest IH]; intros w W; [exact W|].
  cbn [selectEach].
  pose proof (select_start_wellPaged env w i false W) as W1.
  destruct (select_start env w i false) as [w1 s1]. cbn [fst] in W1.
  pose proof (IH w1 W1) as W2.
  destruct (selectEach env w1 rest) as [w2 ss]. exact W2.
Qed.

Lemma all_pages_wellPaged env w : wellPaged w -> wellPaged (fst (all_pages env w)).
Proof.
  intros W. unfold all_pages, all_rest.
  destruct (pagesAfterFirst _) as [pages|]; [|exact W].
  pose proof (selectEach_wellPaged env pages w W) as W1.
  destruct (selectEach env w pages) as [w1 ss]. cbn [fst] in *.
  now apply deliverAll_wellPaged.
Qed.

Lemma awaitEvent_wellPaged env rs : forall w,
  Forall (fun r => 1 <= req_page r) rs -> inflight w = [] -> wellPaged w ->
  wellPaged (fst (awaitEvent env w rs)).
Proof.
  induction rs as [|r rest IH]; intros w F I W; [exact W|].
  inversion F as [|? ? P Frest]; subst. cbn [awaitEvent].
  pose proof (deliverOne_wellPaged env w r P W) as W1.
  assert (I1 : inflight (deliverOne env w r) = []).
  { unfold deliverOne. destruct (settle _ _ _ _) as [[c evs] o]. exact I. }
  destruct (find _ _) as [[id [v|e|e]]|]; try (apply IH; assumption).
  apply all_pages_wellPaged. destruct W1 as (C & L & _).
  repeat split; [exact C|exact L|]. cbn [inflight]. rewrite I1, app_nil_r. exact Frest.
Qed.

Lemma all_wellPaged env w : wellPaged w -> wellPaged (fst (all env w)).
Proof.
  intros W. unfold all, all_first.
  destruct (pastUninitialized _).
  - destruct (isReady _); [now apply all_pages_wellPaged|].
    destruct W as (C & L & F).
    apply awaitEvent_wellPaged; [exact F|reflexivity|].
    repeat split; [exact C|exact L|constructor].
  - pose proof (select_start_wellPaged env w 1 false W) as W1.
    destruct (select_start env w 1 false) as [w1 [[v|e|e]|id]]; cbn [fst] in W1.
    + now apply all_pages_wellPaged.
    + exact W1.
    + exact W1.
    + pose proof (deliverAll_wellPaged env w1 W1) as W2.
      destruct (outcomeOf _ _) as [[v|e|e]|]; cbn [fst];
        try apply all_pages_wellPaged; exact W2.
Qed.

Lemma step_wellPaged env w w' : step env w w' -> wellPaged w -> wellPaged w'.
Proof.
  destruct 1; intros W.
  - now apply select_start_wellPaged.
  - unfold next_start. destruct (negb _); [exact W|now apply select_start_wellPaged].
  - unfold previous_start. destruct (negb _); [exact W|now apply select_start_wellPaged].
  - now apply select_start_wellPaged.
  - unfold search_start. apply select_start_wellPaged. exact W.
  - unfold assign_limit. destruct (Z.ltb_spec value 1); [exact W|].
    assert (W1 : wellPaged (with_cursor w (set_limit (cursor w) value)))
      by (destruct W as (C & L & F); repeat split; assumption).
    destruct (autoReload _); [now apply select_start_wellPaged|exact W1].
  - unfold assign_current. destruct (value <? 1); [exact W|].
    destruct (autoReload _); [now apply select_start_wellPaged|exact W].
  - exact W.
  - now apply all_wellPaged.
  - destruct W as (C & L & F). rewrite H in F.
    apply Forall_app in F as [Fb Fr]. inversion Fr as [|? ? P Fa]; subst.
    apply deliverOne_wellPaged; [exact P|].
    repeat split; [exact C|exact L|]. cbn. apply Forall_app. now split.
Qed.

Lemma construct_wellPaged env linkName initialPage limit :
  wellPaged (construct env linkName initialPage limit).
Proof.
  unfold construct.
  assert (W : forall c, 1 <= EndpointCursor.current c -> 1 <= EndpointCursor.limit c ->
                        wellPaged (mkWorld c [] [] [] []))
    by (intros c C L; repeat split; [exact C|exact L|constructor]).
  destruct initialPage as [p|], limit as [l|];
    try destruct (p >=? 1); try destruct (Z.geb_spec l 1);
      try apply select_start_wellPaged; apply W; cbn; lia.
Qed.

(** X13.  In every state an endpoint cursor can reach, [current] and [limit]
    are 1 or more, and so is the page of every request on its way: invalid
    pages and limits are turned away before they are stored. *)
Theorem endpoint_pages_stay_positive env w :
  reachable env w -> wellPaged w.
Proof.
  induction 1 as [linkName initialPage limit|w w' _ IH St].
  - apply construct_wellPaged.
  - exact (step_wellPaged _ _ _ St IH).
Qed.

Lemma refreshing_reachable : reachable threePagesEnv (refreshing threePagesEnv).
Proof.
  apply reach_step with (w := fresh threePagesEnv); [apply reach_construct|].
  apply step_refresh.
Qed.

Lemma endpoint_pages_stay_positive_witness :
  reachable threePagesEnv (refreshing threePagesEnv)
  /\ wellPaged (refreshing threePagesEnv).
Proof.
  split; [exact refreshing_reachable|].
  exact (endpoint_pages_stay_positive threePagesEnv (refreshing threePagesEnv)
           refreshing_reachable).
Defined.

(** X14.  No method of the endpoint cursor assigns [loadingState]: in every
    state the cursor can reach it is [Uninitialized], and [all()] takes its
    first page from [select(1)]. *)
Theorem loadingState_is_never_assigned env w :
  reachable env w ->
  loadingState (cursor w) = Uninitialized
  /\ all_first env w =
     match select_start env w 1 false with
     | (w', Settled o) => (w', FirstNow o)
     | (w', Pending id) => (w', FirstFromSelect id)
     end.
Proof.
  intros R. split.
  - exact (EndpointCursorFacts.loadingState_stays_Uninitialized env w R).
  - exact (EndpointCursorFacts.all_first_selects env w R).
Qed.

Lemma loadingState_is_never_assigned_witness :
  reachable threePagesEnv (refreshed threePagesEnv)
  /\ loadingState (cursor (refreshed threePagesEnv)) = Uninitialized
  /\ all_first threePagesEnv (refreshed threePagesEnv) =
     match select_start threePagesEnv (refreshed threePagesEnv) 1 false with
     | (w', Settled o) => (w', FirstNow o)
     | (w', Pending id) => (w', FirstFromSelect id)
     end.
Proof.
  assert (R : reachable threePagesEnv (refreshed threePagesEnv)).
  { apply reach_step with (w := refreshing threePagesEnv);
      [exact refreshing_reachable|].
    apply (step_answer threePagesEnv (refreshing threePagesEnv) []
             (mkRequest 0 1 "/things" (genericPaginationRequestGenerator 1 40)) []).
    reflexivity. }
  split; [exact R|].
  exact (loadingState_is_never_assigned threePagesEnv (refreshed threePagesEnv) R).
Defined.

(** *** One attempt, one request, two events *)

(** X15.  A [select] that is awaited with no other request on its way either
    settles at once and emits nothing, or sends exactly one request for the
    page and emits [beforePageChange] followed by exactly one of
    [afterPageChange], with the page and the items then held, and
    [error]. *)
Theorem select_event_protocol env w page forceReload :
  inflight w = [] ->
  (fst (select env w page forceReload) = w)
  \/ (exists r,
        sent (fst (select env w page forceReload)) = (sent w ++ [r])%list
        /\ req_page r = page
        /\ ((events (fst (select env w page forceReload))
             = (events w ++ [BeforePageChange page;
                             AfterPageChange page
                               (items (cursor (fst (select env w page forceReload))))])%list
             /\ current (cursor (fst (select env w page forceReload))) = page)
            \/ exists err,
                 events (fst (select env w page forceReload))
                 = (events w ++ [BeforePageChange page; ErrorEvent err])%list)).
Proof.
  intros I. unfold select.
  destruct (select_start_cases env w page forceReload) as [[o E]|(link & urlData & _ & _ & E)];
    rewrite E.
  - left. unfold deliverAll. rewrite I. destruct w; cbn in *; now subst.
  - right. eexists. cbn [fst]. unfold deliverAll. cbn [inflight cursor events sent settled].
    rewrite I. cbn [app deliverEach]. unfold deliverOne.
    cbn [cursor events sent settled inflight req_page req_link req_urlData].
    destruct (execute env link urlData) as [response|err].
    + unfold settle. destruct (paginationInfoExtractor env response) as [info|err].
      * cbn. split; [reflexivity|]. split; [reflexivity|]. left.
        rewrite <- app_assoc. split; reflexivity.
      * cbn. split; [reflexivity|]. split; [reflexivity|]. right. exists err.
        now rewrite <- app_assoc.
    + cbn. split; [reflexivity|]. split; [reflexivity|]. right. exists err.
      now rewrite <- app_assoc.
Qed.

Lemma select_event_protocol_witness :
  inflight (refreshed threePagesEnv) = []
  /\ ((fst (select threePagesEnv (refreshed threePagesEnv) 2 false)
       = refreshed threePagesEnv)
      \/ (exists r,
            sent (fst (select threePagesEnv (refreshed threePagesEnv) 2 false))
            = (sent (refreshed threePagesEnv) ++ [r])%list
            /\ req_page r = 2
            /\ ((events (fst (select threePagesEnv (refreshed threePagesEnv) 2 false))
                 = (events (refreshed threePagesEnv)
                    ++ [BeforePageChange 2;
                        AfterPageChange 2
                          (items (cursor (fst (select threePagesEnv
                                                 (refreshed threePagesEnv) 2 false))))])%list
                 /\ current (cursor (fst (select threePagesEnv
                                            (refreshed threePagesEnv) 2 false))) = 2)
                \/ exists err,
                     events (fst (select threePagesEnv (refreshed threePagesEnv) 2 false))
                     = (events (refreshed threePagesEnv)
                        ++ [BeforePageChange 2; ErrorEvent err])%list))).
Proof.
  split; [reflexivity|].
  apply (select_event_protocol threePagesEnv (refreshed threePagesEnv) 2 false).
  reflexivity.
Defined.

(** X16.  When the agent fails the request of an awaited [select], every field
    of the cursor is what it was, and [beforePageChange] and [error] with
    the agent's cause are the events emitted. *)
Theorem select_failed_request env w page forceReload err id :
  (forall link urlData, execute env link urlData = Failed err) ->
  inflight w = [] ->
  snd (select_start env w page forceReload) = Pending id ->
  cursor (fst (select env w page forceReload)) = cursor w
  /\ events (fst (select env w page forceReload))
     = (events w ++ [BeforePageChange page; ErrorEvent err])%list.
Proof.
  intros F I P. unfold select.
  destruct (select_start_cases env w page forceReload) as [[o E]|(link & urlData & _ & _ & E)];
    rewrite E in *; [discriminate P|].
  cbn [fst]. unfold deliverAll. cbn [inflight cursor events sent settled].
  rewrite I. cbn [app deliverEach]. unfold deliverOne.
  cbn [cursor events sent settled inflight req_page req_link req_urlData].
  rewrite F. cbn. split; [reflexivity|]. now rewrite <- app_assoc.
Qed.

Lemma select_failed_request_witness :
  (forall link urlData, execute offlineEnv link urlData = Failed (Err "offline"))
  /\ inflight (fresh offlineEnv) = []
  /\ snd (select_start offlineEnv (fresh offlineEnv) 3 false) = Pending 0
  /\ cursor (fst (select offlineEnv (fresh offlineEnv) 3 false)) = cursor (fresh offlineEnv)
  /\ events (fst (select offlineEnv (fresh offlineEnv) 3 false))
     = (events (fresh offlineEnv) ++ [BeforePageChange 3; ErrorEvent (Err "offline")])%list.
Proof.
  split; [reflexivity|]. split; [reflexivity|]. split; [reflexivity|].
  apply (select_failed_request offlineEnv (fresh offlineEnv) 3 false (Err "offline") 0%nat);
    reflexivity.
Defined.

(** *** The requests of [all] *)

Lemma selectEach_sent env link pages : forall w,
  Forall (fun i => 2 <= i) pages ->
  current (cursor w) = 1 ->
  findLink env (cursor w) = Some link ->
  map req_page (sent (fst (selectEach env w pages)))
  = (map req_page (sent w) ++ pages)%list.
Proof.
  induction pages as [|i rest IH]; intros w F C L.
  - cbn. now rewrite app_nil_r.
  - inversion F as [|? ? Hi Frest]; subst. cbn [selectEach].
    destruct (select_start_cases env w i false) as [[o E]|(link' & urlData & _ & _ & E)].
    + exfalso. unfold select_start in E.
      destruct (Z.ltb_spec i 1); [lia|].
      destruct (Z.eqb_spec i (current (cursor w))); [lia|].
      cbn [andb] in E. rewrite L in E. discriminate E.
    + rewrite E.
      match goal with
      | |- context [selectEach env ?w1 rest] =>
          pose proof (IH w1 Frest C L) as R; destruct (selectEach env w1 rest) as [w2 ss]
      end.
      cbn [fst] in *. rewrite R. cbn [sent]. rewrite map_app. cbn.
      now rewrite <- app_assoc.
Qed.

(** X17.  On a cursor that holds page 1, with no request on its way, [all()]
    sends one request for each of the pages 2, ..., [totalPages], in that
    order, and none for page 1. *)
Theorem all_requests_remaining_pages env w n link :
  loadingState (cursor w) = Uninitialized ->
  inflight w = [] ->
  current (cursor w) = 1 ->
  totalPages (cursor w) = JInt n ->
  findLink env (cursor w) = Some link ->
  map req_page (sent (fst (all env w)))
  = (map req_page (sent w)
     ++ map (fun k => Z.of_nat k + 2) (seq 0 (Z.to_nat (n - 1))))%list.
Proof.
  intros U I C T L. unfold all, all_first. rewrite U. cbn [pastUninitialized].
  rewrite select_start_same_page by (lia || congruence).
  unfold all_pages, all_rest. rewrite T. cbn [JInt numberOf pagesAfterFirst].
  pose proof (selectEach_sent env link _ w (pages_from_two (Z.to_nat (n - 1))) C L) as S.
  destruct (selectEach env w _) as [w1 ss]. cbn [fst] in *.
  now rewrite deliverAll_sent.
Qed.

Lemma all_requests_remaining_pages_witness :
  loadingState (cursor (refreshed threePagesEnv)) = Uninitialized
  /\ inflight (refreshed threePagesEnv) = []
  /\ current (cursor (refreshed threePagesEnv)) = 1
  /\ totalPages (cursor (refreshed threePagesEnv)) = JInt 3
  /\ findLink threePagesEnv (cursor (refreshed threePagesEnv)) = Some "/things"
  /\ map req_page (sent (fst (all threePagesEnv (refreshed threePagesEnv))))
     = (map req_page (sent (refreshed threePagesEnv))
        ++ map (fun k => Z.of_nat k + 2) (seq 0 (Z.to_nat (3 - 1))))%list.
Proof.
  repeat (split; [reflexivity|]).
  apply (all_requests_remaining_pages threePagesEnv (refreshed threePagesEnv) 3 "/things");
    reflexivity.
Defined.

End EndpointCursorMore.

Module ValueCursorMore.

Import ValueCursor ValueCursorSteps Samples ValueCursorInvariant.

Section WithExternals.

Variable ext : Externals.

(** *** What no method changes *)

Lemma select_fixedFields h c pageNumber :
  fixedFields (fst (select ext h c pageNumber)) = fixedFields c
  /\ _limit (fst (select ext h c pageNumber)) = _limit c.
Proof.
  split.
  - now apply (ValueCursorFacts.select_frame ext fixedFields).
  - now apply (ValueCursorFacts.select_frame ext _limit).
Qed.

Lemma all_fixedFields h c :
  fixedFields (fst (all ext h c)) = fixedFields c
  /\ _limit (fst (all ext h c)) = _limit c.
Proof.
  split.
  - apply (ValueCursorFacts.all_frame ext fixedFields).
    intros h0 c0 p. apply select_fixedFields.
  - apply (ValueCursorFacts.all_frame ext _limit).
    intros h0 c0 p. apply select_fixedFields.
Qed.

Lemma step_fixedFields s s' :
  step ext s s' ->
  fixedFields (snd s') = fixedFields (snd s) /\ (1 <= limit (snd s) -> 1 <= limit (snd s')).
Proof.
  destruct 1; cbn [snd].
  - destruct (select_fixedFields h c pageNumber) as [F L]. unfold limit. now rewrite L.
  - unfold next. destruct (negb _); [now split|].
    destruct (select_fixedFields h c (current c + 1)) as [F L]. unfold limit. now rewrite L.
  - unfold previous. destruct (negb _); [now split|].
    destruct (select_fixedFields h c (current c - 1)) as [F L]. unfold limit. now rewrite L.
  - unfold refresh.
    destruct (select_fixedFields h c (current c)) as [F L]. unfold limit. now rewrite L.
  - unfold assign_limit. destruct (Z.ltb_spec value 1); [now split|].
    cbn [autoReload set_limit]. destruct (autoReload c); [|split; [reflexivity|intros _; exact H]].
    destruct (select_fixedFields h (set_limit c value) (current (set_limit c value)))
      as [F L].
    destruct (select _ _ _ _) as [c' [r|e|e]]; cbn [fst] in *;
      (split; [exact F|intros _; unfold limit; rewrite L; exact H]).
  - unfold assign_current. destruct (value <? 1); [now split|].
    destruct (autoReload c); [|now split].
    destruct (select_fixedFields h c value) as [F L].
    destruct (select _ _ _ _) as [c' [r|e|e]]; cbn [fst] in *;
      (split; [exact F|unfold limit; now rewrite L]).
  - destruct value; now split.
  - now split.
  - now split.
  - now split.
  - now split.
  - destruct (all_fixedFields h c) as [F L]. unfold limit. now rewrite L.
  - now split.
  - unfold filterBy. destruct replace, filter; now split.
  - now split.
  - now split.
  - unfold sortBy. destruct replace, sort; now split.
  - now split.
  - now split.
  - unfold sortByColumn. destruct (findColumn _ _ _); [|now split].
    destruct (negb _); now split.
  - unfold filterByColumn. destruct (findColumn _ _ _); [|now split].
    destruct (negb _); now split.
  - now split.
Qed.

Lemma construct_settledShape h wrapped columns h' c :
  construct ext h wrapped columns = (h', Ok c) -> settledShape wrapped c.
Proof.
  unfold construct. cbn. destruct columns as [loc|]; cbn; [|discriminate].
  match goal with
  | |- context [select ext ?hh ?cc 1] =>
      destruct (select_fixedFields hh cc 1) as [F L];
      destruct (select ext hh cc 1) as [c' [r|e|e]]
  end; intros [= _ <-]. cbn [fst] in *.
  unfold fixedFields in F. cbn in F, L. injection F as F1 F2 F3.
  unfold settledShape, count, totalPages, limit. rewrite F1, F2, F3, L.
  repeat split; try lia; try reflexivity.
Qed.

(** X18.  [count] and [loadingState] are computed once, by the constructor.
    In every state the cursor goes through afterwards, whatever is called
    and whatever the caller writes to the backing array, [count] is the
    number of elements the array held when the cursor was built,
    [loadingState] is [Empty] if there was none and [Ready] otherwise,
    [totalPages] is 1 and [limit] is 1 or more. *)
Theorem value_cursor_settled_shape h wrapped columns h' c s :
  construct ext h wrapped columns = (h', Ok c) ->
  steps ext (h', c) s ->
  settledShape wrapped (snd s).
Proof.
  intros H St. remember (h', c) as s0 eqn:E.
  induction St as [s|s s' s'' _ IH St]; subst.
  - exact (construct_settledShape _ _ _ _ _ H).
  - specialize (IH eq_refl). destruct (step_fixedFields _ _ St) as [F L].
    unfold fixedFields in F. injection F as F1 F2 F3.
    destruct IH as (C & S & T & Lim). unfold settledShape, count, totalPages in *.
    rewrite F1, F2, F3. repeat split; [exact C|exact S|exact T|exact (L Lim)].
Qed.

(** *** Pages *)

Lemma select_items h c pageNumber l :
  intermediate ext h c = Ok l ->
  select ext h c pageNumber
  = (set_current
       (set_items c (Lodash.slice (_wrapped c) ((pageNumber - 1) * limit c)
                                  (pageNumber * limit c)))
       pageNumber,
     Resolved (Lodash.slice (_wrapped c) ((pageNumber - 1) * limit c)
                            (pageNumber * limit c))).
Proof.
  intros H. unfold intermediate in H.
  step_bind H filtered E1. step_bind H searched E2.
  now rewrite ValueCursorFacts.select_unfold, E1, E2, H.
Qed.

Lemma select_window h c pageNumber l :
  intermediate ext h c = Ok l -> 1 <= pageNumber -> 1 <= limit c ->
  items (fst (select ext h c pageNumber))
  = firstn (Z.to_nat (limit c))
           (skipn (Z.to_nat ((pageNumber - 1) * limit c)) (_wrapped c)).
Proof.
  intros H P L. rewrite (select_items h c pageNumber l H). cbn [fst].
  change (items (set_current (set_items c ?x) pageNumber)) with x.
  rewrite LodashFacts.slice_window by nia. f_equal. f_equal. nia.
Qed.


(** X20.  A page beyond the end of the backing sequence is not refused:
    when the filter, search and sort steps raise no error, [select]
    resolves with no element and stores the page in [current]. *)
Theorem select_beyond_end_is_empty h c pageNumber l :
  intermediate ext h c = Ok l -> 1 <= pageNumber -> 1 <= limit c ->
  Z.of_nat (List.length (_wrapped c)) <= (pageNumber - 1) * limit c ->
  snd (select ext h c pageNumber) = Resolved []
  /\ items (fst (select ext h c pageNumber)) = []
  /\ current (fst (select ext h c pageNumber)) = pageNumber.
Proof.
  intros H P L B.
  pose proof (select_window h c pageNumber l H P L) as W.
  rewrite skipn_all2, firstn_nil in W by lia.
  rewrite (select_items h c pageNumber l H) in *. cbn [fst snd] in *.
  change (items (set_current (set_items c ?x) pageNumber)) with x in W.
  rewrite W. repeat split.
Qed.

Lemma firstn_add {A : Type} (a b : nat) : forall l : list A,
  firstn (a + b) l = (firstn a l ++ firstn b (skipn a l))%list.
Proof.
  induction a as [|a IH]; intros l; [reflexivity|].
  destruct l as [|x rest]; cbn; [now rewrite firstn_nil|]. now rewrite IH.
Qed.

Lemma windows_concat {A : Type} (m : nat) (l : list A) : forall k,
  List.concat (map (fun p => firstn m (skipn ((p - 1) * m) l)) (seq 1 k))
  = firstn (k * m) l.
Proof.
  induction k as [|k IH]; [reflexivity|].
  rewrite seq_S, map_app, concat_app, IH. cbn [map List.concat Nat.add].
  rewrite app_nil_r. replace (S k - 1)%nat with k by lia.
  replace (S k * m)%nat with (k * m + m)%nat by lia.
  now rewrite firstn_add.
Qed.

(** X21.  When the filter, search and sort steps raise no error, the pages
    1, ..., [k] put end to end are the first [k * limit] elements of the
    backing sequence, each once and in order; with enough pages to reach
    its end, they are the whole backing sequence. *)
Theorem pages_concatenate h c l k :
  intermediate ext h c = Ok l -> 1 <= limit c ->
  List.concat (map (fun p => items (fst (select ext h c p))) (firstPages k))
  = firstn (k * Z.to_nat (limit c)) (_wrapped c)
  /\ (Z.of_nat (List.length (_wrapped c)) <= Z.of_nat k * limit c ->
      List.concat (map (fun p => items (fst (select ext h c p))) (firstPages k))
      = _wrapped c).
Proof.
  intros H L.
  assert (E : List.concat (map (fun p => items (fst (select ext h c p))) (firstPages k))
              = firstn (k * Z.to_nat (limit c)) (_wrapped c)).
  { rewrite <- windows_concat. unfold firstPages. rewrite map_map. f_equal.
    apply map_ext_in. intros p Hp. apply in_seq in Hp.
    rewrite (select_window h c (Z.of_nat p) l H) by lia.
    f_equal. f_equal. nia. }
  split; [exact E|]. intros B. rewrite E. apply firstn_all2. nia.
Qed.

(** *** A filter that raises *)

(** X22.  When a filter raises on some element, [select] throws the error:
    no promise is returned, [current] keeps its value, and [items] is left
    holding the whole backing sequence. *)
Theorem select_raise_keeps_page h c pageNumber e :
  Engine.filterCollectionBy ext (_wrapped c) (filters h c) = Throw e ->
  snd (select ext h c pageNumber) = Raised e
  /\ current (fst (select ext h c pageNumber)) = current c
  /\ items (fst (select ext h c pageNumber)) = _wrapped c.
Proof.
  intros H. rewrite (ValueCursorFacts.select_raises_in_filter ext h c pageNumber e H).
  repeat split.
Qed.

(** *** What the filters keep *)

Lemma everyFilter_true x filters :
  Engine.everyFilter ext x filters = Ok true <-> satisfiesAll ext x filters.
Proof.
  unfold satisfiesAll. induction filters as [|f rest IH]; cbn [Engine.everyFilter].
  - split; [constructor|reflexivity].
  - split.
    + intros H. step_bind H val E1. step_bind H b E2. destruct b; [|discriminate H].
      constructor; [eauto|now apply IH].
    + intros H. inversion H as [|? ? (val & E1 & E2) R]; subst.
      rewrite E1. cbn [bind]. rewrite E2. cbn [bind]. now apply IH.
Qed.

Lemma filterR_In {A : Type} (p : A -> Result bool) : forall l r,
  Engine.filterR p l = Ok r ->
  forall x, List.In x r <-> List.In x l /\ p x = Ok true.
Proof.
  induction l as [|y rest IH]; intros r H x.
  - cbn in H. injection H as <-. cbn. tauto.
  - cbn [Engine.filterR] in H. step_bind H b E1. step_bind H kept E2.
    injection H as <-. specialize (IH kept eq_refl x).
    destruct b; cbn [List.In]; rewrite IH; split.
    + intros [<-|[I P]]; [now split; [left|]|now split; [right|]].
    + intros [[<-|I] P]; [now left|right; now split].
    + intros [I P]. now split; [right|].
    + intros [[<-|I] P]; [congruence|now split].
Qed.

(** X23.  Whenever [filterCollectionBy] returns, it returns the elements of
    the collection that satisfy every filter, and no other. *)
Theorem filterCollectionBy_keeps_all_satisfied collection filters kept :
  Engine.filterCollectionBy ext collection filters = Ok kept ->
  forall x, List.In x kept <-> List.In x collection /\ satisfiesAll ext x filters.
Proof.
  intros H x. unfold Engine.filterCollectionBy in H.
  rewrite (filterR_In _ _ _ H x). now rewrite everyFilter_true.
Qed.

Lemma filterR_length {A : Type} (p : A -> Result bool) : forall l r,
  Engine.filterR p l = Ok r -> (List.length r <= List.length l)%nat.
Proof.
  induction l as [|y rest IH]; intros r H.
  - cbn in H. now injection H as <-.
  - cbn [Engine.filterR] in H. step_bind H b E1. step_bind H kept E2.
    injection H as <-. specialize (IH kept eq_refl). destruct b; cbn; lia.
Qed.

Lemma filterR_none {A : Type} (p : A -> Result bool) : forall l,
  (forall x, List.In x l -> p x = Ok false) -> Engine.filterR p l = Ok [].
Proof.
  induction l as [|y rest IH]; intros H; [reflexivity|].
  cbn [Engine.filterR]. rewrite (H y) by now left. cbn [bind].
  rewrite IH by (intros x I; apply H; now right). reflexivity.
Qed.

(** X24.  A filter whose operator is not one of the ten known ones keeps no
    element, wherever its pointer resolves. *)
Theorem unknown_operator_keeps_nothing collection oid path value :
  (forall x, List.In x collection -> exists val, pointerGet ext x path = Ok val) ->
  Engine.filterCollectionBy ext collection [mkFilter oid path OtherOperator value]
  = Ok [].
Proof.
  intros H. apply filterR_none. intros x I.
  destruct (H x I) as [val E]. cbn. now rewrite E.
Qed.

Lemma filterR_ext {A : Type} (p q : A -> Result bool) : forall l,
  (forall x, p x = q x) -> Engine.filterR p l = Engine.filterR q l.
Proof.
  induction l as [|y rest IH]; intros H; [reflexivity|].
  cbn [Engine.filterR]. now rewrite H, IH.
Qed.

(** X25.  With a filter value that is not an array, [NotIn] keeps exactly what
    [In] and [Equals] keep: the elements whose string form equals the
    value's. *)
Theorem notIn_without_array_is_equals collection oid path value :
  Lodash.isArray value = false ->
  Engine.filterCollectionBy ext collection [mkFilter oid path NotIn value]
  = Engine.filterCollectionBy ext collection [mkFilter oid path Equals value]
  /\ Engine.filterCollectionBy ext collection [mkFilter oid path In value]
     = Engine.filterCollectionBy ext collection [mkFilter oid path Equals value].
Proof.
  intros A. split; apply filterR_ext; intros x; cbn;
    destruct (pointerGet ext x path) as [val|e]; cbn; try reflexivity;
      destruct value; try discriminate A; reflexivity.
Qed.

End WithExternals.

(** *** The descriptor lists *)

Lemma filterBy_appends h c filter :
  (_filters c < List.length (Heap.filterArrays h))%nat ->
  filters (fst (filterBy h c filter false)) (snd (filterBy h c filter false))
  = (filters h c ++ argumentList (Heap.filterArrays h) filter)%list.
Proof.
  intros F. unfold filterBy, filters. cbn.
  etransitivity; [apply HeapFacts.read_write_same; exact F|]. now destruct filter.
Qed.

Lemma sortBy_appends h c sort :
  (_sorters c < List.length (Heap.sortArrays h))%nat ->
  sorters (fst (sortBy h c sort false)) (snd (sortBy h c sort false))
  = (sorters h c ++ argumentList (Heap.sortArrays h) sort)%list.
Proof.
  intros S. unfold sortBy, sorters. cbn.
  etransitivity; [apply HeapFacts.read_write_same; exact S|]. now destruct sort.
Qed.

Lemma clearFilter_filters h c filter :
  filters (fst (clearFilter h c filter)) (snd (clearFilter h c filter))
  = List.filter
      (fun x => negb (existsb (fun y => Nat.eqb (filter_oid y) (filter_oid x))
                              (argumentList (Heap.filterArrays h) filter)))
      (filters h c).
Proof.
  unfold clearFilter, filters. cbn.
  apply (HeapFacts.read_alloc_fresh (Heap.filterArrays h)).
Qed.

(** X26.  Without [replace], [filterBy] and [sortBy] append what they are
    given to the list the cursor holds, which stays the same array. *)
Theorem descriptors_are_appended h c filter sort :
  (_filters c < List.length (Heap.filterArrays h))%nat ->
  (_sorters c < List.length (Heap.sortArrays h))%nat ->
  (_filters (snd (filterBy h c filter false)) = _filters c
   /\ filters (fst (filterBy h c filter false)) (snd (filterBy h c filter false))
      = (filters h c ++ argumentList (Heap.filterArrays h) filter)%list)
  /\ (_sorters (snd (sortBy h c sort false)) = _sorters c
      /\ sorters (fst (sortBy h c sort false)) (snd (sortBy h c sort false))
         = (sorters h c ++ argumentList (Heap.sortArrays h) sort)%list).
Proof.
  intros F S. split; (split; [reflexivity|]).
  - now apply filterBy_appends.
  - now apply sortBy_appends.
Qed.

(** X27.  [clearFilters] gives the cursor a new, empty list of filters: the
    sorters are what they were, and so is every array that existed, the one
    the cursor held before included. *)
Theorem clearFilters_makes_new_list h c :
  filters (fst (clearFilters h c)) (snd (clearFilters h c)) = []
  /\ sorters (fst (clearFilters h c)) (snd (clearFilters h c)) = sorters h c
  /\ forall loc, (loc < List.length (Heap.filterArrays h))%nat ->
       _filters (snd (clearFilters h c)) <> loc
       /\ Heap.read (Heap.filterArrays (fst (clearFilters h c))) loc
          = Heap.read (Heap.filterArrays h) loc.
Proof.
  unfold clearFilters, filters, sorters. cbn. split; [|split; [reflexivity|]].
  - apply (HeapFacts.read_alloc_fresh (Heap.filterArrays h) []).
  - intros loc L. split; [lia|].
    now apply (HeapFacts.read_alloc_old (Heap.filterArrays h)).
Qed.

Lemma filter_out_last (fs : list CollectionFilterDescriptor) d :
  Forall (fun x => filter_oid x <> filter_oid d) fs ->
  List.filter
    (fun x => negb (existsb (fun y => Nat.eqb (filter_oid y) (filter_oid x)) [d]))
    (fs ++ [d]) = fs.
Proof.
  induction fs as [|x rest IH]; intros F; cbn.
  - now rewrite Nat.eqb_refl.
  - inversion F as [|? ? N R]; subst.
    destruct (Nat.eqb_spec (filter_oid d) (filter_oid x)); [congruence|].
    cbn. f_equal. now apply IH.
Qed.

(** X28.  Adding a filter with [filterBy] and clearing it with [clearFilter]
    gives back the list of filters there was, when no filter in it is the
    same object as the one added. *)
Theorem clearFilter_undoes_filterBy h c d :
  (_filters c < List.length (Heap.filterArrays h))%nat ->
  Forall (fun x => filter_oid x <> filter_oid d) (filters h c) ->
  filters (fst (clearFilter (fst (filterBy h c (One d) false))
                            (snd (filterBy h c (One d) false)) (One d)))
          (snd (clearFilter (fst (filterBy h c (One d) false))
                            (snd (filterBy h c (One d) false)) (One d)))
  = filters h c.
Proof.
  intros L F. rewrite clearFilter_filters, filterBy_appends by exact L.
  cbn [argumentList]. now apply filter_out_last.
Qed.

(** X29.  [sortByColumn] and [filterByColumn] change nothing when they raise,
    which they do for a column that is not in the list and for one that is
    not sortable, or not filterable. *)
Theorem column_errors_change_nothing h c columnName direction operator value :
  (forall e, snd (sortByColumn h c columnName direction) = Raised e ->
             fst (sortByColumn h c columnName direction) = (h, c))
  /\ (forall e, snd (filterByColumn h c columnName operator value) = Raised e ->
                fst (filterByColumn h c columnName operator value) = (h, c))
  /\ (findColumn h c columnName = None ->
      snd (sortByColumn h c columnName direction)
      = Raised (TypeErr "Cannot read properties of undefined")
      /\ snd (filterByColumn h c columnName operator value)
         = Raised (TypeErr "Cannot read properties of undefined")).
Proof.
  unfold sortByColumn, filterByColumn.
  destruct (findColumn h c columnName) as [col|].
  - destruct (column_sortable col), (column_filterable col); cbn;
      repeat split; intros; (reflexivity || discriminate).
  - repeat split; intros; reflexivity.
Qed.

Section Construction.

Variable ext : Externals.

Lemma filterR_raises {A : Type} (p : A -> Result bool) x e : forall l,
  List.In x l -> p x = Throw e -> exists e', Engine.filterR p l = Throw e'.
Proof.
  induction l as [|y rest IH]; intros I P; [contradiction|].
  cbn [Engine.filterR]. destruct (p y) as [b|e1] eqn:E; [|now exists e1].
  cbn [bind]. destruct I as [->|I]; [congruence|].
  destruct (IH I P) as [e' R]. rewrite R. now exists e'.
Qed.

Lemma searchMatches_shadowed qry fields :
  JS.hasKey "hasOwnProperty" fields = true ->
  Engine.searchMatches qry (JObj fields)
  = Throw (TypeErr "x.hasOwnProperty is not a function").
Proof.
  intros H. unfold Engine.searchMatches. cbn [Engine.enumerableKeys].
  destruct fields as [|[k v] rest]; [discriminate H|].
  cbn [map fst Engine.searchKeys Engine.hasOwnProperty]. now rewrite H.
Qed.

(** X30.  A backing sequence with an element that has a property named
    [hasOwnProperty] cannot be wrapped: the search step, which runs in the
    constructor because no search term is set yet, calls that property, and
    the constructor throws. *)
Theorem construct_raises_on_shadowed_hasOwnProperty h wrapped columns fields :
  List.In (JObj fields) wrapped ->
  JS.hasKey "hasOwnProperty" fields = true ->
  exists e, snd (construct ext h wrapped (Some columns)) = Throw e.
Proof.
  intros I K. unfold construct. cbn [Heap.alloc assign_columns].
  cbn [Heap.withColumns Heap.withFilters Heap.withSorters Heap.columnArrays
       Heap.filterArrays Heap.sortArrays Heap.nextOid].
  rewrite ValueCursorFacts.select_unfold.
  match goal with
  | |- context [Engine.filterCollectionBy ext ?w (filters ?hh ?cc)] =>
      assert (F : filters hh cc = [])
        by (unfold filters; cbn;
            apply (HeapFacts.read_alloc_fresh (Heap.filterArrays h) []));
      rewrite F
  end.
  rewrite EngineFacts.filterCollectionBy_no_filter.
  cbn [terms _terms set_columns _wrapped].
  destruct (filterR_raises (Engine.searchMatches (query None)) (JObj fields)
              (TypeErr "x.hasOwnProperty is not a function") wrapped I
              (searchMatches_shadowed _ _ K)) as [e' R].
  unfold searchStage. cbn [termsEmpty]. rewrite R. now exists e'.
Qed.

End Construction.

(** *** The theorems above on the sample cursors *)

Lemma tuned_intermediate :
  intermediate Reference.externals (fst tuned) (snd tuned) = Ok [].
Proof. reflexivity. Qed.

Lemma grown_steps : steps Reference.externals (builtHeap, builtCursor) grown.
Proof.
  apply steps_more with (s' := tuned).
  2: { unfold grown. destruct tuned as [h c]. apply step_caller. }
  apply steps_more with
    (s' := ValueCursor.filterBy builtHeap
             (fst (assign_limit Reference.externals builtHeap builtCursor 2))
             (One older) false).
  2: { unfold tuned. destruct (filterBy _ _ _ _). apply step_sortBy. }
  apply steps_more with
    (s' := (builtHeap, fst (assign_limit Reference.externals builtHeap builtCursor 2))).
  2: apply step_filterBy.
  apply steps_more with (s' := (builtHeap, builtCursor)); [|apply step_assign_limit].
  apply steps_none.
Qed.

(** The cursor was built on three people; the caller has pushed a fourth
    one since, and [count] is still 3. *)
Lemma value_cursor_settled_shape_witness :
  construct Reference.externals callerHeap people (Some 0%nat)
  = (builtHeap, Ok builtCursor)
  /\ steps Reference.externals (builtHeap, builtCursor) grown
  /\ List.length (_wrapped (snd grown)) = 4%nat
  /\ settledShape people (snd grown).
Proof.
  split; [reflexivity|]. split; [exact grown_steps|]. split; [reflexivity|].
  exact (value_cursor_settled_shape Reference.externals callerHeap people (Some 0%nat)
           builtHeap builtCursor grown eq_refl grown_steps).
Defined.


Lemma select_beyond_end_is_empty_witness :
  intermediate Reference.externals (fst tuned) (snd tuned) = Ok []
  /\ 1 <= 3 /\ 1 <= limit (snd tuned)
  /\ Z.of_nat (List.length (_wrapped (snd tuned))) <= (3 - 1) * limit (snd tuned)
  /\ snd (select Reference.externals (fst tuned) (snd tuned) 3) = Resolved []
  /\ items (fst (select Reference.externals (fst tuned) (snd tuned) 3)) = []
  /\ current (fst (select Reference.externals (fst tuned) (snd tuned) 3)) = 3.
Proof.
  split; [reflexivity|]. split; [lia|]. split; [vm_compute; discriminate|].
  split; [vm_compute; discriminate|].
  apply (select_beyond_end_is_empty Reference.externals (fst tuned) (snd tuned) 3 []);
    [reflexivity|lia|vm_compute; discriminate|vm_compute; discriminate].
Defined.

Lemma pages_concatenate_witness :
  intermediate Reference.externals (fst tuned) (snd tuned) = Ok []
  /\ 1 <= limit (snd tuned)
  /\ List.concat (map (fun p => items (fst (select Reference.externals (fst tuned)
                                                  (snd tuned) p)))
                      (firstPages 2))
     = firstn (2 * Z.to_nat (limit (snd tuned))) (_wrapped (snd tuned))
  /\ (Z.of_nat (List.length (_wrapped (snd tuned))) <= Z.of_nat 2 * limit (snd tuned) ->
      List.concat (map (fun p => items (fst (select Reference.externals (fst tuned)
                                                   (snd tuned) p)))
                       (firstPages 2))
      = _wrapped (snd tuned)).
Proof.
  split; [reflexivity|]. split; [vm_compute; discriminate|].
  apply (pages_concatenate Reference.externals (fst tuned) (snd tuned) [] 2);
    [reflexivity|vm_compute; discriminate].
Defined.

Lemma select_raise_keeps_page_witness :
  Engine.filterCollectionBy Reference.externals (_wrapped (snd withDee))
                            (filters (fst withDee) (snd withDee))
  = Throw (Err "Invalid reference token: Age")
  /\ snd (select Reference.externals (fst withDee) (snd withDee) 2)
     = Raised (Err "Invalid reference token: Age")
  /\ current (fst (select Reference.externals (fst withDee) (snd withDee) 2))
     = current (snd withDee)
  /\ items (fst (select Reference.externals (fst withDee) (snd withDee) 2))
     = _wrapped (snd withDee).
Proof.
  split; [reflexivity|].
  apply (select_raise_keeps_page Reference.externals (fst withDee) (snd withDee) 2
           (Err "Invalid reference token: Age")).
  reflexivity.
Defined.

Lemma filterCollectionBy_keeps_all_satisfied_witness :
  Engine.filterCollectionBy Reference.externals people [older] = Ok [ann; cyd]
  /\ forall x, List.In x [ann; cyd]
               <-> List.In x people /\ satisfiesAll Reference.externals x [older].
Proof.
  split; [reflexivity|].
  apply (filterCollectionBy_keeps_all_satisfied Reference.externals people [older]
           [ann; cyd]).
  reflexivity.
Defined.

Lemma unknown_operator_keeps_nothing_witness :
  (forall x, List.In x people ->
             exists val, pointerGet Reference.externals x "/Age" = Ok val)
  /\ Engine.filterCollectionBy Reference.externals people
       [mkFilter 7 "/Age" OtherOperator (JInt 30)] = Ok [].
Proof.
  assert (H : forall x, List.In x people ->
                        exists val, pointerGet Reference.externals x "/Age" = Ok val).
  { intros x [<-|[<-|[<-|[]]]]; eexists; reflexivity. }
  split; [exact H|].
  exact (unknown_operator_keeps_nothing Reference.externals people 7%nat "/Age"
           (JInt 30) H).
Defined.

Lemma notIn_without_array_is_equals_witness :
  Lodash.isArray (JStr "Bob") = false
  /\ Engine.filterCollectionBy Reference.externals people
       [mkFilter 7 "/Name" NotIn (JStr "Bob")]
     = Engine.filterCollectionBy Reference.externals people
         [mkFilter 7 "/Name" Equals (JStr "Bob")]
  /\ Engine.filterCollectionBy Reference.externals people
       [mkFilter 7 "/Name" In (JStr "Bob")]
     = Engine.filterCollectionBy Reference.externals people
         [mkFilter 7 "/Name" Equals (JStr "Bob")].
Proof.
  split; [reflexivity|].
  apply (notIn_without_array_is_equals Reference.externals people 7%nat "/Name"
           (JStr "Bob")).
  reflexivity.
Defined.

Lemma descriptors_are_appended_witness :
  (_filters (snd tuned) < List.length (Heap.filterArrays (fst tuned)))%nat
  /\ (_sorters (snd tuned) < List.length (Heap.sortArrays (fst tuned)))%nat
  /\ (_filters (snd (filterBy (fst tuned) (snd tuned) (Many 0%nat) false))
      = _filters (snd tuned)
      /\ filters (fst (filterBy (fst tuned) (snd tuned) (Many 0%nat) false))
                 (snd (filterBy (fst tuned) (snd tuned) (Many 0%nat) false))
         = (filters (fst tuned) (snd tuned)
            ++ argumentList (Heap.filterArrays (fst tuned)) (Many 0%nat))%list)
  /\ (_sorters (snd (sortBy (fst tuned) (snd tuned) (One byName) false))
      = _sorters (snd tuned)
      /\ sorters (fst (sortBy (fst tuned) (snd tuned) (One byName) false))
                 (snd (sortBy (fst tuned) (snd tuned) (One byName) false))
         = (sorters (fst tuned) (snd tuned)
            ++ argumentList (Heap.sortArrays (fst tuned)) (One byName))%list).
Proof.
  split; [vm_compute; lia|]. split; [vm_compute; lia|].
  apply (descriptors_are_appended (fst tuned) (snd tuned) (Many 0%nat) (One byName));
    vm_compute; lia.
Defined.

Lemma clearFilter_undoes_filterBy_witness :
  (_filters (snd tuned) < List.length (Heap.filterArrays (fst tuned)))%nat
  /\ Forall (fun x => filter_oid x <> filter_oid (mkFilter 5 "/Name" Equals (JStr "Bob")))
            (filters (fst tuned) (snd tuned))
  /\ filters
       (fst (clearFilter
               (fst (filterBy (fst tuned) (snd tuned)
                              (One (mkFilter 5 "/Name" Equals (JStr "Bob"))) false))
               (snd (filterBy (fst tuned) (snd tuned)
                              (One (mkFilter 5 "/Name" Equals (JStr "Bob"))) false))
               (One (mkFilter 5 "/Name" Equals (JStr "Bob")))))
       (snd (clearFilter
               (fst (filterBy (fst tuned) (snd tuned)
                              (One (mkFilter 5 "/Name" Equals (JStr "Bob"))) false))
               (snd (filterBy (fst tuned) (snd tuned)
                              (One (mkFilter 5 "/Name" Equals (JStr "Bob"))) false))
               (One (mkFilter 5 "/Name" Equals (JStr "Bob")))))
     = filters (fst tuned) (snd tuned).
Proof.
  assert (L : (_filters (snd tuned) < List.length (Heap.filterArrays (fst tuned)))%nat)
    by (vm_compute; lia).
  assert (F : Forall (fun x => filter_oid x
                               <> filter_oid (mkFilter 5 "/Name" Equals (JStr "Bob")))
                     (filters (fst tuned) (snd tuned)))
    by (repeat constructor; discriminate).
  split; [exact L|]. split; [exact F|].
  exact (clearFilter_undoes_filterBy (fst tuned) (snd tuned)
           (mkFilter 5 "/Name" Equals (JStr "Bob")) L F).
Defined.

Lemma construct_raises_on_shadowed_hasOwnProperty_witness :
  List.In (JObj [("hasOwnProperty", JBool true)])
          [ann; JObj [("hasOwnProperty", JBool true)]]
  /\ JS.hasKey "hasOwnProperty" [("hasOwnProperty", JBool true)] = true
  /\ exists e,
       snd (construct Reference.externals callerHeap
                      [ann; JObj [("hasOwnProperty", JBool true)]] (Some 0%nat))
       = Throw e.
Proof.
  assert (I : List.In (JObj [("hasOwnProperty", JBool true)])
                      [ann; JObj [("hasOwnProperty", JBool true)]])
    by (right; left; reflexivity).
  split; [exact I|]. split; [reflexivity|].
  exact (construct_raises_on_shadowed_hasOwnProperty Reference.externals callerHeap
           [ann; JObj [("hasOwnProperty", JBool true)]] 0%nat
           [("hasOwnProperty", JBool true)] I eq_refl).
Defined.

End ValueCursorMore.
